(** * aws-nlb-controller: the allocation ledger and the service reconciler

    A shallow embedding of
      - [store/store.go]            (package [store]: the in-memory ledger),
      - the [aws] client            (package [aws]: [DeleteListenerAndTargetArn]),
      - the service controller      (package [controllers]: [Reconcile],
                                     [checkAllocationValidity]),
    followed by the properties of the design document that can be stated
    over it.

    Conventions of the embedding.
      - Go [int] is [Z]; no operation of the modelled code can overflow.
      - A Go [map] is a [gmap]; reading an absent key yields the zero value,
        reading through a nil inner map yields "absent", writing into a nil
        inner map panics.
      - The ledger stores pointers ([*string], [*Allocation]) to values that
        are never written after they are created and that are never nil, so
        the maps hold the pointed-to values.
      - A Go panic is the outcome [Panic]; the state reached when the panic
        is raised is kept next to it.
      - [range] over a Go map visits the keys in an unspecified order, which
        may differ from one loop to the next; the order used by a loop is an
        explicit argument of the function containing the loop. *)

From stdpp Require Import base option list numbers strings gmap fin_maps.
From Stdlib Require Import ZArith Lia Ascii DecimalString.

Open Scope Z_scope.

(** ** Errors, outcomes *)

(** Go's [error] interface, restricted to the kinds of values the modelled
    code creates or inspects. *)
Inductive error : Type :=
  | ErrorString (msg : string)          (* errors.New, fmt.Errorf *)
  | StatusError (reason msg : string)   (* k8s.io/apimachinery StatusError *)
  | AwsError (code msg : string).       (* awserr.Error of the AWS SDK *)

(** [apierrors.IsNotFound], on the reason of the status. A [StatusError]
    carries no HTTP code: the library also answers true for a status of
    code 404 whose reason is none of the reasons it knows, and such a
    status is not among the values of [error]. *)
Definition IsNotFound (e : error) : bool :=
  match e with
  | StatusError reason _ => bool_decide (reason = "NotFound")
  | _ => false
  end.

(** What a call does: it returns a value, or it panics. *)
Inductive outcome (X : Type) : Type :=
  | Ok (x : X)
  | Panic.
Arguments Ok {X} x.
Arguments Panic {X}.

(** ** Package [store] *)

Module store.

Record Allocation : Type := mkAllocation {
  ListenerArn : string;
  TargetArn : string;
  NLB : string;
  Port : Z;
  ServiceNamespacedName : string;
}.

(** [type store struct]. [typeNlbAllocationMap] is [map[string]map[int]*string],
    [typeServiceAllocationMap] is [map[string]*Allocation]. *)
Record store : Type := mkStore {
  ServiceAllocationMap : gmap string Allocation;
  NlbAllocationMap : gmap string (gmap Z string);
  NlbHosts : gmap string string;
}.

(** [s.NlbAllocationMap[nlb][port]] with the comma-ok form: the inner map of
    an absent [nlb] is nil and reads as empty. *)
Definition occupant (s : store) (nlb : string) (port : Z) : option string :=
  match NlbAllocationMap s !! nlb with
  | Some ports => ports !! port
  | None => None
  end.

Definition GetNLBHost (s : store) (nlb : string) : string :=
  default "" (NlbHosts s !! nlb).

Definition GetAllocationForSVC (s : store) (name : string) : option Allocation :=
  ServiceAllocationMap s !! name.

(** [s.ServiceAllocationMap[name].ListenerArn]: the field of a nil
    [*Allocation] is a nil-pointer dereference. *)
Definition GetListenerArnFor (s : store) (serviceNamespacedName : string)
  : outcome string :=
  match ServiceAllocationMap s !! serviceNamespacedName with
  | Some a => Ok (ListenerArn a)
  | None => Panic
  end.

Definition AssignNLBAndPortToServiceInNamespace
    (s : store) (nlb : string) (port : Z) (serviceNamespacedName : string)
    (listenerArn targetArn : string) : store * outcome (option error) :=
  let conflict :=               (* val, ok := ...; ok && *val != name *)
    match occupant s nlb port with
    | Some val => if bool_decide (val ≠ serviceNamespacedName) then Some val else None
    | None => None
    end in
  match conflict with
  | Some val => (s, Ok (Some (ErrorString ("port reserved for svc " +:+ val))))
  | None =>
      let value := mkAllocation listenerArn targetArn nlb port serviceNamespacedName in
      let s1 := mkStore (<[serviceNamespacedName := value]> (ServiceAllocationMap s))
                        (NlbAllocationMap s) (NlbHosts s) in
      match NlbAllocationMap s1 !! nlb with
      | Some ports =>
          (mkStore (ServiceAllocationMap s1)
                   (<[nlb := <[port := ServiceNamespacedName value]> ports]> (NlbAllocationMap s1))
                   (NlbHosts s1), Ok None)
      | None => (s1, Panic)       (* assignment to entry in nil map *)
      end
  end.

(** The [nlb] and [port] arguments are not read by the body. *)
Definition ReleaseNLBAndPortForService
    (s : store) (serviceNamespacedName : string) (nlb : string) (port : Z) : store :=
  match ServiceAllocationMap s !! serviceNamespacedName with
  | Some val =>
      let nlbs :=
        match occupant s (NLB val) (Port val), NlbAllocationMap s !! NLB val with
        | Some _, Some ports => <[NLB val := delete (Port val) ports]> (NlbAllocationMap s)
        | _, _ => NlbAllocationMap s
        end in
      mkStore (delete serviceNamespacedName (ServiceAllocationMap s)) nlbs (NlbHosts s)
  | None => s
  end.

(** [for port := 9000; port < 9050; port++]: the values [port] takes. *)
Definition portRange : list Z := seqZ 9000 50.

(** The inner loop of [GetVacantNLBAndPortForService] on one inner map: the
    first [port] of the range for which [ports[port]] is absent. *)
Fixpoint firstVacantPort (ports : gmap Z string) (range : list Z) : option Z :=
  match range with
  | [] => None
  | port :: range' =>
      match ports !! port with
      | None => Some port
      | Some _ => firstVacantPort ports range'
      end
  end.

(** [order] is the sequence in which [range s.NlbAllocationMap] yields the
    keys on this call; Go leaves it unspecified. A name of [order] that is
    not a key is yielded by no [range] and is skipped. *)
Fixpoint GetVacantNLBAndPortForService
    (order : list string) (s : store) (serviceNamespacedName : string)
  : store * (string * Z * option error) :=
  match order with
  | [] => (s, ("", 0, Some (ErrorString "no vacancy found")))
  | nlb :: order' =>
      match NlbAllocationMap s !! nlb with
      | Some ports =>
          match firstVacantPort ports portRange with
          | Some port =>
              (mkStore (ServiceAllocationMap s)
                       (<[nlb := <[port := serviceNamespacedName]> ports]> (NlbAllocationMap s))
                       (NlbHosts s),
               (nlb, port, None))
          | None => GetVacantNLBAndPortForService order' s serviceNamespacedName
          end
      | None => GetVacantNLBAndPortForService order' s serviceNamespacedName
      end
  end.

(** An [order] that [range s.NlbAllocationMap] can produce: every key once. *)
Definition iterationOrder (s : store) (order : list string) : Prop :=
  order ≡ₚ elements (dom (NlbAllocationMap s)).

(** [strings.Split] for a one-character separator. *)
Fixpoint Split (s : string) (sep : ascii) : list string :=
  match s with
  | EmptyString => [EmptyString]
  | String c rest =>
      if Ascii.eqb c sep then EmptyString :: Split rest sep
      else match Split rest sep with
           | field :: fields => String c field :: fields
           | [] => [String c EmptyString]
           end
  end.

(** The loop of [loadNlbData] over [nlbList]. *)
Fixpoint loadNlbEntries (nlbList : list string)
    (nlbData : gmap string (gmap Z string)) (nlbHosts : gmap string string)
  : outcome (gmap string (gmap Z string) * gmap string string) :=
  match nlbList with
  | [] => Ok (nlbData, nlbHosts)
  | nlbWithHost :: rest =>
      match Split nlbWithHost ":" with
      | nlb :: nlbHost :: _ =>
          if bool_decide (nlb ≠ "")
          then loadNlbEntries rest (<[nlb := ∅]> nlbData) (<[nlb := nlbHost]> nlbHosts)
          else loadNlbEntries rest nlbData nlbHosts
      | _ => Panic                (* index out of range [1] *)
      end
  end.

(** [NLB_LIST] is the value of the environment variable of that name. *)
Definition loadNlbData (NLB_LIST : string)
  : outcome (gmap string (gmap Z string) * gmap string string) :=
  let nlbList := Split NLB_LIST "," in
  if bool_decide (length nlbList = 0%nat) then Panic
  else loadNlbEntries nlbList ∅ ∅.

Definition New (NLB_LIST : string) : outcome store :=
  match loadNlbData NLB_LIST with
  | Ok (nlbData, nlbHostData) => Ok (mkStore ∅ nlbData nlbHostData)
  | Panic => Panic
  end.

End store.

(** ** Package [strconv] *)

Module strconv.

Definition digitValue (c : ascii) : option Z :=
  let n := Z.of_N (N_of_ascii c) in
  if (48 <=? n) && (n <=? 57) then Some (n - 48) else None.

Fixpoint parseDigits (s : string) (acc : Z) : option Z :=
  match s with
  | EmptyString => Some acc
  | String c rest =>
      match digitValue c with
      | Some d => parseDigits rest (acc * 10 + d)
      | None => None
      end
  end.

(** [strconv.Atoi] on a 64-bit platform: an optional sign, then at least
    one decimal digit and nothing else, the value within [int]. [None] is
    the case of a non-nil error. *)
Definition Atoi (s : string) : option Z :=
  match s with
  | EmptyString => None
  | String c rest =>
      let '(neg, digits) :=
        if Ascii.eqb c "-" then (true, rest)
        else if Ascii.eqb c "+" then (false, rest)
        else (false, s) in
      match digits with
      | EmptyString => None
      | _ =>
          match parseDigits digits 0 with
          | Some n =>
              let v := if neg : bool then - n else n in
              if (- 2 ^ 63 <=? v) && (v <? 2 ^ 63) then Some v else None
          | None => None
          end
      end
  end.

(** [strconv.Itoa]: the decimal digits, after a minus sign when negative. *)
Definition Itoa (i : Z) : string :=
  DecimalString.NilZero.string_of_int (Z.to_int i).

End strconv.

(** ** Package [aws] *)

Module aws.

(** [type Client interface]; [A] is the state behind the interface value.
    The methods are assumed to return. *)
Class Client (A : Type) : Type := {
  CreateNLBListenerForPort :
    A → string → Z → Z → string → A * (string * string * option error);
  CheckListener :
    A → string → string → string → Z → Z → A * option error;
  DeleteListenerAndTargetArn :
    A → string → string → A * option error;
}.

(** The part of [elbv2.ELBV2] used to delete; [E] is the provider's state.
    The outputs of both calls are discarded by the caller. *)
Class ELBV2 (E : Type) : Type := {
  DeleteListener : E → string → E * option error;
  DeleteTargetGroup : E → string → E * option error;
}.

(** The error codes with which the provider reports that the listener,
    respectively the target group, does not exist. *)
Definition notFound (e : error) : bool :=
  match e with
  | AwsError code _ =>
      bool_decide (code = "ListenerNotFound") || bool_decide (code = "TargetGroupNotFound")
  | _ => false
  end.

(** [err.Error()]. For an error of the SDK this is its code, a colon and
    its message; the status code and the request id that the SDK appends
    are left out. *)
Definition Error_ (e : error) : string :=
  match e with
  | ErrorString msg => msg
  | StatusError _ msg => msg
  | AwsError code msg => code +:+ ": " +:+ msg
  end.

(** [strings.HasPrefix] and [strings.Contains]. *)
Fixpoint HasPrefix (s prefix : string) : bool :=
  match prefix, s with
  | EmptyString, _ => true
  | String _ _, EmptyString => false
  | String c prefix', String d s' => Ascii.eqb c d && HasPrefix s' prefix'
  end.

Fixpoint Contains (s substr : string) : bool :=
  HasPrefix s substr
  || match s with
     | EmptyString => false
     | String _ s' => Contains s' substr
     end.

(** The structures of the SDK (packages [elbv2] and [ec2]) as far as the
    client reads or fills them. A field that is a pointer is an [option],
    [None] being nil. The elements of the slices are pointers that the SDK
    never leaves nil; they are the structures themselves. [ForwardConfig]
    points to a structure of which only the slice [TargetGroups] is read. *)
Record TargetGroupTuple : Type := mkTargetGroupTuple {
  tuple_TargetGroupArn : option string;
}.

Record Action : Type := mkAction {
  ForwardConfig : option (list TargetGroupTuple);
  action_TargetGroupArn : option string;
  action_Type : option string;
}.

Record Listener : Type := mkListener {
  ListenerArn : option string;
  listener_Port : option Z;
  DefaultActions : list Action;
}.

Record TargetGroup : Type := mkTargetGroup {
  TargetGroupArn : option string;
  targetGroup_Port : option Z;
}.

Record LoadBalancer : Type := mkLoadBalancer {
  LoadBalancerArn : option string;
}.

Record Instance : Type := mkInstance { InstanceId : option string }.

Record Reservation : Type := mkReservation { Instances : list Instance }.

Record TargetDescription : Type := mkTargetDescription {
  Id : option string;
  target_Port : option Z;
}.

Record DescribeTargetGroupsInput : Type := mkDescribeTargetGroupsInput {
  Names : list string;
  TargetGroupArns : list string;
  PageSize : option Z;
}.

Record CreateTargetGroupInput : Type := mkCreateTargetGroupInput {
  ctg_Name : string;
  ctg_Port : Z;
  ctg_Protocol : string;
  ctg_TargetType : string;
  ctg_VpcId : string;
}.

Record RegisterTargetsInput : Type := mkRegisterTargetsInput {
  rt_TargetGroupArn : option string;
  rt_Targets : list TargetDescription;
}.

Record CreateListenerInput : Type := mkCreateListenerInput {
  cl_DefaultActions : list Action;
  cl_LoadBalancerArn : option string;
  cl_Port : Z;
  cl_Protocol : string;
}.

(** The other calls the client makes on [elbv2.ELBV2] and the one it makes
    on [ec2.EC2]; [E] is the provider's state. Every call returns its
    output structure, of which the slice that the client reads is kept,
    and an error. [DescribeListeners] takes the listener ARNs and the page
    size, [DescribeLoadBalancers] the names, [DescribeInstances] the
    filters as pairs of a name and its values. *)
Class API (E : Type) : Type := {
  DescribeListeners : E → list string → Z → E * (list Listener * option error);
  DescribeTargetGroups :
    E → DescribeTargetGroupsInput → E * (list TargetGroup * option error);
  DescribeLoadBalancers : E → list string → E * (list LoadBalancer * option error);
  CreateTargetGroup :
    E → CreateTargetGroupInput → E * (list TargetGroup * option error);
  DescribeInstances :
    E → list (string * list string) → E * (list Reservation * option error);
  RegisterTargets : E → RegisterTargetsInput → E * option error;
  CreateListener : E → CreateListenerInput → E * (list Listener * option error);
}.

(** The fields of [type client struct] that are not clients of the SDK. *)
Record config : Type := mkConfig {
  VPC : string;
  protocol : string;
  actionType : string;
}.

(** Methods of [type client struct]. *)
Module client.

Definition DeleteListenerAndTargetArn {E} `{!ELBV2 E}
    (c : E) (listenerArn targetArn : string) : E * option error :=
  let '(c, err) := DeleteListener c listenerArn in
  match err with
  | Some e => (c, Some e)
  | None =>
      let '(c, err) := DeleteTargetGroup c targetArn in
      match err with
      | Some e => (c, Some e)
      | None => (c, None)
      end
  end.

(** The load balancer name, the fourth parameter, is blank in the source:
    it is not looked at. An index into an empty slice and the dereference
    of a nil pointer panic. *)
Definition CheckListener {E} `{!API E}
    (c : E) (svcListenerArn svcTargetGroupArn : string) (_ : string)
    (svcNLBPort svcNodePort : Z) : E * outcome (option error) :=
  let '(c, (listeners, err)) := DescribeListeners c [svcListenerArn] 50 in
  match err with
  | Some e => (c, Ok (Some e))
  | None =>
  match listeners with
  | [] => (c, Panic)
  | listener :: _ =>
  match listener_Port listener with
  | None => (c, Panic)
  | Some livePort =>
  if bool_decide (livePort ≠ svcNLBPort)
  then (c, Ok (Some (ErrorString "aws: listener port and svcNLBPort dont match")))
  else
  match DefaultActions listener with
  | [] => (c, Panic)
  | action :: _ =>
  match ForwardConfig action with
  | None => (c, Panic)
  | Some targetGroups =>
  match targetGroups with
  | [] => (c, Panic)
  | tuple :: _ =>
  match tuple_TargetGroupArn tuple with
  | None => (c, Panic)
  | Some targetGroupArn =>
  if bool_decide (targetGroupArn ≠ svcTargetGroupArn)
  then (c, Ok (Some (ErrorString "aws: target group arn dont match")))
  else
  let '(c, (groups, err)) :=
    DescribeTargetGroups c (mkDescribeTargetGroupsInput [] [targetGroupArn] None) in
  match err with
  | Some e => (c, Ok (Some e))
  | None =>
  match groups with
  | [] => (c, Panic)
  | group :: _ =>
  match targetGroup_Port group with
  | None => (c, Panic)
  | Some livePort =>
  if bool_decide (livePort ≠ svcNodePort)
  then (c, Ok (Some (ErrorString "aws: target port and node port dont match")))
  else (c, Ok None)
  end end end end end end end end end end.

(** [elbv2.ProtocolEnumTcp], [elbv2.TargetTypeEnumInstance] and
    [elbv2.ActionTypeEnumForward]. *)
Definition ProtocolEnumTcp : string := "TCP".
Definition TargetTypeEnumInstance : string := "instance".
Definition ActionTypeEnumForward : string := "forward".

(** The branch of [GetTargetGroupArn] for [len(groups.TargetGroups) == 0]. *)
Definition createTargetGroup {E} `{!API E}
    (cfg : config) (c : E) (vpcId targetGroupName : string) (nodePort : Z)
  : E * outcome (string * option error) :=
  let '(c, (created, err)) :=
    CreateTargetGroup c
      (mkCreateTargetGroupInput targetGroupName nodePort ProtocolEnumTcp
         TargetTypeEnumInstance vpcId) in
  match err with
  | Some e => (c, Ok ("", Some e))
  | None =>
  let '(c, (reservations, err)) := DescribeInstances c [("vpc-id", [VPC cfg])] in
  match err with
  | Some e => (c, Ok ("", Some e))
  | None =>
  match reservations with
  | [] => (c, Panic)
  | reservation :: _ =>
  let targetDescs :=
    (λ i, mkTargetDescription (InstanceId i) (Some nodePort))
      <$> Instances reservation in
  match created with
  | [] => (c, Panic)
  | group :: _ =>
  let '(c, err) :=
    RegisterTargets c (mkRegisterTargetsInput (TargetGroupArn group) targetDescs) in
  match err with
  | Some e => (c, Ok ("", Some e))
  | None =>
  match TargetGroupArn group with
  | None => (c, Panic)
  | Some arn => (c, Ok (arn, None))
  end end end end end end.

(** The output of [DescribeTargetGroups] is read also when the call
    returned an error that mentions TargetGroupNotFound. *)
Definition GetTargetGroupArn {E} `{!API E}
    (cfg : config) (c : E) (vpcId : string) (nodePort : Z)
  : E * outcome (string * option error) :=
  let pageSize := 50 in
  let targetGroupName := strconv.Itoa nodePort in
  let '(c, (groups, err)) :=
    DescribeTargetGroups c
      (mkDescribeTargetGroupsInput [targetGroupName] [] (Some pageSize)) in
  let fatal :=
    match err with
    | Some e => if negb (Contains (Error_ e) "TargetGroupNotFound") then Some e else None
    | None => None
    end in
  match fatal with
  | Some e => (c, Ok ("", Some e))
  | None =>
      match groups with
      | [group] =>
          match TargetGroupArn group with
          | None => (c, Panic)
          | Some arn => (c, Ok (arn, None))
          end
      | [] => createTargetGroup cfg c vpcId targetGroupName nodePort
      | _ => (c, Ok ("", Some (ErrorString "aws: TargetGroup not found")))
      end
  end.

(** The first statement, [svcName = strings.Replace(svcName, "/", "-", 1)],
    assigns a value that is not read afterwards. *)
Definition CreateNLBListenerForPort {E} `{!API E}
    (cfg : config) (c : E) (nlbName : string) (port nodePort : Z) (svcName : string)
  : E * outcome (string * string * option error) :=
  let '(c, (loadBalancers, err)) := DescribeLoadBalancers c [nlbName] in
  match err with
  | Some e => (c, Ok ("", "", Some e))
  | None =>
      match loadBalancers with
      | [nlb] =>
          match GetTargetGroupArn cfg c (VPC cfg) nodePort with
          | (c, Panic) => (c, Panic)
          | (c, Ok (_, Some e)) => (c, Ok ("", "", Some e))
          | (c, Ok (targetGroupArn, None)) =>
              let '(c, (listeners, err)) :=
                CreateListener c
                  (mkCreateListenerInput
                     [mkAction None (Some targetGroupArn) (Some (actionType cfg))]
                     (LoadBalancerArn nlb) port (protocol cfg)) in
              match err with
              | Some e => (c, Ok ("", "", Some e))
              | None =>
                  match listeners with
                  | [] => (c, Panic)
                  | listener :: _ =>
                      match ListenerArn listener with
                      | None => (c, Panic)
                      | Some arn => (c, Ok (arn, targetGroupArn, None))
                      end
                  end
              end
          end
      | _ =>
          (c, Ok ("", "", Some (ErrorString ("aws: " +:+ nlbName +:+ " nlb not found"))))
      end
  end.

(** The configuration [New] gives the client; [VPC_ID] is the value of
    the environment variable of that name. *)
Definition New (VPC_ID : string) : config :=
  mkConfig VPC_ID "TCP" ActionTypeEnumForward.

End client.

End aws.

(** ** Kubernetes API objects and the cluster client *)

Module corev1.

Record ServicePort : Type := mkServicePort { NodePort : Z }.

Record Service : Type := mkService {
  Namespace : string;
  Name : string;
  Annotations : gmap string string;     (* ObjectMeta.Annotations *)
  Spec_Type : string;                   (* Spec.Type *)
  Spec_Ports : list ServicePort;        (* Spec.Ports *)
}.

Definition ServiceTypeNodePort : string := "NodePort".

(** [svc.Annotations[key]]: an absent key, also of a nil map, reads as "". *)
Definition annotation (svc : Service) (key : string) : string :=
  default "" (Annotations svc !! key).

Definition setAnnotation (key value : string) (svc : Service) : Service :=
  mkService (Namespace svc) (Name svc) (<[key := value]> (Annotations svc))
            (Spec_Type svc) (Spec_Ports svc).

End corev1.

Module types.

Record NamespacedName : Type := mkNamespacedName {
  Namespace : string;
  Name : string;
}.

(** [NamespacedName.String]. *)
Definition String_ (n : NamespacedName) : string :=
  Namespace n +:+ "/" +:+ Name n.

End types.

Module client.

(** The two methods of controller-runtime's [client.Client] that the
    reconciler calls; [K] is the state of the cluster behind it. [Get]
    fills in the object or returns an error. The methods are assumed to
    return. *)
Class Client (K : Type) : Type := {
  Get : K → types.NamespacedName → corev1.Service + error;
  Update : K → corev1.Service → K * option error;
}.

End client.

(** ** Package [controllers] *)

Module controllers.

Import store corev1.

Definition serviceAnnotation : string := "github.com/chinmayrelkar/service".
Definition nlbAnnotationNLBHost : string := "service-nlb-host".
Definition nlbAnnotationNLBName : string := "service-nlb-name".
Definition nlbAnnotationPort : string := "service-nlb-port".
Definition nlbAnnotationListener : string := "service-nlb-listener".
Definition nlbAnnotationTarget : string := "service-nlb-target".

(** [ctrl.Result]; [RequeueAfter] is never set. *)
Record Result : Type := mkResult { Requeue : bool }.

(** [type ServiceReconciler struct]: the cluster client, the ledger and the
    provider client, each with the state it stands for. The only
    implementation of [store.Store] is [store.store]. *)
Record ServiceReconciler (K A : Type) : Type := mkServiceReconciler {
  Client : K;
  Store : store;
  AwsClient : A;
}.
Arguments mkServiceReconciler {K A}.
Arguments Client {K A}.
Arguments Store {K A}.
Arguments AwsClient {K A}.

(** The calls a pass makes on the provider and the writes it makes to the
    cluster, with what each returned, in the order they are made. *)
Inductive Call : Type :=
  | CallCheckListener (listenerArn targetArn nlb : string) (port nodePort : Z)
      (err : option error)
  | CallCreateNLBListenerForPort (nlb : string) (port nodePort : Z) (svcName : string)
      (ret : string * string * option error)
  | CallDeleteListenerAndTargetArn (listenerArn targetArn : string)
      (err : option error)
  | CallUpdate (svc : Service) (err : option error).

Definition isProviderMutation (c : Call) : bool :=
  match c with
  | CallCreateNLBListenerForPort _ _ _ _ _ => true
  | CallDeleteListenerAndTargetArn _ _ _ => true
  | _ => false
  end.

Definition isCreate (c : Call) : bool :=
  match c with
  | CallCreateNLBListenerForPort _ _ _ _ _ => true
  | _ => false
  end.

Definition isUpdate (c : Call) : bool :=
  match c with
  | CallUpdate _ _ => true
  | _ => false
  end.

Section Reconciler.

Context {K A : Type} `{!client.Client K} `{!aws.Client A}.

(** A computation on the reconciler [r]: the reconciler it leaves, the
    calls it made, and its value unless it panicked. *)
Definition M (X : Type) : Type :=
  ServiceReconciler K A → ServiceReconciler K A * list Call * outcome X.

Definition ret {X} (x : X) : M X := λ r, (r, [], Ok x).

Definition bind {X Y} (m : M X) (f : X → M Y) : M Y :=
  λ r,
    match m r with
    | (r1, calls1, Ok x) =>
        match f x r1 with
        | (r2, calls2, y) => (r2, calls1 ++ calls2, y)
        end
    | (r1, calls1, Panic) => (r1, calls1, Panic)
    end.

#[local] Instance M_ret : MRet M := @ret.
#[local] Instance M_bind : MBind M := λ X Y f m, bind m f.

(** [r.Get(ctx, req.NamespacedName, &svc)]. *)
Definition r_Get (name : types.NamespacedName) : M (Service + error) :=
  λ r, (r, [], Ok (client.Get (Client r) name)).

(** [r.Update(ctx, &svc)]. *)
Definition r_Update (svc : Service) : M (option error) :=
  λ r,
    let '(k, err) := client.Update (Client r) svc in
    (mkServiceReconciler k (Store r) (AwsClient r), [CallUpdate svc err], Ok err).

Definition Store_GetAllocationForSVC (name : string) : M (option Allocation) :=
  λ r, (r, [], Ok (GetAllocationForSVC (Store r) name)).

Definition Store_GetNLBHost (nlb : string) : M string :=
  λ r, (r, [], Ok (GetNLBHost (Store r) nlb)).

Definition Store_AssignNLBAndPortToServiceInNamespace
    (nlb : string) (port : Z) (name listenerArn targetArn : string) : M (option error) :=
  λ r,
    let '(s, err) :=
      AssignNLBAndPortToServiceInNamespace (Store r) nlb port name listenerArn targetArn in
    (mkServiceReconciler (Client r) s (AwsClient r), [], err).

Definition Store_ReleaseNLBAndPortForService
    (name nlb : string) (port : Z) : M unit :=
  λ r,
    (mkServiceReconciler (Client r)
       (ReleaseNLBAndPortForService (Store r) name nlb port) (AwsClient r),
     [], Ok tt).

Definition Store_GetVacantNLBAndPortForService
    (order : list string) (name : string) : M (string * Z * option error) :=
  λ r,
    let '(s, ret) := GetVacantNLBAndPortForService order (Store r) name in
    (mkServiceReconciler (Client r) s (AwsClient r), [], Ok ret).

Definition AwsClient_CheckListener
    (listenerArn targetArn nlb : string) (port nodePort : Z) : M (option error) :=
  λ r,
    let '(a, err) := aws.CheckListener (AwsClient r) listenerArn targetArn nlb port nodePort in
    (mkServiceReconciler (Client r) (Store r) a,
     [CallCheckListener listenerArn targetArn nlb port nodePort err], Ok err).

Definition AwsClient_CreateNLBListenerForPort
    (nlb : string) (port nodePort : Z) (svcName : string)
  : M (string * string * option error) :=
  λ r,
    let '(a, ret) := aws.CreateNLBListenerForPort (AwsClient r) nlb port nodePort svcName in
    (mkServiceReconciler (Client r) (Store r) a,
     [CallCreateNLBListenerForPort nlb port nodePort svcName ret], Ok ret).

Definition AwsClient_DeleteListenerAndTargetArn
    (listenerArn targetArn : string) : M (option error) :=
  λ r,
    let '(a, err) := aws.DeleteListenerAndTargetArn (AwsClient r) listenerArn targetArn in
    (mkServiceReconciler (Client r) (Store r) a,
     [CallDeleteListenerAndTargetArn listenerArn targetArn err], Ok err).

(** [int(svc.Spec.Ports[0].NodePort)]: index out of range on no ports. *)
Definition firstNodePort (svc : Service) : M Z :=
  λ r,
    match Spec_Ports svc with
    | p :: _ => (r, [], Ok (NodePort p))
    | [] => (r, [], Panic)
    end.

Definition checkAllocationValidity
    (serviceName svcAllocatedListenerArn svcAllocatedTargetArn svcAllocatedNLB : string)
    (svcAllocatedPort svcAllocatedNodePort : Z) : M (option error) :=
  err ← AwsClient_CheckListener svcAllocatedListenerArn svcAllocatedTargetArn
          svcAllocatedNLB svcAllocatedPort svcAllocatedNodePort;
  match err with
  | Some e => ret (Some e)
  | None =>
      err ← Store_AssignNLBAndPortToServiceInNamespace svcAllocatedNLB svcAllocatedPort
              serviceName svcAllocatedListenerArn svcAllocatedTargetArn;
      match err with
      | Some e => ret (Some e)
      | None => ret None
      end
  end.

(** The block under [if isNLBPortAllocated]: [true] when it ends in
    "Validation successful. Skipping" and the pass returns, [false] when
    control leaves the block to reallocate. *)
Definition validateAllocated (serviceName : string) (svc : Service) : M bool :=
  let svcAllocatedListenerArn := annotation svc nlbAnnotationListener in
  let svcAllocatedTargetArn := annotation svc nlbAnnotationTarget in
  let svcAllocatedNLB := annotation svc nlbAnnotationNLBName in
  svcAllocatedNodePort ← firstNodePort svc;
  match strconv.Atoi (annotation svc nlbAnnotationPort) with
  | None => ret false
  | Some svcAllocatedPort =>
      err ← checkAllocationValidity serviceName svcAllocatedListenerArn
              svcAllocatedTargetArn svcAllocatedNLB svcAllocatedPort svcAllocatedNodePort;
      match err with
      | Some _ => ret false
      | None => ret true
      end
  end.

(** The five assignments to [svc.Annotations] that record a binding. *)
Definition recordBinding (nlb host : string) (nlbPort : Z)
    (listenerArn targetArn : string) (svc : Service) : Service :=
  setAnnotation nlbAnnotationTarget targetArn
    (setAnnotation nlbAnnotationListener listenerArn
       (setAnnotation nlbAnnotationPort (strconv.Itoa nlbPort)
          (setAnnotation nlbAnnotationNLBHost host
             (setAnnotation nlbAnnotationNLBName nlb svc)))).

(** The pass from [r.Store.GetVacantNLBAndPortForService] to its end. *)
Definition allocate (order : list string) (req : types.NamespacedName)
    (svc : Service) : M (Result * option error) :=
  let serviceName := types.String_ req in
  '(nlb, nlbPort, err) ← Store_GetVacantNLBAndPortForService order serviceName;
  match err with
  | Some e => ret (mkResult true, Some e)
  | None =>
      nodePort ← firstNodePort svc;
      '(listenerArn, targetArn, err) ←
        AwsClient_CreateNLBListenerForPort nlb nlbPort nodePort (types.String_ req);
      match err with
      | Some e =>
          Store_ReleaseNLBAndPortForService serviceName nlb nlbPort;;
          ret (mkResult true, Some e)
      | None =>
          err ← Store_AssignNLBAndPortToServiceInNamespace nlb nlbPort serviceName
                  listenerArn targetArn;
          match err with
          | Some e =>
              Store_ReleaseNLBAndPortForService serviceName nlb nlbPort;;
              err2 ← AwsClient_DeleteListenerAndTargetArn listenerArn targetArn;
              match err2 with
              | Some e2 => ret (mkResult false, Some e2)
              | None => ret (mkResult true, Some e)
              end
          | None =>
              host ← Store_GetNLBHost nlb;
              let svc := recordBinding nlb host nlbPort listenerArn targetArn svc in
              err ← r_Update svc;
              match err with
              | Some e =>
                  Store_ReleaseNLBAndPortForService (types.String_ req) "" 0;;
                  err2 ← AwsClient_DeleteListenerAndTargetArn listenerArn targetArn;
                  match err2 with
                  | Some e2 => ret (mkResult false, Some e2)
                  | None =>
                      if IsNotFound e then ret (mkResult false, None)
                      else ret (mkResult true, None)
                  end
              | None => ret (mkResult false, None)
              end
          end
      end
  end.

(** [order] is the order in which the one [range] loop the pass may run
    (in [GetVacantNLBAndPortForService]) visits the load balancers. Calls
    of the logger have no effect on the modelled state and are left out. *)
Definition Reconcile (order : list string) (req : types.NamespacedName)
  : M (Result * option error) :=
  let serviceName := types.String_ req in
  got ← r_Get req;
  match got with
  | inr err =>
      if IsNotFound err then
        allocation ← Store_GetAllocationForSVC serviceName;
        match allocation with
        | None => ret (mkResult false, None)
        | Some allocation =>
            err ← AwsClient_DeleteListenerAndTargetArn
                    (ListenerArn allocation) (TargetArn allocation);
            match err with
            | Some e => ret (mkResult true, Some e)
            | None =>
                Store_ReleaseNLBAndPortForService serviceName
                  (NLB allocation) (Port allocation);;
                ret (mkResult false, None)
            end
        end
      else ret (mkResult true, Some err)
  | inl svc =>
      let svcIsOfTypeNodePort := bool_decide (Spec_Type svc = ServiceTypeNodePort) in
      if negb svcIsOfTypeNodePort then ret (mkResult false, None)
      else
        (* [isNodePortService] guards a log line only *)
        let isNodePortService := bool_decide (annotation svc serviceAnnotation = "true") in
        let isNLBPortAllocated := bool_decide (annotation svc nlbAnnotationNLBName ≠ "") in
        valid ← (if isNLBPortAllocated then validateAllocated serviceName svc
                 else ret false);
        if valid : bool then ret (mkResult false, None)
        else allocate order req svc
  end.

End Reconciler.

End controllers.

(** ** Test doubles for the two collaborators *)

Module fake.

Import corev1.

(** A cluster that holds service objects by namespaced name and answers
    every write with [updateError] when that is set. *)
Record Cluster : Type := mkCluster {
  objects : gmap string Service;
  updateError : option error;
}.

#[global] Instance Cluster_Client : client.Client Cluster := {|
  client.Get k name :=
    match objects k !! types.String_ name with
    | Some svc => inl svc
    | None => inr (StatusError "NotFound" "services not found")
    end;
  client.Update k svc :=
    match updateError k with
    | Some e => (k, Some e)
    | None =>
        (mkCluster (<[Namespace svc +:+ "/" +:+ Name svc := svc]> (objects k)) None, None)
    end;
|}.

(** A provider client that answers every call as configured. *)
Record Provider : Type := mkProvider {
  createReturns : string * string * option error;
  checkReturns : option error;
  deleteReturns : option error;
}.

#[global] Instance Provider_Client : aws.Client Provider := {|
  aws.CreateNLBListenerForPort p _ _ _ _ := (p, createReturns p);
  aws.CheckListener p _ _ _ _ _ := (p, checkReturns p);
  aws.DeleteListenerAndTargetArn p _ _ := (p, deleteReturns p);
|}.

(** A load-balancer endpoint that knows some listeners and target groups
    and reports the ones it does not know as not found. *)
Record Elb : Type := mkElb {
  listeners : gset string;
  targetGroups : gset string;
}.

#[global] Instance Elb_ELBV2 : aws.ELBV2 Elb := {|
  aws.DeleteListener e arn :=
    if bool_decide (arn ∈ listeners e)
    then (mkElb (listeners e ∖ {[arn]}) (targetGroups e), None)
    else (e, Some (AwsError "ListenerNotFound" "One or more listeners not found"));
  aws.DeleteTargetGroup e arn :=
    if bool_decide (arn ∈ targetGroups e)
    then (mkElb (listeners e) (targetGroups e ∖ {[arn]}), None)
    else (e, Some (AwsError "TargetGroupNotFound" "One or more target groups not found"));
|}.

(** A provider that answers every call of [aws.API] as configured and
    keeps the names of the calls made on it, oldest first. *)
Record Sdk : Type := mkSdk {
  listenersOut : list aws.Listener * option error;
  targetGroupsOut : list aws.TargetGroup * option error;
  loadBalancersOut : list aws.LoadBalancer * option error;
  createTargetGroupOut : list aws.TargetGroup * option error;
  instancesOut : list aws.Reservation * option error;
  registerTargetsOut : option error;
  createListenerOut : list aws.Listener * option error;
  made : list string;
}.

Definition called (name : string) (k : Sdk) : Sdk :=
  mkSdk (listenersOut k) (targetGroupsOut k) (loadBalancersOut k)
        (createTargetGroupOut k) (instancesOut k) (registerTargetsOut k)
        (createListenerOut k) (made k ++ [name]).

#[global] Instance Sdk_API : aws.API Sdk := {|
  aws.DescribeListeners k _ _ := (called "DescribeListeners" k, listenersOut k);
  aws.DescribeTargetGroups k _ := (called "DescribeTargetGroups" k, targetGroupsOut k);
  aws.DescribeLoadBalancers k _ :=
    (called "DescribeLoadBalancers" k, loadBalancersOut k);
  aws.CreateTargetGroup k _ := (called "CreateTargetGroup" k, createTargetGroupOut k);
  aws.DescribeInstances k _ := (called "DescribeInstances" k, instancesOut k);
  aws.RegisterTargets k _ := (called "RegisterTargets" k, registerTargetsOut k);
  aws.CreateListener k _ := (called "CreateListener" k, createListenerOut k);
|}.

(** On the scripted provider every deletion succeeds. *)
#[global] Instance Sdk_ELBV2 : aws.ELBV2 Sdk := {|
  aws.DeleteListener k _ := (called "DeleteListener" k, None);
  aws.DeleteTargetGroup k _ := (called "DeleteTargetGroup" k, None);
|}.

(** The provider client of package [aws] itself, with its configuration,
    run on a scripted provider. The interface gives a method no way to
    panic: where a method of the client panics, this double returns the
    error "panic". *)
Record Live : Type := mkLive {
  cfg : aws.config;
  provider : Sdk;
}.

#[global] Instance Live_Client : aws.Client Live := {|
  aws.CreateNLBListenerForPort a nlb port nodePort svcName :=
    match aws.client.CreateNLBListenerForPort (cfg a) (provider a)
            nlb port nodePort svcName with
    | (k, Ok ret) => (mkLive (cfg a) k, ret)
    | (k, Panic) => (mkLive (cfg a) k, ("", "", Some (ErrorString "panic")))
    end;
  aws.CheckListener a listenerArn targetArn nlb port nodePort :=
    match aws.client.CheckListener (provider a)
            listenerArn targetArn nlb port nodePort with
    | (k, Ok err) => (mkLive (cfg a) k, err)
    | (k, Panic) => (mkLive (cfg a) k, Some (ErrorString "panic"))
    end;
  aws.DeleteListenerAndTargetArn a listenerArn targetArn :=
    match aws.client.DeleteListenerAndTargetArn (provider a) listenerArn targetArn with
    | (k, err) => (mkLive (cfg a) k, err)
    end;
|}.

End fake.

(** ** Ledger histories *)

Module ledger.

Import store.

(** One call on the ledger. *)
Inductive Op : Type :=
  | Assign (nlb : string) (port : Z) (svc listenerArn targetArn : string)
  | GetVacant (order : list string) (svc : string)
  | Release (svc nlb : string) (port : Z).

(** The ledger after a call that returns. A call that panics ends the
    process, and the ledger, which lives in its memory, with it. *)
Definition runOp (s : store) (op : Op) : outcome store :=
  match op with
  | Assign nlb port svc listenerArn targetArn =>
      match AssignNLBAndPortToServiceInNamespace s nlb port svc listenerArn targetArn with
      | (s', Ok _) => Ok s'
      | (_, Panic) => Panic
      end
  | GetVacant order svc => Ok (GetVacantNLBAndPortForService order s svc).1
  | Release svc nlb port => Ok (ReleaseNLBAndPortForService s svc nlb port)
  end.

Fixpoint runOps (s : store) (ops : list Op) : outcome store :=
  match ops with
  | [] => Ok s
  | op :: ops' =>
      match runOp s op with
      | Ok s' => runOps s' ops'
      | Panic => Panic
      end
  end.

(** A service holds a pair when the pair index names it as the occupant of
    the pair, or when its allocation record names the pair. *)
Definition holds (s : store) (svc nlb : string) (port : Z) : bool :=
  bool_decide (occupant s nlb port = Some svc)
  || match ServiceAllocationMap s !! svc with
     | Some a => bool_decide (NLB a = nlb) && bool_decide (Port a = port)
     | None => false
     end.

(** No allocation record and no occupied port: the ledger as [New] makes it. *)
Definition empty (s : store) : Prop :=
  ServiceAllocationMap s = ∅
  ∧ ∀ nlb ports, NlbAllocationMap s !! nlb = Some ports → ports = ∅.

(** Every allocation record is backed by the pair index. *)
Definition consistent (s : store) : Prop :=
  ∀ svc a, ServiceAllocationMap s !! svc = Some a →
    occupant s (NLB a) (Port a) = Some svc.

(** Every port of the scanned range of load balancer [nlb] is occupied. *)
Definition full (s : store) (nlb : string) : Prop :=
  ∀ q, 9000 ≤ q < 9050 → is_Some (occupant s nlb q).

(** No load balancer of the pool has the empty name ([loadNlbData] skips
    such entries). *)
Definition poolNamed (s : store) : Prop :=
  NlbAllocationMap s !! "" = None.

End ledger.

(** ** Concrete configurations used as examples *)

Module example.

Import store corev1 controllers.

(** The ledger [New] builds for [NLB_LIST=lb1:host1]. *)
Definition ledger1 : store :=
  mkStore ∅ {["lb1" := ∅]} {["lb1" := "host1"]}.

(** The ledger [New] builds for [NLB_LIST=lb1:host1,lb2:host2]. *)
Definition ledger2 : store :=
  mkStore ∅ {["lb1" := ∅; "lb2" := ∅]} {["lb1" := "host1"; "lb2" := "host2"]}.

(** [ledger1] after [ns/a] was assigned the pair (lb1, 9000). *)
Definition ledger1_a : store :=
  mkStore {["ns/a" := mkAllocation "L" "T" "lb1" 9000 "ns/a"]}
          {["lb1" := {[9000 := "ns/a"]}]} {["lb1" := "host1"]}.

Definition reqA : types.NamespacedName := types.mkNamespacedName "ns" "a".

(** Service [ns/a]: of type NodePort, one port, no annotation at all. *)
Definition svcA : Service :=
  mkService "ns" "a" ∅ "NodePort" [mkServicePort 30080].

(** Service [ns/a] carrying a binding record that names a load balancer
    which is not in the pool. *)
Definition svcA_ghost : Service :=
  mkService "ns" "a"
    {[nlbAnnotationNLBName := "ghost"; nlbAnnotationPort := "9000";
      nlbAnnotationListener := "L"; nlbAnnotationTarget := "T"]}
    "NodePort" [mkServicePort 30080].

(** A reconciler of the cluster holding [svc] as [ns/a], with the ledger
    [ledger1], whose writes to the cluster return [updateError] and whose
    provider answers creations with [createReturns], validations with nil
    and deletions with [deleteReturns]. *)
Definition reconciler (svc : Service) (updateError : option error)
    (createReturns : string * string * option error)
    (deleteReturns : option error)
  : ServiceReconciler fake.Cluster fake.Provider :=
  mkServiceReconciler
    (fake.mkCluster {["ns/a" := svc]} updateError)
    ledger1
    (fake.mkProvider createReturns None deleteReturns).

(** [ledger1] with every port of the range occupied by [ns/x]. *)
Definition ledger1_full : store :=
  mkStore ∅
    {["lb1" := list_to_map ((λ port, (port, "ns/x")) <$> portRange)]}
    {["lb1" := "host1"]}.

(** Service [ns/a] carrying the binding record (lb1, 9000, L, T). *)
Definition svcA_bound : Service :=
  recordBinding "lb1" "host1" 9000 "L" "T" svcA.

(** A reconciler of the cluster holding [objects], with the ledger [s],
    whose writes to the cluster succeed and whose provider answers
    creations with [("L", "T", nil)], validations with [checkReturns] and
    deletions with [deleteReturns]. *)
Definition reconcilerOn (objects : gmap string Service) (s : store)
    (checkReturns deleteReturns : option error)
  : ServiceReconciler fake.Cluster fake.Provider :=
  mkServiceReconciler
    (fake.mkCluster objects None) s
    (fake.mkProvider ("L", "T", None) checkReturns deleteReturns).

(** A provider with one load balancer, the listener L on port 9000
    forwarding to the target group T of port 30080, and three instances
    in two reservations; [targetGroups] is its answer to
    [DescribeTargetGroups]. *)
Definition sdk (targetGroups : list aws.TargetGroup * option error) : fake.Sdk :=
  fake.mkSdk
    ([aws.mkListener (Some "L") (Some 9000)
        [aws.mkAction (Some [aws.mkTargetGroupTuple (Some "T")]) None None]], None)
    targetGroups
    ([aws.mkLoadBalancer (Some "arn:lb1")], None)
    ([aws.mkTargetGroup (Some "T") (Some 30080)], None)
    ([aws.mkReservation [aws.mkInstance (Some "i-1"); aws.mkInstance (Some "i-2")];
      aws.mkReservation [aws.mkInstance (Some "i-3")]], None)
    None
    ([aws.mkListener (Some "L") (Some 9000) []], None)
    [].



End example.

(** * Properties *)

(** ** The ledger *)

Section ledger_facts.

Import store ledger.

Implicit Types (s : store) (ports : gmap Z string) (port : Z).
Implicit Types (nlb svc owner listenerArn targetArn : string) (order : list string).

Lemma occupant_Some s nlb port svc :
  occupant s nlb port = Some svc ↔
  ∃ ports, NlbAllocationMap s !! nlb = Some ports ∧ ports !! port = Some svc.
Proof.
  unfold occupant. split.
  - destruct (NlbAllocationMap s !! nlb) as [ports|]; [eauto | done].
  - intros (ports & -> & ?). done.
Qed.

Lemma occupant_absent_nlb s nlb port :
  NlbAllocationMap s !! nlb = None → occupant s nlb port = None.
Proof. unfold occupant. by intros ->. Qed.

(** The pair index after one inner map has been replaced. *)
Lemma occupant_insert s sam hosts nlb ports nlb' port' :
  occupant (mkStore sam (<[nlb := ports]> (NlbAllocationMap s)) hosts) nlb' port'
  = if decide (nlb = nlb') then ports !! port' else occupant s nlb' port'.
Proof.
  unfold occupant; simpl. rewrite lookup_insert. by case_decide.
Qed.

Lemma occupant_insert_same sam nlbs hosts nlb ports port' :
  occupant (mkStore sam (<[nlb := ports]> nlbs) hosts) nlb port' = ports !! port'.
Proof. unfold occupant; simpl. by rewrite lookup_insert_eq. Qed.

(** *** The port scan *)

Lemma firstVacantPort_Some ports range port :
  firstVacantPort ports range = Some port →
  ∃ before after, range = before ++ port :: after
    ∧ ports !! port = None
    ∧ Forall (λ q, is_Some (ports !! q)) before.
Proof.
  induction range as [|q range IH]; simpl; [done|].
  destruct (ports !! q) eqn:Hq.
  - intros (before & after & -> & ? & ?)%IH.
    exists (q :: before), after. split_and!; [done | done |].
    constructor; [by rewrite Hq | done].
  - intros [= ->]. exists [], range. by split_and!.
Qed.

Lemma firstVacantPort_None ports range :
  firstVacantPort ports range = None →
  Forall (λ q, is_Some (ports !! q)) range.
Proof.
  induction range as [|q range IH]; simpl; [constructor|].
  destruct (ports !! q) eqn:Hq; [|done].
  intros ?. constructor; [by rewrite Hq | auto].
Qed.

Lemma elem_of_portRange q : q ∈ portRange ↔ 9000 ≤ q < 9050.
Proof. unfold portRange. rewrite elem_of_seqZ. lia. Qed.

(** A split of the port range at [port]: what precedes is 9000..port-1. *)
Lemma portRange_split before port after q :
  portRange = before ++ port :: after →
  (q ∈ before ↔ 9000 ≤ q < port) ∧ 9000 ≤ port < 9050.
Proof.
  unfold portRange. intros Hsplit.
  assert (Hlen : (length before < 50)%nat).
  { apply (f_equal length) in Hsplit.
    rewrite length_seqZ, length_app in Hsplit. simpl in Hsplit. lia. }
  assert (Hport : seqZ 9000 50 !! length before = Some port).
  { rewrite Hsplit. by rewrite list_lookup_middle. }
  apply lookup_seqZ in Hport as [-> _].
  assert (Hbefore : before = seqZ 9000 (Z.of_nat (length before))).
  { replace 50 with (Z.of_nat (length before) + (50 - Z.of_nat (length before)))
      in Hsplit by lia.
    rewrite seqZ_app in Hsplit by lia.
    apply app_inj_1 in Hsplit as [? _]; [done|].
    rewrite length_seqZ. lia. }
  split; [|lia].
  rewrite Hbefore at 1. rewrite elem_of_seqZ. lia.
Qed.

Lemma firstVacantPort_portRange_Some ports port :
  firstVacantPort ports portRange = Some port →
  9000 ≤ port < 9050 ∧ ports !! port = None
  ∧ ∀ q, 9000 ≤ q < port → is_Some (ports !! q).
Proof.
  intros (before & after & Hsplit & Hfree & Hbefore)%firstVacantPort_Some.
  split_and!.
  1,2: destruct (portRange_split _ _ _ 0 Hsplit) as [_ ?]; lia.
  1: done.
  intros q Hq. rewrite Forall_forall in Hbefore. apply Hbefore.
  by destruct (portRange_split _ _ _ q Hsplit) as [-> _].
Qed.

Lemma firstVacantPort_portRange_None ports q :
  firstVacantPort ports portRange = None →
  9000 ≤ q < 9050 → is_Some (ports !! q).
Proof.
  intros Hnone%firstVacantPort_None Hq.
  rewrite Forall_forall in Hnone. by apply Hnone, elem_of_portRange.
Qed.

(** *** [AssignNLBAndPortToServiceInNamespace], case by case *)

Lemma Assign_conflict s nlb port svc listenerArn targetArn owner :
  occupant s nlb port = Some owner → owner ≠ svc →
  AssignNLBAndPortToServiceInNamespace s nlb port svc listenerArn targetArn
  = (s, Ok (Some (ErrorString ("port reserved for svc " +:+ owner)))).
Proof.
  intros Hocc Hne. unfold AssignNLBAndPortToServiceInNamespace.
  rewrite Hocc. by rewrite bool_decide_eq_true_2.
Qed.

Lemma Assign_ok s nlb port svc listenerArn targetArn ports :
  NlbAllocationMap s !! nlb = Some ports →
  occupant s nlb port = None ∨ occupant s nlb port = Some svc →
  AssignNLBAndPortToServiceInNamespace s nlb port svc listenerArn targetArn
  = (mkStore (<[svc := mkAllocation listenerArn targetArn nlb port svc]>
                (ServiceAllocationMap s))
             (<[nlb := <[port := svc]> ports]> (NlbAllocationMap s))
             (NlbHosts s),
     Ok None).
Proof.
  intros Hnlb Hocc. unfold AssignNLBAndPortToServiceInNamespace.
  destruct Hocc as [-> | ->]; simpl.
  - by rewrite Hnlb.
  - rewrite bool_decide_eq_false_2 by (by intros ?). by rewrite Hnlb.
Qed.

Lemma Assign_panic s nlb port svc listenerArn targetArn :
  NlbAllocationMap s !! nlb = None →
  AssignNLBAndPortToServiceInNamespace s nlb port svc listenerArn targetArn
  = (mkStore (<[svc := mkAllocation listenerArn targetArn nlb port svc]>
                (ServiceAllocationMap s))
             (NlbAllocationMap s) (NlbHosts s),
     Panic).
Proof.
  intros Hnlb. unfold AssignNLBAndPortToServiceInNamespace.
  rewrite (occupant_absent_nlb _ _ _ Hnlb). simpl. by rewrite Hnlb.
Qed.

(** The three cases are all there is. *)
Lemma Assign_cases s nlb port svc listenerArn targetArn :
  (∃ owner, occupant s nlb port = Some owner ∧ owner ≠ svc)
  ∨ (NlbAllocationMap s !! nlb = None)
  ∨ (∃ ports, NlbAllocationMap s !! nlb = Some ports
       ∧ (occupant s nlb port = None ∨ occupant s nlb port = Some svc)).
Proof.
  destruct (NlbAllocationMap s !! nlb) as [ports|] eqn:Hnlb; [|by auto].
  destruct (occupant s nlb port) as [owner|] eqn:Hocc; [|by eauto 6].
  destruct (decide (owner = svc)) as [->|]; eauto 6.
Qed.

(** *** [GetVacantNLBAndPortForService] *)

Lemma GetVacant_spec order s svc :
  match GetVacantNLBAndPortForService order s svc with
  | (s', (nlb, port, None)) =>
      ∃ before after ports,
        order = before ++ nlb :: after
        ∧ NlbAllocationMap s !! nlb = Some ports
        ∧ firstVacantPort ports portRange = Some port
        ∧ s' = mkStore (ServiceAllocationMap s)
                 (<[nlb := <[port := svc]> ports]> (NlbAllocationMap s)) (NlbHosts s)
        ∧ Forall (λ nlb', is_Some (NlbAllocationMap s !! nlb') → full s nlb') before
  | (s', (nlb, port, Some e)) =>
      s' = s ∧ nlb = "" ∧ port = 0 ∧ e = ErrorString "no vacancy found"
      ∧ Forall (λ nlb', is_Some (NlbAllocationMap s !! nlb') → full s nlb') order
  end.
Proof.
  induction order as [|nlb order IH]; cbn [GetVacantNLBAndPortForService];
    [by split_and!|].
  assert (Hskip :
    (is_Some (NlbAllocationMap s !! nlb) → full s nlb) →
    match GetVacantNLBAndPortForService order s svc with
    | (s', (nlb0, port, None)) =>
        ∃ before after ports,
          nlb :: order = before ++ nlb0 :: after
          ∧ NlbAllocationMap s !! nlb0 = Some ports
          ∧ firstVacantPort ports portRange = Some port
          ∧ s' = mkStore (ServiceAllocationMap s)
                   (<[nlb0 := <[port := svc]> ports]> (NlbAllocationMap s)) (NlbHosts s)
          ∧ Forall (λ nlb', is_Some (NlbAllocationMap s !! nlb') → full s nlb') before
    | (s', (nlb0, port, Some e)) =>
        s' = s ∧ nlb0 = "" ∧ port = 0 ∧ e = ErrorString "no vacancy found"
        ∧ Forall (λ nlb', is_Some (NlbAllocationMap s !! nlb') → full s nlb')
            (nlb :: order)
    end).
  { intros Hfull.
    destruct (GetVacantNLBAndPortForService order s svc) as [s' [[nlb0 port] [e|]]].
    - destruct IH as (-> & -> & -> & -> & ?). split_and!; try done. by constructor.
    - destruct IH as (before & after & ports & -> & ? & ? & -> & ?).
      exists (nlb :: before), after, ports. split_and!; try done. by constructor. }
  destruct (NlbAllocationMap s !! nlb) as [ports|] eqn:Hnlb.
  - destruct (firstVacantPort ports portRange) as [port|] eqn:Hscan.
    + exists [], order, ports. by split_and!.
    + apply Hskip. intros _ q Hq. unfold occupant. rewrite Hnlb.
      by eapply firstVacantPort_portRange_None.
  - apply Hskip. by intros [? ?].
Qed.

(** *** [ReleaseNLBAndPortForService] *)

Lemma Release_absent s svc nlb port :
  ServiceAllocationMap s !! svc = None →
  ReleaseNLBAndPortForService s svc nlb port = s.
Proof. unfold ReleaseNLBAndPortForService. by intros ->. Qed.

Lemma Release_held s svc nlb port a ports :
  ServiceAllocationMap s !! svc = Some a →
  NlbAllocationMap s !! NLB a = Some ports →
  is_Some (ports !! Port a) →
  ReleaseNLBAndPortForService s svc nlb port
  = mkStore (delete svc (ServiceAllocationMap s))
            (<[NLB a := delete (Port a) ports]> (NlbAllocationMap s)) (NlbHosts s).
Proof.
  intros Ha Hnlb [owner Hport]. unfold ReleaseNLBAndPortForService, occupant.
  by rewrite Ha, Hnlb, Hport.
Qed.

(** *** The two indices stay consistent *)

Lemma empty_consistent s : empty s → consistent s.
Proof. intros [Hsam _] svc a. by rewrite Hsam, lookup_empty. Qed.

Lemma Assign_consistent s nlb port svc listenerArn targetArn s' err :
  consistent s →
  AssignNLBAndPortToServiceInNamespace s nlb port svc listenerArn targetArn
  = (s', Ok err) →
  consistent s'.
Proof.
  intros Hs Hassign.
  destruct (Assign_cases s nlb port svc listenerArn targetArn)
    as [(owner & Hocc & Hne) | [Hnone | (ports & Hnlb & Hocc)]].
  - rewrite (Assign_conflict _ _ _ _ _ _ _ Hocc Hne) in Hassign. by simplify_eq.
  - rewrite (Assign_panic _ _ _ _ _ _ Hnone) in Hassign. by simplify_eq.
  - rewrite (Assign_ok _ _ _ _ _ _ _ Hnlb Hocc) in Hassign. simplify_eq.
    intros svc0 a0; simpl. rewrite occupant_insert, lookup_insert.
    case_decide as Hsvc; [intros [= <-]; simpl|intros Ha0].
    + rewrite decide_True by done. by rewrite lookup_insert_eq, Hsvc.
    + apply Hs in Ha0 as Hocc0. case_decide as Hn; [|done].
      rewrite lookup_insert. case_decide as Hp; [|].
      * exfalso. rewrite <- Hn, <- Hp in Hocc0.
        destruct Hocc as [Hocc|Hocc]; rewrite Hocc in Hocc0; congruence.
      * revert Hocc0. unfold occupant. by rewrite <- Hn, Hnlb.
Qed.

Lemma GetVacant_consistent order s svc :
  consistent s → consistent (GetVacantNLBAndPortForService order s svc).1.
Proof.
  intros Hs. pose proof (GetVacant_spec order s svc) as Hspec.
  destruct (GetVacantNLBAndPortForService order s svc) as [s' [[nlb port] [e|]]];
    simpl.
  - by destruct Hspec as (-> & _).
  - destruct Hspec as (_ & _ & ports & _ & Hnlb & Hscan & -> & _).
    apply firstVacantPort_portRange_Some in Hscan as (_ & Hfree & _).
    intros svc0 a0 Ha0; simpl in Ha0. apply Hs in Ha0 as Hocc0.
    rewrite occupant_insert. case_decide as Hn; [|done].
    revert Hocc0. unfold occupant. rewrite <- Hn, Hnlb. intros Hocc0.
    rewrite lookup_insert_ne; [done|]. intros Hp. rewrite Hp in Hfree. congruence.
Qed.

Lemma Release_consistent s svc nlb port :
  consistent s → consistent (ReleaseNLBAndPortForService s svc nlb port).
Proof.
  intros Hs. destruct (ServiceAllocationMap s !! svc) as [a|] eqn:Ha;
    [|by rewrite Release_absent].
  apply Hs in Ha as Hocc. apply occupant_Some in Hocc as (ports & Hnlb & Hport).
  rewrite (Release_held _ _ _ _ _ _ Ha Hnlb) by eauto.
  intros svc0 a0; simpl. rewrite lookup_delete. case_decide as Hsvc; [done|].
  intros Ha0. apply Hs in Ha0 as Hocc0.
  rewrite occupant_insert. case_decide as Hn; [|done].
  revert Hocc0. unfold occupant. rewrite <- Hn, Hnlb. intros Hocc0.
  rewrite lookup_delete_ne; [done|]. intros Hp. rewrite Hp in Hport. congruence.
Qed.

Lemma runOp_consistent s op s' :
  consistent s → runOp s op = Ok s' → consistent s'.
Proof.
  intros Hs. destruct op as [nlb port svc l t | order svc | svc nlb port]; simpl.
  - destruct (AssignNLBAndPortToServiceInNamespace s nlb port svc l t)
      as [s1 [err|]] eqn:Hassign; [|done].
    intros [= <-]. by eapply Assign_consistent.
  - intros [= <-]. by apply GetVacant_consistent.
  - intros [= <-]. by apply Release_consistent.
Qed.

Lemma runOps_consistent ops s s' :
  consistent s → runOps s ops = Ok s' → consistent s'.
Proof.
  revert s. induction ops as [|op ops IH]; simpl; intros s Hs.
  - by intros [= <-].
  - destruct (runOp s op) as [s1|] eqn:Hop; [|done].
    apply IH. by eapply runOp_consistent.
Qed.

Lemma holds_occupant s svc nlb port :
  consistent s → holds s svc nlb port = true → occupant s nlb port = Some svc.
Proof.
  intros Hs. unfold holds. rewrite orb_true_iff, bool_decide_eq_true.
  intros [?|Hsam]; [done|].
  destruct (ServiceAllocationMap s !! svc) as [a|] eqn:Ha; [|done].
  apply andb_true_iff in Hsam as [<-%bool_decide_eq_true <-%bool_decide_eq_true].
  by apply Hs.
Qed.

(** *** The pool: what [New] builds, and that no call changes its names *)

Lemma loadNlbEntries_spec nlbList nlbData nlbHosts nlbData' nlbHosts' :
  loadNlbEntries nlbList nlbData nlbHosts = Ok (nlbData', nlbHosts') →
  nlbData !! "" = None →
  (∀ nlb ports, nlbData !! nlb = Some ports → ports = ∅) →
  nlbData' !! "" = None
  ∧ ∀ nlb ports, nlbData' !! nlb = Some ports → ports = ∅.
Proof.
  revert nlbData nlbHosts.
  induction nlbList as [|entry nlbList IH]; simpl; intros nlbData nlbHosts.
  - by intros [= <- <-].
  - destruct (Split entry ":") as [|nlb [|nlbHost fields]]; [done | done |].
    case_bool_decide as Hname; [|by apply IH].
    intros Hload Hno Hempty. eapply IH; [done | |].
    + by rewrite lookup_insert_ne.
    + intros nlb' ports. rewrite lookup_insert. case_decide; [|by apply Hempty].
      by intros [= <-].
Qed.

Lemma New_empty NLB_LIST s :
  New NLB_LIST = Ok s → empty s ∧ poolNamed s.
Proof.
  unfold New, loadNlbData. case_bool_decide; [done|].
  destruct (loadNlbEntries _ _ _) as [[nlbData nlbHosts]|] eqn:Hload; [|done].
  intros [= <-]. unfold empty, poolNamed; simpl.
  apply loadNlbEntries_spec in Hload as [? ?]; [by split_and! | done |].
  intros nlb ports. by rewrite lookup_empty.
Qed.

(** *** Results on the ledger *)

(** C4. Starting from an empty ledger, after any sequence of calls of
    [AssignNLBAndPortToServiceInNamespace], [GetVacantNLBAndPortForService]
    and [ReleaseNLBAndPortForService] that return, two service identities
    that hold the same (load balancer, port) pair are the same identity.
    Every prefix of a sequence is a sequence, so this holds at every point. *)
Theorem no_pair_held_by_two_services s0 ops s svc1 svc2 nlb port :
  empty s0 →
  runOps s0 ops = Ok s →
  holds s svc1 nlb port = true →
  holds s svc2 nlb port = true →
  svc1 = svc2.
Proof.
  intros Hempty Hrun H1 H2.
  assert (Hs : consistent s).
  { eapply runOps_consistent; [by apply empty_consistent | done]. }
  apply (holds_occupant _ _ _ _ Hs) in H1, H2. congruence.
Qed.

(** C5. With the load balancer in the configured pool: when the pair is
    free or already occupied by the service, the call returns nil and the
    service then occupies the pair and owns the allocation record; when
    another service occupies the pair, the call returns the error naming
    that service and the ledger is the one it was given. *)
Theorem reserve_succeeds_or_names_owner s nlb port svc listenerArn targetArn :
  is_Some (NlbAllocationMap s !! nlb) →
  (occupant s nlb port = None ∨ occupant s nlb port = Some svc →
     ∃ s', AssignNLBAndPortToServiceInNamespace s nlb port svc listenerArn targetArn
           = (s', Ok None)
       ∧ occupant s' nlb port = Some svc
       ∧ GetAllocationForSVC s' svc
         = Some (mkAllocation listenerArn targetArn nlb port svc))
  ∧ (∀ owner, occupant s nlb port = Some owner → owner ≠ svc →
       AssignNLBAndPortToServiceInNamespace s nlb port svc listenerArn targetArn
       = (s, Ok (Some (ErrorString ("port reserved for svc " +:+ owner))))).
Proof.
  intros [ports Hnlb]. split.
  - intros Hocc. eexists. split; [by apply Assign_ok|]. split.
    + rewrite occupant_insert, decide_True by done. by rewrite lookup_insert_eq.
    + unfold GetAllocationForSVC; simpl. by rewrite lookup_insert_eq.
  - intros owner Hocc Hne. by apply Assign_conflict.
Qed.

(** C6, as the code has it. [order] being the order in which this run of
    the [range] loop visits the load balancers: the call returns the first
    load balancer of [order] with an unoccupied port among 9000..9049
    together with its lowest such port, or the error "no vacancy found" when
    every pair of the pool is occupied. Two runs on one state return the
    same result and leave the same ledger when at most one load balancer
    has a free port, whatever their orders. *)
Theorem vacancy_scan_first_free_in_visit_order s order svc :
  iterationOrder s order →
  match (GetVacantNLBAndPortForService order s svc).2 with
  | (nlb, port, None) =>
      9000 ≤ port < 9050
      ∧ is_Some (NlbAllocationMap s !! nlb)
      ∧ occupant s nlb port = None
      ∧ (∀ q, 9000 ≤ q < port → is_Some (occupant s nlb q))
      ∧ ∃ before after,
          order = before ++ nlb :: after ∧ ∀ nlb', nlb' ∈ before → full s nlb'
  | (nlb, port, Some e) =>
      e = ErrorString "no vacancy found"
      ∧ ∀ nlb', is_Some (NlbAllocationMap s !! nlb') → full s nlb'
  end
  ∧ ∀ order',
      iterationOrder s order' →
      (∀ nlb1 nlb2,
         is_Some (NlbAllocationMap s !! nlb1) → is_Some (NlbAllocationMap s !! nlb2) →
         ¬ full s nlb1 → ¬ full s nlb2 → nlb1 = nlb2) →
      GetVacantNLBAndPortForService order' s svc
      = GetVacantNLBAndPortForService order s svc.
Proof.
  intros Horder.
  assert (Hkey : ∀ o nlb, iterationOrder s o →
            nlb ∈ o ↔ is_Some (NlbAllocationMap s !! nlb)).
  { intros o nlb Ho. rewrite Ho, elem_of_elements. apply elem_of_dom. }
  assert (Hfree : ∀ nlb ports port,
            NlbAllocationMap s !! nlb = Some ports →
            firstVacantPort ports portRange = Some port → ¬ full s nlb).
  { intros nlb ports port Hnlb Hscan Hfull.
    apply firstVacantPort_portRange_Some in Hscan as (Hport & Hnone & _).
    destruct (Hfull port Hport) as [owner Hocc].
    unfold occupant in Hocc. rewrite Hnlb in Hocc. congruence. }
  pose proof (GetVacant_spec order s svc) as Hspec. split.
  - destruct (GetVacantNLBAndPortForService order s svc)
      as [s' [[nlb port] [e|]]]; simpl.
    + destruct Hspec as (_ & _ & _ & -> & Hall). split; [done|].
      intros nlb' Hnlb'. rewrite Forall_forall in Hall.
      apply Hall; [|done]. by apply Hkey.
    + destruct Hspec as (before & after & ports & -> & Hnlb & Hscan & _ & Hall).
      apply firstVacantPort_portRange_Some in Hscan as (Hport & Hnone & Hlow).
      split_and!; [lia | lia | by eauto | by unfold occupant; rewrite Hnlb | |].
      * intros q Hq. unfold occupant. rewrite Hnlb. by apply Hlow.
      * exists before, after. split; [done|]. intros nlb' Hin.
        rewrite Forall_forall in Hall. apply Hall; [done|].
        apply (Hkey _ _ Horder). apply elem_of_app. by left.
  - intros order' Horder' Hone.
    pose proof (GetVacant_spec order' s svc) as Hspec'.
    destruct (GetVacantNLBAndPortForService order s svc)
      as [s1 [[nlb1 port1] [e1|]]];
      destruct (GetVacantNLBAndPortForService order' s svc)
        as [s2 [[nlb2 port2] [e2|]]].
    + destruct Hspec as (-> & -> & -> & -> & _).
      by destruct Hspec' as (-> & -> & -> & -> & _).
    + exfalso. destruct Hspec as (_ & _ & _ & _ & Hall).
      destruct Hspec' as (before & after & ports & Ho & Hnlb & Hscan & _).
      apply (Hfree _ _ _ Hnlb Hscan). rewrite Forall_forall in Hall.
      apply Hall; [|by eauto]. apply (Hkey _ _ Horder). by eauto.
    + exfalso. destruct Hspec' as (_ & _ & _ & _ & Hall).
      destruct Hspec as (before & after & ports & Ho & Hnlb & Hscan & _).
      apply (Hfree _ _ _ Hnlb Hscan). rewrite Forall_forall in Hall.
      apply Hall; [|by eauto]. apply (Hkey _ _ Horder'). by eauto.
    + destruct Hspec as (_ & _ & ports1 & _ & Hnlb1 & Hscan1 & -> & _).
      destruct Hspec' as (_ & _ & ports2 & _ & Hnlb2 & Hscan2 & -> & _).
      assert (nlb2 = nlb1) as -> by (apply Hone; eauto).
      by simplify_eq.
Qed.

(** C10. For a service identity without an allocation record,
    [GetAllocationForSVC] returns nil and [GetListenerArnFor] panics. *)
Theorem listener_arn_lookup_panics_without_allocation s svc :
  ServiceAllocationMap s !! svc = None →
  GetAllocationForSVC s svc = None ∧ GetListenerArnFor s svc = Panic.
Proof.
  intros Hnone. unfold GetAllocationForSVC, GetListenerArnFor. by rewrite Hnone.
Qed.

(** *** The results at concrete ledgers *)

Lemma New_ledger1 : New "lb1:host1" = Ok example.ledger1.
Proof. vm_compute. reflexivity. Defined.

Lemma New_ledger2 : New "lb1:host1,lb2:host2" = Ok example.ledger2.
Proof. vm_compute. reflexivity. Defined.

Lemma iterationOrder_ledger2_12 : iterationOrder example.ledger2 ["lb1"; "lb2"].
Proof. unfold iterationOrder. vm_compute. reflexivity. Defined.

Lemma iterationOrder_ledger2_21 : iterationOrder example.ledger2 ["lb2"; "lb1"].
Proof. unfold iterationOrder. vm_compute. apply perm_swap. Defined.

Lemma no_pair_held_by_two_services_witness :
  empty example.ledger1
  ∧ runOps example.ledger1
      [GetVacant ["lb1"] "ns/a"; Assign "lb1" 9000 "ns/a" "L" "T"]
    = Ok example.ledger1_a
  ∧ holds example.ledger1_a "ns/a" "lb1" 9000 = true
  ∧ "ns/a" = "ns/a".
Proof.
  assert (Hempty : empty example.ledger1) by apply (New_empty _ _ New_ledger1).
  assert (Hrun : runOps example.ledger1
            [GetVacant ["lb1"] "ns/a"; Assign "lb1" 9000 "ns/a" "L" "T"]
          = Ok example.ledger1_a) by (vm_compute; reflexivity).
  assert (Hholds : holds example.ledger1_a "ns/a" "lb1" 9000 = true)
    by (vm_compute; reflexivity).
  split_and!; [done | done | done |].
  exact (no_pair_held_by_two_services _ _ _ _ _ _ _ Hempty Hrun Hholds Hholds).
Defined.

Lemma reserve_succeeds_or_names_owner_witness :
  (∃ s', AssignNLBAndPortToServiceInNamespace example.ledger1 "lb1" 9000 "ns/a" "L" "T"
         = (s', Ok None)
     ∧ occupant s' "lb1" 9000 = Some "ns/a"
     ∧ GetAllocationForSVC s' "ns/a" = Some (mkAllocation "L" "T" "lb1" 9000 "ns/a"))
  ∧ AssignNLBAndPortToServiceInNamespace example.ledger1_a "lb1" 9000 "ns/b" "L2" "T2"
    = (example.ledger1_a, Ok (Some (ErrorString "port reserved for svc ns/a"))).
Proof.
  split.
  - apply (reserve_succeeds_or_names_owner example.ledger1 "lb1" 9000 "ns/a" "L" "T").
    + vm_compute. eauto.
    + left. vm_compute. reflexivity.
  - apply (reserve_succeeds_or_names_owner example.ledger1_a "lb1" 9000 "ns/b" "L2" "T2").
    + vm_compute. eauto.
    + vm_compute. reflexivity.
    + discriminate.
Defined.

(** C6, as stated, fails: on the ledger of a pool of two load balancers,
    two runs whose [range] loops visit the pool in the two possible orders
    return different pairs. *)
Lemma vacancy_scan_depends_on_visit_order :
  iterationOrder example.ledger2 ["lb1"; "lb2"]
  ∧ iterationOrder example.ledger2 ["lb2"; "lb1"]
  ∧ (GetVacantNLBAndPortForService ["lb1"; "lb2"] example.ledger2 "ns/a").2
    = ("lb1", 9000, None)
  ∧ (GetVacantNLBAndPortForService ["lb2"; "lb1"] example.ledger2 "ns/a").2
    = ("lb2", 9000, None)
  ∧ (GetVacantNLBAndPortForService ["lb1"; "lb2"] example.ledger2 "ns/a").2
    ≠ (GetVacantNLBAndPortForService ["lb2"; "lb1"] example.ledger2 "ns/a").2.
Proof.
  split_and!.
  - exact iterationOrder_ledger2_12.
  - exact iterationOrder_ledger2_21.
  - vm_compute. reflexivity.
  - vm_compute. reflexivity.
  - vm_compute. discriminate.
Qed.

Lemma vacancy_scan_first_free_in_visit_order_witness :
  iterationOrder example.ledger2 ["lb2"; "lb1"]
  ∧ 9000 ≤ 9000 < 9050
  ∧ occupant example.ledger2 "lb2" 9000 = None
  ∧ ∃ before after,
      ["lb2"; "lb1"] = before ++ "lb2" :: after
      ∧ ∀ nlb', nlb' ∈ before → full example.ledger2 nlb'.
Proof.
  split; [exact iterationOrder_ledger2_21|].
  pose proof (vacancy_scan_first_free_in_visit_order example.ledger2
                ["lb2"; "lb1"] "ns/a" iterationOrder_ledger2_21) as [Hscan _].
  change ((GetVacantNLBAndPortForService ["lb2"; "lb1"] example.ledger2 "ns/a").2)
    with ("lb2", 9000, @None error) in Hscan.
  destruct Hscan as (Hport & _ & Hfree & _ & Hbefore).
  by split_and!.
Defined.

Lemma listener_arn_lookup_panics_without_allocation_witness :
  ServiceAllocationMap example.ledger1 !! "ns/a" = None
  ∧ GetAllocationForSVC example.ledger1 "ns/a" = None
  ∧ GetListenerArnFor example.ledger1 "ns/a" = Panic.
Proof.
  assert (Hnone : ServiceAllocationMap example.ledger1 !! "ns/a" = None)
    by (vm_compute; reflexivity).
  split; [done|].
  exact (listener_arn_lookup_panics_without_allocation _ _ Hnone).
Defined.

End ledger_facts.

(** ** The provider client *)

Section aws_facts.

Context {E : Type} `{!aws.ELBV2 E}.

(** C3, as the code has it. An error of the provider, the not-found ones
    included, is returned to the caller as it is: the one of
    [DeleteListener] without [DeleteTargetGroup] being attempted, the one
    of [DeleteTargetGroup] after the listener was deleted. The call returns
    nil exactly when both calls of the provider return nil. *)
Theorem delete_returns_provider_errors_unchanged (c : E) (listenerArn targetArn : string) :
  let afterListener := aws.DeleteListener c listenerArn in
  let afterGroup := aws.DeleteTargetGroup afterListener.1 targetArn in
  let result := aws.client.DeleteListenerAndTargetArn c listenerArn targetArn in
  (∀ e, afterListener.2 = Some e → result = (afterListener.1, Some e))
  ∧ (∀ e, afterListener.2 = None → afterGroup.2 = Some e →
       result = (afterGroup.1, Some e))
  ∧ (result.2 = None ↔ afterListener.2 = None ∧ afterGroup.2 = None).
Proof.
  unfold aws.client.DeleteListenerAndTargetArn.
  destruct (aws.DeleteListener c listenerArn) as [c1 [e1|]]; simpl.
  - split_and!; [by intros ? [= <-] | done | by split; [|intros []]].
  - destruct (aws.DeleteTargetGroup c1 targetArn) as [c2 [e2|]]; simpl.
    + split_and!; [done | by intros ? _ [= <-] | by split; [|intros []]].
    + by split_and!.
Qed.

End aws_facts.

(** C3, as stated, fails: asked to delete a listener the provider does
    not have, and asked to delete a target group the provider does not
    have, the call returns the provider's not-found error, not nil. *)
Lemma delete_of_absent_objects_is_an_error :
  (aws.client.DeleteListenerAndTargetArn (fake.mkElb ∅ ∅) "L" "T").2
  = Some (AwsError "ListenerNotFound" "One or more listeners not found")
  ∧ aws.notFound (AwsError "ListenerNotFound" "One or more listeners not found") = true
  ∧ (aws.client.DeleteListenerAndTargetArn (fake.mkElb {["L"]} ∅) "L" "T").2
    = Some (AwsError "TargetGroupNotFound" "One or more target groups not found")
  ∧ aws.notFound (AwsError "TargetGroupNotFound" "One or more target groups not found")
    = true.
Proof. split_and!; vm_compute; reflexivity. Qed.

Lemma delete_returns_provider_errors_unchanged_witness :
  (aws.DeleteListener (fake.mkElb ∅ ∅) "L").2
  = Some (AwsError "ListenerNotFound" "One or more listeners not found")
  ∧ aws.client.DeleteListenerAndTargetArn (fake.mkElb ∅ ∅) "L" "T"
    = (fake.mkElb ∅ ∅,
       Some (AwsError "ListenerNotFound" "One or more listeners not found")).
Proof.
  assert (Hfail : (aws.DeleteListener (fake.mkElb ∅ ∅) "L").2
    = Some (AwsError "ListenerNotFound" "One or more listeners not found"))
    by (vm_compute; reflexivity).
  split; [done|].
  exact (proj1 (delete_returns_provider_errors_unchanged (fake.mkElb ∅ ∅) "L" "T")
           _ Hfail).
Defined.

(** ** The reconciler *)

Section reconciler_facts.

Import store corev1 controllers ledger.

Context {K A : Type} `{!client.Client K} `{!aws.Client A}.

Implicit Types (r : ServiceReconciler K A) (s : store) (svc : Service).
Implicit Types (calls : list Call) (req : types.NamespacedName).
Implicit Types (order : list string) (nlb name listenerArn targetArn : string).
Implicit Types (port nodePort : Z).

(** Unfolds the plumbing of [M], leaving the calls on the ledger and on
    the collaborators. *)
Ltac unfold_M :=
  unfold mbind, M_bind, mret, M_ret, bind, ret,
    r_Get, r_Update, firstNodePort,
    Store_GetAllocationForSVC, Store_GetNLBHost,
    Store_AssignNLBAndPortToServiceInNamespace,
    Store_ReleaseNLBAndPortForService,
    Store_GetVacantNLBAndPortForService,
    AwsClient_CheckListener, AwsClient_CreateNLBListenerForPort,
    AwsClient_DeleteListenerAndTargetArn in *.

(** *** Ledger steps as the pass strings them together *)

(** The pair a service has just been given by the scan can be assigned to
    it. *)
Lemma Assign_occupied_by_self s nlb port name listenerArn targetArn :
  occupant s nlb port = Some name →
  ∃ ports, NlbAllocationMap s !! nlb = Some ports
    ∧ AssignNLBAndPortToServiceInNamespace s nlb port name listenerArn targetArn
      = (mkStore (<[name := mkAllocation listenerArn targetArn nlb port name]>
                    (ServiceAllocationMap s))
                 (<[nlb := <[port := name]> ports]> (NlbAllocationMap s))
                 (NlbHosts s),
         Ok None).
Proof.
  intros Hocc. destruct (proj1 (occupant_Some _ _ _ _) Hocc) as (ports & Hnlb & _).
  exists ports. split; [done|]. apply Assign_ok; auto.
Qed.

(** Releasing right after a successful assignment frees the pair. *)
Lemma Release_after_Assign s nlb port name listenerArn targetArn s' nlb' port' :
  AssignNLBAndPortToServiceInNamespace s nlb port name listenerArn targetArn
  = (s', Ok None) →
  occupant (ReleaseNLBAndPortForService s' name nlb' port') nlb port = None
  ∧ GetAllocationForSVC (ReleaseNLBAndPortForService s' name nlb' port') name = None.
Proof.
  intros Hassign.
  destruct (Assign_cases s nlb port name listenerArn targetArn)
    as [(owner & Hocc & Hne) | [Hnone | (ports & Hnlb & Hocc)]].
  - by rewrite (Assign_conflict _ _ _ _ _ _ _ Hocc Hne) in Hassign.
  - by rewrite (Assign_panic _ _ _ _ _ _ Hnone) in Hassign.
  - rewrite (Assign_ok _ _ _ _ _ _ _ Hnlb Hocc) in Hassign. simplify_eq.
    rewrite (Release_held _ _ _ _
               (mkAllocation listenerArn targetArn nlb port name)
               (<[port := name]> ports)); simpl.
    + split.
      * rewrite occupant_insert_same. apply lookup_delete_eq.
      * unfold GetAllocationForSVC; simpl. apply lookup_delete_eq.
    + apply lookup_insert_eq.
    + apply lookup_insert_eq.
    + rewrite lookup_insert_eq. eauto.
Qed.

(** Releasing a service leaves alone every pair its record does not name. *)
Lemma Release_other_pair s name nlb' port' nlb port :
  (∀ a, ServiceAllocationMap s !! name = Some a → ¬ (NLB a = nlb ∧ Port a = port)) →
  occupant (ReleaseNLBAndPortForService s name nlb' port') nlb port
  = occupant s nlb port.
Proof.
  intros Hother. unfold ReleaseNLBAndPortForService.
  destruct (ServiceAllocationMap s !! name) as [a|] eqn:Ha; [|done].
  destruct (occupant s (NLB a) (Port a)) as [owner|] eqn:Hocc; [|done].
  apply occupant_Some in Hocc as (ports & Hnlb & Hport). rewrite Hnlb.
  rewrite occupant_insert. case_decide as Hn; [|done].
  unfold occupant. rewrite <- Hn, Hnlb. apply lookup_delete_ne.
  intros Hp. by apply (Hother a).
Qed.

(** *** The validation block *)

(** It makes at most one call, a [CheckListener]; it leaves the cluster
    alone; and when control falls through to reallocation the ledger is
    the one it started from. *)
Lemma validateAllocated_run name svc r r1 calls1 out :
  validateAllocated name svc r = (r1, calls1, out) →
  Forall (λ c, isProviderMutation c = false ∧ isUpdate c = false) calls1
  ∧ Client r1 = Client r
  ∧ (out = Ok false → Store r1 = Store r).
Proof.
  unfold validateAllocated, checkAllocationValidity. unfold_M.
  destruct (Spec_Ports svc) as [|p ports]; [by intros [= <- <- <-]|].
  destruct (strconv.Atoi _) as [svcAllocatedPort|]; [|by intros [= <- <- <-]].
  destruct (aws.CheckListener _ _ _ _ _ _) as [a1 [e|]]; simpl.
  { intros [= <- <- <-]. split_and!; [|done..]. by repeat constructor. }
  destruct (AssignNLBAndPortToServiceInNamespace _ _ _ _ _ _) as [s1 [[e|]|]] eqn:Hassign;
    simpl; intros [= <- <- <-]; (split_and!; [by repeat constructor | done |]);
    [|done..].
  intros _. simpl.
  destruct (Assign_cases (Store r) (annotation svc nlbAnnotationNLBName)
              svcAllocatedPort name (annotation svc nlbAnnotationListener)
              (annotation svc nlbAnnotationTarget))
    as [(owner & Hocc & Hne) | [Hnone | (ports' & Hnlb & Hocc)]].
  - rewrite (Assign_conflict _ _ _ _ _ _ _ Hocc Hne) in Hassign. by simplify_eq.
  - by rewrite (Assign_panic _ _ _ _ _ _ Hnone) in Hassign.
  - by rewrite (Assign_ok _ _ _ _ _ _ _ Hnlb Hocc) in Hassign.
Qed.

(** *** The allocation part of the pass, path by path *)

Lemma allocate_run order req svc r :
  let name := types.String_ req in
  ∃ s1 nlb port err,
    GetVacantNLBAndPortForService order (Store r) name = (s1, (nlb, port, err))
    ∧ match err with
      | Some e =>
          allocate order req svc r
          = (mkServiceReconciler (Client r) s1 (AwsClient r), [],
             Ok (mkResult true, Some e))
      | None =>
          match Spec_Ports svc with
          | [] =>
              allocate order req svc r
              = (mkServiceReconciler (Client r) s1 (AwsClient r), [], Panic)
          | p :: _ =>
              ∃ a1 listenerArn targetArn cerr,
                aws.CreateNLBListenerForPort (AwsClient r) nlb port (NodePort p) name
                = (a1, (listenerArn, targetArn, cerr))
                ∧ match cerr with
                  | Some e =>
                      allocate order req svc r
                      = (mkServiceReconciler (Client r)
                           (ReleaseNLBAndPortForService s1 name nlb port) a1,
                         [CallCreateNLBListenerForPort nlb port (NodePort p) name
                            (listenerArn, targetArn, Some e)],
                         Ok (mkResult true, Some e))
                  | None =>
                      ∃ s2 k1 uerr,
                        let svc' := recordBinding nlb (GetNLBHost s2 nlb) port
                                      listenerArn targetArn svc in
                        AssignNLBAndPortToServiceInNamespace s1 nlb port name
                          listenerArn targetArn = (s2, Ok None)
                        ∧ client.Update (Client r) svc' = (k1, uerr)
                        ∧ match uerr with
                          | None =>
                              allocate order req svc r
                              = (mkServiceReconciler k1 s2 a1,
                                 [CallCreateNLBListenerForPort nlb port (NodePort p)
                                    name (listenerArn, targetArn, None);
                                  CallUpdate svc' None],
                                 Ok (mkResult false, None))
                          | Some e =>
                              ∃ a2 derr,
                                aws.DeleteListenerAndTargetArn a1 listenerArn targetArn
                                = (a2, derr)
                                ∧ allocate order req svc r
                                  = (mkServiceReconciler k1
                                       (ReleaseNLBAndPortForService s2 name "" 0) a2,
                                     [CallCreateNLBListenerForPort nlb port (NodePort p)
                                        name (listenerArn, targetArn, None);
                                      CallUpdate svc' (Some e);
                                      CallDeleteListenerAndTargetArn listenerArn
                                        targetArn derr],
                                     Ok (match derr with
                                         | Some e2 => (mkResult false, Some e2)
                                         | None =>
                                             (mkResult (negb (IsNotFound e)), None)
                                         end))
                          end
                  end
          end
      end.
Proof.
  intros name. unfold allocate. unfold_M. fold name.
  pose proof (GetVacant_spec order (Store r) name) as Hspec.
  destruct (GetVacantNLBAndPortForService order (Store r) name)
    as [s1 [[nlb port] [e|]]]; exists s1, nlb, port; eexists; (split; [done|]);
    simpl; [done|].
  destruct Hspec as (_ & _ & ports & _ & Hnlb & Hscan & Hs1 & _).
  destruct (Spec_Ports svc) as [|p ps]; [done|]. simpl.
  destruct (aws.CreateNLBListenerForPort (AwsClient r) nlb port (NodePort p) name)
    as [a1 [[listenerArn targetArn] cerr]].
  exists a1, listenerArn, targetArn, cerr. split; [done|].
  destruct cerr as [e|]; simpl; [done|].
  assert (Hocc : occupant s1 nlb port = Some name).
  { rewrite Hs1, occupant_insert_same. apply lookup_insert_eq. }
  destruct (Assign_occupied_by_self _ _ _ _ listenerArn targetArn Hocc)
    as (ports1 & _ & ->). simpl.
  destruct (client.Update (Client r) _) as [k1 uerr] eqn:Hupd; simpl.
  eexists _, k1, uerr. split; [done|]. split; [exact Hupd|].
  destruct uerr as [e|]; simpl; [|done].
  destruct (aws.DeleteListenerAndTargetArn a1 listenerArn targetArn)
    as [a2 [e2|]]; simpl; eexists _, _; (split; [done|]); [done|].
  by destruct (IsNotFound e).
Qed.

(** *** The pass on a service that exists and is of type NodePort *)

Lemma Reconcile_NodePort order req r svc :
  client.Get (Client r) req = inl svc →
  Spec_Type svc = ServiceTypeNodePort →
  Reconcile order req r
  = if bool_decide (annotation svc nlbAnnotationNLBName ≠ "") then
      match validateAllocated (types.String_ req) svc r with
      | (r1, calls1, Ok true) => (r1, calls1 ++ [], Ok (mkResult false, None))
      | (r1, calls1, Ok false) =>
          match allocate order req svc r1 with
          | (r2, calls2, res) => (r2, calls1 ++ calls2, res)
          end
      | (r1, calls1, Panic) => (r1, calls1, Panic)
      end
    else allocate order req svc r.
Proof.
  intros Hget Htype. unfold Reconcile.
  unfold mbind at 1. unfold M_bind, bind at 1. unfold r_Get. rewrite Hget.
  rewrite bool_decide_eq_true_2 by done. simpl.
  case_bool_decide; unfold mbind, M_bind, bind.
  - destruct (validateAllocated _ _ _) as [[r1 calls1] [[|]|]]; [done| |done].
    by destruct (allocate order req svc r1) as [[r2 calls2] res].
  - unfold ret at 1. by destruct (allocate order req svc r) as [[r2 calls2] res].
Qed.

(** The pass on anything else makes no call on the provider but, for a
    service that is gone, the deletion of what it was allocated; it never
    writes to the cluster. *)
Lemma Reconcile_other order req r r' calls res :
  (∀ svc, client.Get (Client r) req = inl svc → Spec_Type svc ≠ ServiceTypeNodePort) →
  Reconcile order req r = (r', calls, res) →
  calls = [] ∨ ∃ listenerArn targetArn err,
    calls = [CallDeleteListenerAndTargetArn listenerArn targetArn err].
Proof.
  intros Hother. unfold Reconcile. unfold_M.
  destruct (client.Get (Client r) req) as [svc|err].
  - rewrite bool_decide_eq_false_2 by (by apply Hother). simpl.
    intros [= <- <- <-]. by left.
  - destruct (IsNotFound err); [|intros [= <- <- <-]; by left].
    destruct (GetAllocationForSVC _ _) as [a|]; [|intros [= <- <- <-]; by left].
    destruct (aws.DeleteListenerAndTargetArn _ _ _) as [a1 [e|]]; simpl;
      intros [= <- <- <-]; right; eauto.
Qed.

(** A pass that creates a listener or writes to the cluster is one that
    went, perhaps after a validation that left the ledger and the cluster
    as they were, through the allocation part. *)
Lemma Reconcile_allocating order req r r' calls res c :
  Reconcile order req r = (r', calls, res) →
  c ∈ calls → isCreate c = true ∨ isUpdate c = true →
  ∃ svc r1 checks calls2,
    client.Get (Client r) req = inl svc
    ∧ Spec_Type svc = ServiceTypeNodePort
    ∧ Client r1 = Client r ∧ Store r1 = Store r
    ∧ Forall (λ c, isProviderMutation c = false ∧ isUpdate c = false) checks
    ∧ calls = checks ++ calls2
    ∧ allocate order req svc r1 = (r', calls2, res).
Proof.
  intros Hrun Hin Hc.
  assert (Hnot : ∀ checks,
            Forall (λ c, isProviderMutation c = false ∧ isUpdate c = false) checks →
            c ∈ checks → False).
  { intros checks Hall Hin'. rewrite Forall_forall in Hall.
    destruct (Hall _ Hin') as [Hm Hu]. destruct c; simpl in *; by destruct Hc. }
  destruct (client.Get (Client r) req) as [svc|err] eqn:Hget.
  2: { eapply Reconcile_other in Hrun as [-> | (l & t & e & ->)];
         [by apply elem_of_nil in Hin | | by rewrite Hget].
       apply list_elem_of_singleton in Hin as ->. by destruct Hc. }
  destruct (decide (Spec_Type svc = ServiceTypeNodePort)) as [Htype|Htype].
  2: { eapply Reconcile_other in Hrun as [-> | (l & t & e & ->)];
         [by apply elem_of_nil in Hin | |].
       - apply list_elem_of_singleton in Hin as ->. by destruct Hc.
       - rewrite Hget. by intros ? [= <-]. }
  rewrite (Reconcile_NodePort _ _ _ _ Hget Htype) in Hrun.
  case_bool_decide.
  - destruct (validateAllocated _ _ _) as [[r1 calls1] out] eqn:Hval.
    apply validateAllocated_run in Hval as (Hchecks & Hk & Hs).
    destruct out as [[|]|].
    + simplify_eq. rewrite app_nil_r in Hin. by destruct (Hnot _ Hchecks Hin).
    + destruct (allocate order req svc r1) as [[r2 calls2] res2] eqn:Halloc.
      simplify_eq. exists svc, r1, calls1, calls2. by split_and!; auto.
    + simplify_eq. by destruct (Hnot _ Hchecks Hin).
  - exists svc, r, [], calls. by split_and!.
Qed.

(** *** Results on the reconciler *)

(** C7. In a pass in which [CreateNLBListenerForPort] returned the handles
    [(listenerArn, targetArn)] for the pair [(nlb, port)] and the write of
    the annotations failed: when the pass returns, the pair is unoccupied
    and the service has no allocation record; the calls made after the
    validation are that creation, that write and one
    [DeleteListenerAndTargetArn] on the same two handles; and when that
    deletion fails the result is its error with [Requeue] false. *)
Theorem failed_annotation_write_is_compensated
    order req r r' calls res nlb port nodePort svcName listenerArn targetArn svc' e :
  Reconcile order req r = (r', calls, res) →
  CallCreateNLBListenerForPort nlb port nodePort svcName (listenerArn, targetArn, None)
    ∈ calls →
  CallUpdate svc' (Some e) ∈ calls →
  occupant (Store r') nlb port = None
  ∧ GetAllocationForSVC (Store r') (types.String_ req) = None
  ∧ ∃ checks derr,
      calls = checks
              ++ [CallCreateNLBListenerForPort nlb port nodePort svcName
                    (listenerArn, targetArn, None);
                  CallUpdate svc' (Some e);
                  CallDeleteListenerAndTargetArn listenerArn targetArn derr]
      ∧ Forall (λ c, isProviderMutation c = false ∧ isUpdate c = false) checks
      ∧ res = Ok (match derr with
                  | Some e2 => (mkResult false, Some e2)
                  | None => (mkResult (negb (IsNotFound e)), None)
                  end).
Proof.
  intros Hrun Hcreate Hupdate.
  destruct (Reconcile_allocating _ _ _ _ _ _ _ Hrun Hupdate)
    as (svc & r1 & checks & calls2 & _ & _ & _ & _ & Hchecks & -> & Halloc);
    [by right|].
  assert (Hin : ∀ c, isCreate c = true ∨ isUpdate c = true →
            c ∈ checks ++ calls2 → c ∈ calls2).
  { intros c Hc [Hin|Hin]%elem_of_app; [|done]. rewrite Forall_forall in Hchecks.
    destruct (Hchecks _ Hin) as [Hm Hu]. destruct c; simpl in *; by destruct Hc. }
  apply Hin in Hcreate; [|by left]. apply Hin in Hupdate; [|by right]. clear Hin.
  destruct (allocate_run order req svc r1)
    as (s1 & nlb0 & port0 & err & _ & Hpath).
  destruct err as [e0|].
  { rewrite Halloc in Hpath. simplify_eq. by apply elem_of_nil in Hupdate. }
  destruct (Spec_Ports svc) as [|p ps].
  { rewrite Halloc in Hpath. simplify_eq. by apply elem_of_nil in Hupdate. }
  destruct Hpath as (a1 & l0 & t0 & cerr & _ & Hpath).
  destruct cerr as [e0|].
  { rewrite Halloc in Hpath. simplify_eq.
    by apply list_elem_of_singleton in Hupdate. }
  destruct Hpath as (s2 & k1 & uerr & Hassign & _ & Hpath).
  destruct uerr as [e0|].
  - destruct Hpath as (a2 & derr & _ & Hpath). rewrite Halloc in Hpath.
    simplify_eq.
    rewrite !elem_of_cons, elem_of_nil in Hcreate, Hupdate.
    destruct Hcreate as [Hcreate | [? | [? | []]]]; try done.
    destruct Hupdate as [? | [Hupdate | [? | []]]]; try done.
    simplify_eq; simpl.
    destruct (Release_after_Assign _ _ _ _ _ _ _ "" 0 Hassign) as [Hfree Hgone].
    split_and!; [done | done |]. by exists checks, derr.
  - rewrite Halloc in Hpath. simplify_eq.
    rewrite !elem_of_cons, elem_of_nil in Hupdate.
    by destruct Hupdate as [? | [? | []]].
Qed.

(** *** What the second pass reads back *)

Lemma Atoi_Itoa_port port :
  9000 ≤ port < 9050 → strconv.Atoi (strconv.Itoa port) = Some port.
Proof.
  intros Hport%elem_of_portRange.
  assert (Hall : forallb (λ p, bool_decide (strconv.Atoi (strconv.Itoa p) = Some p))
                   portRange = true) by (vm_compute; reflexivity).
  rewrite forallb_forall in Hall. apply list_elem_of_In, Hall in Hport.
  by apply bool_decide_eq_true in Hport.
Qed.

Lemma recordBinding_annotations nlb host port listenerArn targetArn svc :
  let svc' := recordBinding nlb host port listenerArn targetArn svc in
  annotation svc' nlbAnnotationNLBName = nlb
  ∧ annotation svc' nlbAnnotationPort = strconv.Itoa port
  ∧ annotation svc' nlbAnnotationListener = listenerArn
  ∧ annotation svc' nlbAnnotationTarget = targetArn
  ∧ Spec_Type svc' = Spec_Type svc
  ∧ Spec_Ports svc' = Spec_Ports svc.
Proof.
  unfold recordBinding, annotation, setAnnotation; simpl.
  split_and!; [| | | |done..];
    repeat (rewrite lookup_insert_ne by (by intros [=]));
    by rewrite lookup_insert_eq.
Qed.



(** C9. For a load-balancer name that is not in the pool,
    [AssignNLBAndPortToServiceInNamespace] panics, whatever the port, the
    service and the handles; and so does the pass on a service of type
    NodePort whose binding record names such a load balancer, once the
    recorded port parses and [CheckListener] accepts the record. *)
Theorem assignment_outside_pool_panics r nlb :
  NlbAllocationMap (Store r) !! nlb = None →
  (∀ port name listenerArn targetArn,
     (AssignNLBAndPortToServiceInNamespace (Store r) nlb port name
        listenerArn targetArn).2 = Panic)
  ∧ (∀ order req svc port p ps a1,
       client.Get (Client r) req = inl svc →
       Spec_Type svc = ServiceTypeNodePort →
       annotation svc nlbAnnotationNLBName = nlb → nlb ≠ "" →
       strconv.Atoi (annotation svc nlbAnnotationPort) = Some port →
       Spec_Ports svc = p :: ps →
       aws.CheckListener (AwsClient r) (annotation svc nlbAnnotationListener)
         (annotation svc nlbAnnotationTarget) nlb port (NodePort p) = (a1, None) →
       (Reconcile order req r).2 = Panic).
Proof.
  intros Hnone. split.
  - intros port name listenerArn targetArn. by rewrite Assign_panic.
  - intros order req svc port p ps a1 Hget Htype Hname Hne Hatoi Hports Hcheck.
    rewrite (Reconcile_NodePort _ _ _ _ Hget Htype).
    rewrite Hname, bool_decide_eq_true_2 by done.
    unfold validateAllocated, checkAllocationValidity. unfold_M.
    rewrite Hports, Hatoi, Hname, Hcheck. simpl.
    by rewrite Assign_panic.
Qed.

(** The part of C1 that the code has: a service that is not of type
    NodePort is left alone. *)
Lemma Reconcile_skips_other_types order req r svc :
  client.Get (Client r) req = inl svc →
  Spec_Type svc ≠ ServiceTypeNodePort →
  Reconcile order req r = (r, [], Ok (mkResult false, None)).
Proof.
  intros Hget Htype. unfold Reconcile. unfold_M. rewrite Hget.
  by rewrite bool_decide_eq_false_2.
Qed.

(** The defect behind C2 in general: on a consistent ledger, the pair
    reserved for a pass whose creation fails is still occupied by the
    service when the pass returns. *)
Lemma failed_creation_leaves_pair_occupied
    order req r r' calls res nlb port nodePort svcName listenerArn targetArn e :
  consistent (Store r) →
  Reconcile order req r = (r', calls, res) →
  CallCreateNLBListenerForPort nlb port nodePort svcName
    (listenerArn, targetArn, Some e) ∈ calls →
  occupant (Store r') nlb port = Some (types.String_ req)
  ∧ res = Ok (mkResult true, Some e).
Proof.
  intros Hcons Hrun Hcreate.
  destruct (Reconcile_allocating _ _ _ _ _ _ _ Hrun Hcreate)
    as (svc & r0 & checks & calls2 & _ & _ & _ & Hstore & Hchecks & -> & Halloc);
    [by left|].
  apply elem_of_app in Hcreate as [Hin|Hcreate].
  { rewrite Forall_forall in Hchecks. by destruct (Hchecks _ Hin). }
  destruct (allocate_run order req svc r0)
    as (s1 & nlb0 & port0 & err & Hvacant & Hpath).
  destruct err as [e0|].
  { rewrite Halloc in Hpath. simplify_eq. by apply elem_of_nil in Hcreate. }
  destruct (Spec_Ports svc) as [|p ps].
  { rewrite Halloc in Hpath. simplify_eq. by apply elem_of_nil in Hcreate. }
  destruct Hpath as (a1 & l0 & t0 & cerr & _ & Hpath).
  destruct cerr as [e0|].
  - rewrite Halloc in Hpath. simplify_eq.
    apply list_elem_of_singleton in Hcreate. simplify_eq; simpl.
    split; [|done].
    pose proof (GetVacant_spec order (Store r0) (types.String_ req)) as Hspec.
    rewrite Hvacant in Hspec.
    destruct Hspec as (_ & _ & ports & _ & Hnlb & Hscan & -> & _).
    apply firstVacantPort_portRange_Some in Hscan as (_ & Hfree & _).
    rewrite Release_other_pair.
    + rewrite occupant_insert_same. apply lookup_insert_eq.
    + simpl. intros a Ha [Hn Hp]. rewrite Hstore in Ha. apply Hcons in Ha.
      revert Ha. unfold occupant. rewrite <- Hstore, Hn, Hnlb, Hp, Hfree. done.
  - destruct Hpath as (s2 & k1 & uerr & _ & _ & Hpath).
    destruct uerr as [e0|].
    + destruct Hpath as (a2 & derr & _ & Hpath). rewrite Halloc in Hpath.
      simplify_eq. rewrite !elem_of_cons, elem_of_nil in Hcreate.
      by destruct Hcreate as [? | [? | [? | []]]].
    + rewrite Halloc in Hpath. simplify_eq.
      rewrite !elem_of_cons, elem_of_nil in Hcreate.
      by destruct Hcreate as [? | [? | []]].
Qed.

End reconciler_facts.

(** *** The results at concrete passes *)

Section reconciler_examples.

Import store corev1 controllers ledger.

(** C1 fails on the code. The pass on a service of type NodePort that
    carries no opt-in annotation reserves a pair, has the provider create
    a listener and writes the binding record to the cluster. *)
Theorem pass_allocates_without_opt_in :
  annotation example.svcA serviceAnnotation ≠ "true"
  ∧ Reconcile ["lb1"] example.reqA
      (example.reconciler example.svcA None ("L", "T", None) None)
    = (mkServiceReconciler
         (fake.mkCluster
            {["ns/a" := recordBinding "lb1" "host1" 9000 "L" "T" example.svcA]} None)
         example.ledger1_a
         (fake.mkProvider ("L", "T", None) None None),
       [CallCreateNLBListenerForPort "lb1" 9000 30080 "ns/a" ("L", "T", None);
        CallUpdate (recordBinding "lb1" "host1" 9000 "L" "T" example.svcA) None],
       Ok (mkResult false, None)).
Proof. split; [by vm_compute | vm_compute; reflexivity]. Qed.

(** C2 fails on the code. After a pass whose creation fails, the pair
    reserved for it is still occupied by the service, which has no
    allocation record through which it could be released, and the next
    scan passes over it. *)
Theorem pair_of_failed_creation_stays_reserved :
  let run :=
    Reconcile ["lb1"] example.reqA
      (example.reconciler example.svcA None ("", "", Some (ErrorString "boom")) None) in
  run.1.2 = [CallCreateNLBListenerForPort "lb1" 9000 30080 "ns/a"
               ("", "", Some (ErrorString "boom"))]
  ∧ run.2 = Ok (mkResult true, Some (ErrorString "boom"))
  ∧ occupant (Store run.1.1) "lb1" 9000 = Some "ns/a"
  ∧ GetAllocationForSVC (Store run.1.1) "ns/a" = None
  ∧ (GetVacantNLBAndPortForService ["lb1"] (Store run.1.1) "ns/b").2
    = ("lb1", 9001, None).
Proof. split_and!; vm_compute; reflexivity. Qed.

Lemma failed_annotation_write_is_compensated_witness :
  let r := example.reconciler example.svcA (Some (ErrorString "conflict"))
             ("L", "T", None) (Some (ErrorString "down")) in
  let svc' := recordBinding "lb1" "host1" 9000 "L" "T" example.svcA in
  let calls :=
    [CallCreateNLBListenerForPort "lb1" 9000 30080 "ns/a" ("L", "T", None);
     CallUpdate svc' (Some (ErrorString "conflict"));
     CallDeleteListenerAndTargetArn "L" "T" (Some (ErrorString "down"))] in
  Reconcile ["lb1"] example.reqA r
  = (r, calls, Ok (mkResult false, Some (ErrorString "down")))
  ∧ occupant (Store r) "lb1" 9000 = None
  ∧ GetAllocationForSVC (Store r) "ns/a" = None.
Proof.
  intros r svc' calls.
  assert (Hrun : Reconcile ["lb1"] example.reqA r
            = (r, calls, Ok (mkResult false, Some (ErrorString "down"))))
    by (vm_compute; reflexivity).
  split; [exact Hrun|].
  assert (Hcreate :
    CallCreateNLBListenerForPort "lb1" 9000 30080 "ns/a" ("L", "T", None) ∈ calls)
    by apply list_elem_of_here.
  assert (Hupdate : CallUpdate svc' (Some (ErrorString "conflict")) ∈ calls)
    by apply list_elem_of_further, list_elem_of_here.
  destruct (failed_annotation_write_is_compensated _ _ _ _ _ _ _ _ _ _ _ _ _ _
              Hrun Hcreate Hupdate) as (Hfree & Hgone & _).
  split; [exact Hfree | exact Hgone].
Defined.



Lemma assignment_outside_pool_panics_witness :
  let r := example.reconciler example.svcA_ghost None ("L", "T", None) None in
  NlbAllocationMap (Store r) !! "ghost" = None
  ∧ (AssignNLBAndPortToServiceInNamespace (Store r) "ghost" 9000 "ns/a" "L" "T").2
    = Panic
  ∧ (Reconcile ["lb1"] example.reqA r).2 = Panic.
Proof.
  intros r.
  assert (Hnone : NlbAllocationMap (Store r) !! "ghost" = None)
    by (vm_compute; reflexivity).
  split; [exact Hnone|].
  destruct (assignment_outside_pool_panics r "ghost" Hnone) as [Hassign Hpass].
  split; [apply Hassign|].
  apply (Hpass ["lb1"] example.reqA example.svcA_ghost 9000
           (mkServicePort 30080) [] (AwsClient r)).
  - vm_compute. reflexivity.
  - reflexivity.
  - vm_compute. reflexivity.
  - discriminate.
  - vm_compute. reflexivity.
  - reflexivity.
  - vm_compute. reflexivity.
Defined.

End reconciler_examples.

(** * Further properties of the ledger *)

Section ledger_more.

Import store ledger.

Implicit Types (s : store) (ports : gmap Z string) (port : Z).
Implicit Types (nlb svc owner listenerArn targetArn : string) (order : list string).

Lemma occupant_mkStore_insert sam (nlbs : gmap string (gmap Z string)) hosts
    nlb ports nlb' port' :
  occupant (mkStore sam (<[nlb := ports]> nlbs) hosts) nlb' port'
  = if decide (nlb = nlb') then ports !! port'
    else occupant (mkStore sam nlbs hosts) nlb' port'.
Proof. unfold occupant; simpl. rewrite lookup_insert. by case_decide. Qed.

(** The names of the pool after a scan are those before it. *)
Lemma GetVacant_pool order s svc :
  dom (NlbAllocationMap (GetVacantNLBAndPortForService order s svc).1)
  = dom (NlbAllocationMap s)
  ∧ NlbHosts (GetVacantNLBAndPortForService order s svc).1 = NlbHosts s.
Proof.
  pose proof (GetVacant_spec order s svc) as Hspec.
  destruct (GetVacantNLBAndPortForService order s svc) as [s' [[nlb port] [e|]]];
    simpl.
  - by destruct Hspec as (-> & _).
  - destruct Hspec as (_ & _ & ports & _ & Hnlb & _ & -> & _). simpl.
    split; [|done]. apply dom_insert_lookup_L. eauto.
Qed.

(** ** What each call changes, and what it leaves alone *)

(** X1. A scan that returns a pair has made that pair, free until then,
    occupied by the service; every other pair, every allocation record,
    the hosts and the names of the pool are as before. A scan that returns
    the error has changed nothing. *)
Theorem vacancy_scan_occupies_exactly_the_returned_pair order s svc :
  match GetVacantNLBAndPortForService order s svc with
  | (s', (nlb, port, None)) =>
      occupant s nlb port = None
      ∧ occupant s' nlb port = Some svc
      ∧ (∀ nlb' port', (nlb', port') ≠ (nlb, port) →
           occupant s' nlb' port' = occupant s nlb' port')
      ∧ ServiceAllocationMap s' = ServiceAllocationMap s
      ∧ NlbHosts s' = NlbHosts s
      ∧ dom (NlbAllocationMap s') = dom (NlbAllocationMap s)
  | (s', (_, _, Some _)) => s' = s
  end.
Proof.
  pose proof (GetVacant_spec order s svc) as Hspec.
  destruct (GetVacantNLBAndPortForService order s svc) as [s' [[nlb port] [e|]]].
  - by destruct Hspec as (-> & _).
  - destruct Hspec as (_ & _ & ports & _ & Hnlb & Hscan & -> & _).
    apply firstVacantPort_portRange_Some in Hscan as (_ & Hfree & _).
    split_and!; simpl; try done.
    + unfold occupant. by rewrite Hnlb.
    + rewrite occupant_insert_same. apply lookup_insert_eq.
    + intros nlb' port' Hne. rewrite occupant_insert.
      case_decide as Hn; [|done]. subst nlb'.
      unfold occupant. rewrite Hnlb. apply lookup_insert_ne. congruence.
    + apply dom_insert_lookup_L. eauto.
Qed.

(** X2. Releasing a service removes its allocation record and frees the
    pair that record names; no other pair and no other record changes, and
    releasing again changes nothing, whatever [nlb] and [port] are passed
    to the calls. *)
Theorem release_frees_the_recorded_pair_only s svc nlb0 port0 :
  let s' := ReleaseNLBAndPortForService s svc nlb0 port0 in
  GetAllocationForSVC s' svc = None
  ∧ (∀ a, GetAllocationForSVC s svc = Some a → occupant s' (NLB a) (Port a) = None)
  ∧ (∀ nlb port,
       (∀ a, GetAllocationForSVC s svc = Some a → (NLB a, Port a) ≠ (nlb, port)) →
       occupant s' nlb port = occupant s nlb port)
  ∧ (∀ other, other ≠ svc → GetAllocationForSVC s' other = GetAllocationForSVC s other)
  ∧ (∀ nlb1 port1, ReleaseNLBAndPortForService s' svc nlb1 port1 = s').
Proof.
  intros s'. unfold GetAllocationForSVC.
  assert (Hgone : ServiceAllocationMap s' !! svc = None).
  { unfold s', ReleaseNLBAndPortForService.
    destruct (ServiceAllocationMap s !! svc) as [a|] eqn:Ha; [|done].
    simpl. apply lookup_delete_eq. }
  split_and!.
  - done.
  - intros a Ha. unfold s', ReleaseNLBAndPortForService. rewrite Ha.
    destruct (occupant s (NLB a) (Port a)) as [owner|] eqn:Hocc; [|done].
    apply occupant_Some in Hocc as (ports & Hnlb & Hport). rewrite Hnlb.
    rewrite occupant_insert_same. apply lookup_delete_eq.
  - intros nlb port Hother. apply Release_other_pair.
    intros a Ha [Hn Hp]. apply (Hother a Ha). by rewrite Hn, Hp.
  - intros other Hne. unfold s', ReleaseNLBAndPortForService.
    destruct (ServiceAllocationMap s !! svc) as [a|] eqn:Ha; [|done].
    simpl. by apply lookup_delete_ne.
  - intros nlb1 port1. by apply Release_absent.
Qed.

(** X3. Assigning a free pair to a service without a record and then
    releasing the service gives back the ledger one started from. *)
Theorem release_undoes_assignment s nlb port svc listenerArn targetArn s' nlb0 port0 :
  occupant s nlb port = None →
  GetAllocationForSVC s svc = None →
  AssignNLBAndPortToServiceInNamespace s nlb port svc listenerArn targetArn
  = (s', Ok None) →
  ReleaseNLBAndPortForService s' svc nlb0 port0 = s.
Proof.
  intros Hfree Hnone Hassign.
  destruct (Assign_cases s nlb port svc listenerArn targetArn)
    as [(owner & Hocc & Hne) | [Hno | (ports & Hnlb & Hocc)]].
  - congruence.
  - by rewrite (Assign_panic _ _ _ _ _ _ Hno) in Hassign.
  - rewrite (Assign_ok _ _ _ _ _ _ _ Hnlb Hocc) in Hassign. simplify_eq.
    rewrite (Release_held _ _ _ _
               (mkAllocation listenerArn targetArn nlb port svc)
               (<[port := svc]> ports)); simpl.
    + unfold occupant in Hfree. rewrite Hnlb in Hfree.
      rewrite (delete_insert_id (ServiceAllocationMap s)) by done.
      rewrite (delete_insert_id ports) by done.
      rewrite insert_insert_eq, insert_id by done. by destruct s.
    + apply lookup_insert_eq.
    + apply lookup_insert_eq.
    + rewrite lookup_insert_eq. eauto.
Qed.

(** The same for a pair obtained from the scan: scan, assign, release
    gives back the ledger as it was before the scan. *)
Lemma scan_assign_release
    order s svc s1 nlb port listenerArn targetArn nlb0 port0 :
  GetAllocationForSVC s svc = None →
  GetVacantNLBAndPortForService order s svc = (s1, (nlb, port, None)) →
  ∃ s2,
    AssignNLBAndPortToServiceInNamespace s1 nlb port svc listenerArn targetArn
    = (s2, Ok None)
    ∧ ReleaseNLBAndPortForService s2 svc nlb0 port0 = s.
Proof.
  intros Hnone Hscan.
  pose proof (GetVacant_spec order s svc) as Hspec. rewrite Hscan in Hspec.
  destruct Hspec as (_ & _ & ports & _ & Hnlb & Hfirst & -> & _).
  apply firstVacantPort_portRange_Some in Hfirst as (_ & Hfree & _).
  eexists. split.
  - apply (Assign_ok _ _ _ _ _ _ (<[port := svc]> ports)); simpl.
    + apply lookup_insert_eq.
    + right. rewrite occupant_insert_same. apply lookup_insert_eq.
  - rewrite (Release_held _ _ _ _
               (mkAllocation listenerArn targetArn nlb port svc)
               (<[port := svc]> (<[port := svc]> ports))); simpl.
    + rewrite (delete_insert_id (ServiceAllocationMap s)) by done.
      rewrite (insert_insert_eq ports), (delete_insert_id ports) by done.
      rewrite !insert_insert_eq, insert_id by done. by destruct s.
    + apply lookup_insert_eq.
    + apply lookup_insert_eq.
    + rewrite lookup_insert_eq. eauto.
Qed.

(** X4. Assigning a second pair to a service does not give up the first:
    after the release of the service the second pair is free, while the
    first is still occupied by the service, which no longer has a record;
    another service asking for it is refused, and releasing the service
    again does not free it. *)
Theorem reassignment_leaks_the_previous_pair
    s nlb1 port1 l1 t1 nlb2 port2 l2 t2 svc s1 s2 :
  AssignNLBAndPortToServiceInNamespace s nlb1 port1 svc l1 t1 = (s1, Ok None) →
  AssignNLBAndPortToServiceInNamespace s1 nlb2 port2 svc l2 t2 = (s2, Ok None) →
  (nlb1, port1) ≠ (nlb2, port2) →
  let s3 := ReleaseNLBAndPortForService s2 svc nlb2 port2 in
  occupant s3 nlb2 port2 = None
  ∧ occupant s3 nlb1 port1 = Some svc
  ∧ GetAllocationForSVC s3 svc = None
  ∧ ReleaseNLBAndPortForService s3 svc nlb1 port1 = s3
  ∧ ∀ other l t, other ≠ svc →
      AssignNLBAndPortToServiceInNamespace s3 nlb1 port1 other l t
      = (s3, Ok (Some (ErrorString ("port reserved for svc " +:+ svc)))).
Proof.
  intros Hassign1 Hassign2 Hne s3.
  destruct (Assign_cases s nlb1 port1 svc l1 t1)
    as [(owner & Hocc & Hn) | [Hno | (ports1 & Hnlb1 & Hocc1)]].
  { by rewrite (Assign_conflict _ _ _ _ _ _ _ Hocc Hn) in Hassign1. }
  { by rewrite (Assign_panic _ _ _ _ _ _ Hno) in Hassign1. }
  rewrite (Assign_ok _ _ _ _ _ _ _ Hnlb1 Hocc1) in Hassign1.
  injection Hassign1 as <-.
  destruct (Assign_cases
              (mkStore (<[svc := mkAllocation l1 t1 nlb1 port1 svc]>
                          (ServiceAllocationMap s))
                       (<[nlb1 := <[port1 := svc]> ports1]> (NlbAllocationMap s))
                       (NlbHosts s)) nlb2 port2 svc l2 t2)
    as [(owner & Hocc & Hn) | [Hno | (ports2 & Hnlb2 & Hocc2)]].
  { by rewrite (Assign_conflict _ _ _ _ _ _ _ Hocc Hn) in Hassign2. }
  { by rewrite (Assign_panic _ _ _ _ _ _ Hno) in Hassign2. }
  rewrite (Assign_ok _ _ _ _ _ _ _ Hnlb2 Hocc2) in Hassign2.
  injection Hassign2 as <-. simpl in Hnlb2.
  assert (Hs3 : s3 = mkStore (delete svc (ServiceAllocationMap s))
                       (<[nlb2 := delete port2 ports2]>
                          (<[nlb1 := <[port1 := svc]> ports1]> (NlbAllocationMap s)))
                       (NlbHosts s)).
  { unfold s3.
    rewrite (Release_held _ _ _ _ (mkAllocation l2 t2 nlb2 port2 svc)
               (<[port2 := svc]> ports2)); simpl.
    - by rewrite !delete_insert_eq, insert_insert_eq.
    - apply lookup_insert_eq.
    - apply lookup_insert_eq.
    - rewrite lookup_insert_eq. eauto. }
  assert (Hgone : ServiceAllocationMap s3 !! svc = None).
  { rewrite Hs3. simpl. apply lookup_delete_eq. }
  assert (Hkept : occupant s3 nlb1 port1 = Some svc).
  { rewrite Hs3, occupant_mkStore_insert. case_decide as Hn.
    - subst nlb2. rewrite lookup_insert_eq in Hnlb2. injection Hnlb2 as <-.
      rewrite lookup_delete_ne by congruence. apply lookup_insert_eq.
    - rewrite occupant_insert_same. apply lookup_insert_eq. }
  split_and!.
  - rewrite Hs3, occupant_insert_same. apply lookup_delete_eq.
  - done.
  - done.
  - by apply Release_absent.
  - intros other l t Hother. by apply Assign_conflict.
Qed.

(** ** The pool is fixed *)

(** X5. No sequence of calls on the ledger that return changes the names
    of the pool or their hosts, and the consistency of the two indices is
    kept. *)
Theorem ledger_calls_keep_the_pool ops s s' :
  runOps s ops = Ok s' →
  dom (NlbAllocationMap s') = dom (NlbAllocationMap s)
  ∧ NlbHosts s' = NlbHosts s
  ∧ (consistent s → consistent s').
Proof.
  intros Hrun. split_and!; [| |intros ?; by eapply runOps_consistent].
  - revert s Hrun. induction ops as [|op ops IH]; simpl; intros s.
    + by intros [= <-].
    + destruct (runOp s op) as [s1|] eqn:Hop; [|done].
      intros Hrun. rewrite (IH _ Hrun). clear IH Hrun.
      destruct op as [nlb port svc l t | order svc | svc nlb port]; simpl in Hop.
      * destruct (Assign_cases s nlb port svc l t)
          as [(owner & Hocc & Hn) | [Hno | (ports & Hnlb & Hocc)]].
        -- rewrite (Assign_conflict _ _ _ _ _ _ _ Hocc Hn) in Hop. by simplify_eq.
        -- by rewrite (Assign_panic _ _ _ _ _ _ Hno) in Hop.
        -- rewrite (Assign_ok _ _ _ _ _ _ _ Hnlb Hocc) in Hop. simplify_eq; simpl.
           apply dom_insert_lookup_L. eauto.
      * injection Hop as <-. apply GetVacant_pool.
      * injection Hop as <-. unfold ReleaseNLBAndPortForService.
        destruct (ServiceAllocationMap s !! svc) as [a|]; [|done]. simpl.
        destruct (occupant s (NLB a) (Port a)); [|done].
        destruct (NlbAllocationMap s !! NLB a) eqn:Hnlb; [|done].
        apply dom_insert_lookup_L. eauto.
  - revert s Hrun. induction ops as [|op ops IH]; simpl; intros s.
    + by intros [= <-].
    + destruct (runOp s op) as [s1|] eqn:Hop; [|done].
      intros Hrun. rewrite (IH _ Hrun). clear IH Hrun.
      destruct op as [nlb port svc l t | order svc | svc nlb port]; simpl in Hop.
      * destruct (Assign_cases s nlb port svc l t)
          as [(owner & Hocc & Hn) | [Hno | (ports & Hnlb & Hocc)]].
        -- rewrite (Assign_conflict _ _ _ _ _ _ _ Hocc Hn) in Hop. by simplify_eq.
        -- by rewrite (Assign_panic _ _ _ _ _ _ Hno) in Hop.
        -- rewrite (Assign_ok _ _ _ _ _ _ _ Hnlb Hocc) in Hop. by simplify_eq.
      * injection Hop as <-. apply GetVacant_pool.
      * injection Hop as <-. unfold ReleaseNLBAndPortForService.
        by destruct (ServiceAllocationMap s !! svc) as [a|].
Qed.

(** ** Start-up *)

Lemma Split_nonempty str sep : Split str sep ≠ [].
Proof.
  destruct str as [|c rest]; simpl; [done|].
  destruct (Ascii.eqb c sep); [done|]. by destruct (Split rest sep).
Qed.

(** A string splits into two fields or more exactly when the separator
    occurs in it. *)
Lemma Split_two_fields str sep :
  (∃ f1 f2 fs, Split str sep = f1 :: f2 :: fs) ↔ In sep (String.list_ascii_of_string str).
Proof.
  induction str as [|c rest IH]; simpl.
  - split; [by intros (? & ? & ? & ?) | done].
  - destruct (Ascii.eqb_spec c sep) as [->|Hne].
    + split; [by left|]. intros _.
      destruct (Split rest sep) as [|f fs] eqn:Hrest;
        [by destruct (Split_nonempty rest sep) | eauto].
    + rewrite <- IH. destruct (Split rest sep) as [|f [|f2 fs]] eqn:Hrest.
      * by destruct (Split_nonempty rest sep).
      * split; [by intros (? & ? & ? & ?) | ].
        intros [? | (? & ? & ? & ?)]; done.
      * split; [intros _; right; eauto | eauto].
Qed.

(** The fields of a split, joined by the separator, are the string. *)
Lemma Split_join str sep :
  foldr (λ field acc,
           match acc with
           | None => Some field
           | Some joined => Some (field +:+ String sep joined)
           end) None (Split str sep)
  = Some str.
Proof.
  induction str as [|c rest IH]; simpl; [done|].
  destruct (Ascii.eqb_spec c sep) as [->|Hne].
  - simpl. by rewrite IH.
  - destruct (Split rest sep) as [|f fs]; [done|]. simpl in *.
    destruct (foldr _ None fs); by simplify_eq.
Qed.

Lemma loadNlbEntries_returns nlbList nlbData nlbHosts :
  (∃ loaded, loadNlbEntries nlbList nlbData nlbHosts = Ok loaded)
  ↔ Forall (λ entry, In ":"%char (String.list_ascii_of_string entry)) nlbList.
Proof.
  revert nlbData nlbHosts.
  induction nlbList as [|entry nlbList IH]; simpl; intros nlbData nlbHosts.
  - split; [constructor | eauto].
  - rewrite Forall_cons, <- Split_two_fields.
    destruct (Split entry ":") as [|nlb [|nlbHost fields]].
    + split; [by intros [? ?] | by intros [(? & ? & ? & ?) _]].
    + split; [by intros [? ?] | by intros [(? & ? & ? & ?) _]].
    + case_bool_decide; rewrite IH; (split; [by eauto 6 | by intros [_ ?]]).
Qed.

Lemma loadNlbEntries_pool nlbList nlbData nlbHosts nlbData' nlbHosts' :
  loadNlbEntries nlbList nlbData nlbHosts = Ok (nlbData', nlbHosts') →
  (∀ nlb, is_Some (nlbData' !! nlb) ↔
     is_Some (nlbData !! nlb)
     ∨ (nlb ≠ "" ∧ ∃ entry host rest,
          entry ∈ nlbList ∧ Split entry ":" = nlb :: host :: rest))
  ∧ (∀ nlb host, nlbHosts' !! nlb = Some host →
       nlbHosts !! nlb = Some host
       ∨ (nlb ≠ "" ∧ ∃ entry rest,
            entry ∈ nlbList ∧ Split entry ":" = nlb :: host :: rest))
  ∧ (dom nlbHosts = dom nlbData → dom nlbHosts' = dom nlbData').
Proof.
  revert nlbData nlbHosts.
  induction nlbList as [|entry nlbList IH]; simpl; intros nlbData nlbHosts.
  - intros [= <- <-]. split_and!; [|by auto|done].
    intros nlb. split; [by left|]. intros [?|(_ & ? & ? & ? & []%elem_of_nil & _)].
    done.
  - destruct (Split entry ":") as [|name [|host0 fields]] eqn:Hsplit; [done..|].
    case_bool_decide as Hname.
    + intros (Hdata & Hhosts & Hdom)%IH. split_and!.
      * intros nlb. rewrite Hdata, lookup_insert. case_decide as Heq.
        -- subst name. split; [intros _; right|by eauto].
           split; [done|]. exists entry, host0, fields. split; [by left|done].
        -- split.
           ++ intros [?|(? & e & h & rest & Hin & ?)]; [by left|right].
              split; [done|]. exists e, h, rest. split; [by right|done].
           ++ intros [?|(? & e & h & rest & Hin & He)]; [by left|].
              apply elem_of_cons in Hin as [->|Hin]; [congruence|].
              right. eauto 8.
      * intros nlb host Hlook. apply Hhosts in Hlook as [Hlook|Hlook].
        -- rewrite lookup_insert in Hlook. case_decide as Heq; [|by left].
           simplify_eq. right. split; [done|].
           exists entry, fields. split; [by left|done].
        -- destruct Hlook as (? & e & rest & Hin & ?). right. split; [done|].
           exists e, rest. split; [by right|done].
      * intros Heq. apply Hdom. by rewrite !dom_insert_L, Heq.
    + intros (Hdata & Hhosts & Hdom)%IH. split_and!; [| |done].
      * intros nlb. rewrite Hdata. split.
        -- intros [?|(? & e & h & rest & Hin & ?)]; [by left|right].
           split; [done|]. exists e, h, rest. split; [by right|done].
        -- intros [?|(Hn & e & h & rest & Hin & He)]; [by left|].
           apply elem_of_cons in Hin as [->|Hin].
           ++ exfalso. apply Hn. rewrite Hsplit in He. injection He as <- _ _.
              destruct (decide (name = "")); [done | by destruct Hname].
           ++ right. eauto 8.
      * intros nlb host Hlook. apply Hhosts in Hlook as [Hlook|Hlook]; [by left|].
        destruct Hlook as (? & e & rest & Hin & ?). right. split; [done|].
        exists e, rest. split; [by right|done].
Qed.

(** X6. [New] returns exactly when every entry of the comma-separated
    list has a colon; otherwise it panics on the index [1]. The list of
    entries is never empty, so the panic written for an empty list is never
    the one raised: for an empty [NLB_LIST] the single entry is the empty
    string, which has no colon. *)
Theorem New_returns_iff_every_entry_has_a_colon NLB_LIST :
  Split NLB_LIST "," ≠ []
  ∧ ((∃ s, New NLB_LIST = Ok s)
     ↔ Forall (λ entry, In ":"%char (String.list_ascii_of_string entry))
         (Split NLB_LIST ",")).
Proof.
  split; [apply Split_nonempty|].
  unfold New, loadNlbData.
  rewrite bool_decide_eq_false_2.
  2: { pose proof (Split_nonempty NLB_LIST ","). by destruct (Split NLB_LIST ","). }
  rewrite <- (loadNlbEntries_returns _ ∅ ∅).
  destruct (loadNlbEntries _ _ _) as [[nlbData nlbHosts]|]; split.
  - eauto.
  - eauto.
  - by intros [? ?].
  - by intros [? ?].
Qed.

(** X7. The ledger [New] returns has no allocation record and no occupied
    port. Its load balancers are the non-empty names that stand before the
    first colon of an entry; the host of each is what stands between the
    first and the second colon of an entry with that name; and the hosts
    are recorded for exactly the names of the pool. *)
Theorem New_builds_the_pool_from_the_entries NLB_LIST s :
  New NLB_LIST = Ok s →
  empty s
  ∧ (∀ nlb, is_Some (NlbAllocationMap s !! nlb) ↔
       nlb ≠ "" ∧ ∃ entry host rest,
         entry ∈ Split NLB_LIST "," ∧ Split entry ":" = nlb :: host :: rest)
  ∧ (∀ nlb host, NlbHosts s !! nlb = Some host →
       ∃ entry rest,
         entry ∈ Split NLB_LIST "," ∧ Split entry ":" = nlb :: host :: rest)
  ∧ dom (NlbHosts s) = dom (NlbAllocationMap s).
Proof.
  intros Hnew. split; [by destruct (New_empty _ _ Hnew)|].
  revert Hnew. unfold New, loadNlbData. case_bool_decide; [done|].
  destruct (loadNlbEntries _ _ _) as [[nlbData nlbHosts]|] eqn:Hload; [|done].
  intros [= <-]. simpl.
  apply loadNlbEntries_pool in Hload as (Hdata & Hhosts & Hdom).
  split_and!.
  - intros nlb. rewrite Hdata, lookup_empty. split.
    + by intros [[? ?]|?].
    + by right.
  - intros nlb host [Hlook|(_ & ?)]%Hhosts; [|done]. by rewrite lookup_empty in Hlook.
  - apply Hdom. by rewrite !dom_empty_L.
Qed.

End ledger_more.

(** * Further properties of the reconciler *)

Section reconciler_more.

Import store corev1 controllers ledger.

Context {K A : Type} `{!client.Client K} `{!aws.Client A}.

Implicit Types (r : ServiceReconciler K A) (s : store) (svc : Service).
Implicit Types (calls : list Call) (req : types.NamespacedName).
Implicit Types (order : list string) (nlb name listenerArn targetArn : string).
Implicit Types (port nodePort : Z).

Ltac run_M :=
  unfold mbind, M_bind, mret, M_ret, bind, ret,
    r_Get, r_Update, firstNodePort,
    Store_GetAllocationForSVC, Store_GetNLBHost,
    Store_AssignNLBAndPortToServiceInNamespace,
    Store_ReleaseNLBAndPortForService,
    Store_GetVacantNLBAndPortForService,
    AwsClient_CheckListener, AwsClient_CreateNLBListenerForPort,
    AwsClient_DeleteListenerAndTargetArn in *.

(** ** Helper facts *)

Lemma Assign_pool s nlb port name listenerArn targetArn :
  let s' := (AssignNLBAndPortToServiceInNamespace s nlb port name
               listenerArn targetArn).1 in
  dom (NlbAllocationMap s') = dom (NlbAllocationMap s) ∧ NlbHosts s' = NlbHosts s.
Proof.
  destruct (Assign_cases s nlb port name listenerArn targetArn)
    as [(owner & Hocc & Hne) | [Hnone | (ports & Hnlb & Hocc)]].
  - by rewrite (Assign_conflict _ _ _ _ _ _ _ Hocc Hne).
  - by rewrite (Assign_panic _ _ _ _ _ _ Hnone).
  - rewrite (Assign_ok _ _ _ _ _ _ _ Hnlb Hocc). simpl. split; [|done].
    apply dom_insert_lookup_L. eauto.
Qed.

Lemma Release_pool s name nlb port :
  let s' := ReleaseNLBAndPortForService s name nlb port in
  dom (NlbAllocationMap s') = dom (NlbAllocationMap s) ∧ NlbHosts s' = NlbHosts s.
Proof.
  simpl. unfold ReleaseNLBAndPortForService.
  destruct (ServiceAllocationMap s !! name) as [a|]; [|done]. simpl.
  destruct (occupant s (NLB a) (Port a)); [|done].
  destruct (NlbAllocationMap s !! NLB a) eqn:Hnlb; [|done].
  split; [|done]. apply dom_insert_lookup_L. eauto.
Qed.

(** The validation block, outcome by outcome. *)
Lemma validateAllocated_cases name svc r r1 calls1 out :
  validateAllocated name svc r = (r1, calls1, out) →
  Client r1 = Client r
  ∧ (calls1 = []
     ∨ ∃ l t nlb port nodePort err,
         calls1 = [CallCheckListener l t nlb port nodePort err])
  ∧ dom (NlbAllocationMap (Store r1)) = dom (NlbAllocationMap (Store r))
  ∧ NlbHosts (Store r1) = NlbHosts (Store r)
  ∧ match out with
    | Ok false => Store r1 = Store r
    | Ok true =>
        ∃ nlb port l t,
          AssignNLBAndPortToServiceInNamespace (Store r) nlb port name l t
          = (Store r1, Ok None)
    | Panic => True
    end.
Proof.
  unfold validateAllocated, checkAllocationValidity. run_M.
  destruct (Spec_Ports svc) as [|p ports]; [by intros [= <- <- <-]; auto 6|].
  destruct (strconv.Atoi _) as [svcAllocatedPort|];
    [|by intros [= <- <- <-]; auto 6].
  destruct (aws.CheckListener _ _ _ _ _ _) as [a1 [e|]]; simpl.
  { intros [= <- <- <-]. split_and!; try done. right. eauto 10. }
  pose proof (Assign_pool (Store r) (annotation svc nlbAnnotationNLBName)
                svcAllocatedPort name (annotation svc nlbAnnotationListener)
                (annotation svc nlbAnnotationTarget)) as [Hdom Hhosts].
  destruct (AssignNLBAndPortToServiceInNamespace _ _ _ _ _ _)
    as [s1 [[e|]|]] eqn:Hassign; simpl in *; intros [= <- <- <-]; simpl;
    (split_and!; [done | right; eauto 10 | done | done |]).
  - destruct (Assign_cases (Store r) (annotation svc nlbAnnotationNLBName)
                svcAllocatedPort name (annotation svc nlbAnnotationListener)
                (annotation svc nlbAnnotationTarget))
      as [(owner & Hocc & Hne) | [Hnone | (ports' & Hnlb & Hocc)]].
    + rewrite (Assign_conflict _ _ _ _ _ _ _ Hocc Hne) in Hassign. by simplify_eq.
    + by rewrite (Assign_panic _ _ _ _ _ _ Hnone) in Hassign.
    + by rewrite (Assign_ok _ _ _ _ _ _ _ Hnlb Hocc) in Hassign.
  - eauto.
  - done.
Qed.

(** The pass on a service that was read: it ends at the type check, or in
    the validation block, or it goes through the allocation part from the
    ledger and the cluster it started with. *)
Lemma Reconcile_found order req r svc r' calls res :
  client.Get (Client r) req = inl svc →
  Reconcile order req r = (r', calls, res) →
  (Spec_Type svc ≠ ServiceTypeNodePort
     ∧ r' = r ∧ calls = [] ∧ res = Ok (mkResult false, None))
  ∨ (∃ out, validateAllocated (types.String_ req) svc r = (r', calls, out)
       ∧ ((out = Ok true ∧ res = Ok (mkResult false, None))
          ∨ (out = Panic ∧ res = Panic)))
  ∨ (∃ r1 checks calls2,
       Client r1 = Client r ∧ Store r1 = Store r
       ∧ (checks = []
          ∨ ∃ l t nlb port nodePort err,
              checks = [CallCheckListener l t nlb port nodePort err])
       ∧ calls = checks ++ calls2
       ∧ allocate order req svc r1 = (r', calls2, res)).
Proof.
  intros Hget Hrun.
  destruct (decide (Spec_Type svc = ServiceTypeNodePort)) as [Htype|Htype].
  2: { left. rewrite (Reconcile_skips_other_types _ _ _ _ Hget Htype) in Hrun.
       by simplify_eq. }
  right. rewrite (Reconcile_NodePort _ _ _ _ Hget Htype) in Hrun.
  case_bool_decide.
  - destruct (validateAllocated _ _ _) as [[r1 calls1] out] eqn:Hval.
    pose proof (validateAllocated_cases _ _ _ _ _ _ Hval) as (Hk & Hchecks & _ & _ & Hout).
    destruct out as [[|]|].
    + left. simplify_eq. rewrite app_nil_r. eauto.
    + right. destruct (allocate order req svc r1) as [[r2 calls2] res2] eqn:Halloc.
      simplify_eq. exists r1, calls1, calls2. by split_and!.
    + left. simplify_eq. eauto.
  - right. exists r, [], calls. split_and!; auto.
Qed.

(** ** The service is gone *)

(** X8. The pass for a service that is gone. Without an allocation
    record it does nothing. With one it asks the provider to delete the
    recorded listener and target group, once: when that fails the ledger
    is left as it was and the error is returned for a retry, so the same
    handles are tried again by the next pass; when it succeeds the record
    is dropped and its pair freed, every other pair and record being left
    alone. *)
Theorem pass_for_a_service_that_is_gone order req r err :
  client.Get (Client r) req = inr err → IsNotFound err = true →
  match GetAllocationForSVC (Store r) (types.String_ req) with
  | None => Reconcile order req r = (r, [], Ok (mkResult false, None))
  | Some a =>
      ∃ a1 derr,
        aws.DeleteListenerAndTargetArn (AwsClient r) (ListenerArn a) (TargetArn a)
        = (a1, derr)
        ∧ match derr with
          | Some e =>
              Reconcile order req r
              = (mkServiceReconciler (Client r) (Store r) a1,
                 [CallDeleteListenerAndTargetArn (ListenerArn a) (TargetArn a) (Some e)],
                 Ok (mkResult true, Some e))
          | None =>
              ∃ s', Reconcile order req r
                    = (mkServiceReconciler (Client r) s' a1,
                       [CallDeleteListenerAndTargetArn (ListenerArn a) (TargetArn a) None],
                       Ok (mkResult false, None))
                ∧ GetAllocationForSVC s' (types.String_ req) = None
                ∧ occupant s' (NLB a) (Port a) = None
                ∧ (∀ nlb port, (NLB a, Port a) ≠ (nlb, port) →
                     occupant s' nlb port = occupant (Store r) nlb port)
                ∧ (∀ other, other ≠ types.String_ req →
                     GetAllocationForSVC s' other = GetAllocationForSVC (Store r) other)
          end
  end.
Proof.
  intros Hget Hnf. unfold Reconcile. run_M. rewrite Hget, Hnf.
  destruct (GetAllocationForSVC (Store r) (types.String_ req)) as [a|] eqn:Ha;
    [|by destruct r].
  destruct (aws.DeleteListenerAndTargetArn _ _ _) as [a1 [e|]]; simpl;
    exists a1; eexists; (split; [done|]); [done|].
  eexists. split; [done|].
  unfold GetAllocationForSVC in *.
  split_and!.
  - unfold ReleaseNLBAndPortForService. rewrite Ha. simpl. apply lookup_delete_eq.
  - unfold ReleaseNLBAndPortForService. rewrite Ha.
    destruct (occupant (Store r) (NLB a) (Port a)) as [owner|] eqn:Hocc; [|done].
    apply occupant_Some in Hocc as (ports & Hnlb & Hport). rewrite Hnlb.
    rewrite occupant_insert_same. apply lookup_delete_eq.
  - intros nlb port Hne. apply Release_other_pair.
    intros a' Ha' [Hn Hp]. rewrite Ha in Ha'. injection Ha' as <-.
    apply Hne. by rewrite Hn, Hp.
  - intros other Hne. unfold ReleaseNLBAndPortForService. rewrite Ha. simpl.
    by apply lookup_delete_ne.
Qed.

(** ** The service is there *)

(** X9. For a service that is there, the only deletion a pass asks of
    the provider is that of the listener and target group it created
    itself in that pass, after the write of the record failed. A binding
    record that fails validation leads to no deletion of its own. *)
Theorem pass_deletes_only_what_it_created
    order req r svc r' calls res listenerArn targetArn derr :
  client.Get (Client r) req = inl svc →
  Reconcile order req r = (r', calls, res) →
  CallDeleteListenerAndTargetArn listenerArn targetArn derr ∈ calls →
  ∃ nlb port nodePort svc' e,
    CallCreateNLBListenerForPort nlb port nodePort (types.String_ req)
      (listenerArn, targetArn, None) ∈ calls
    ∧ CallUpdate svc' (Some e) ∈ calls.
Proof.
  intros Hget Hrun Hdel.
  destruct (Reconcile_found _ _ _ _ _ _ _ Hget Hrun)
    as [(_ & _ & -> & _) | [(out & Hval & _) | (r1 & checks & calls2 & _ & _ & Hchecks & -> & Halloc)]].
  { by apply elem_of_nil in Hdel. }
  { apply validateAllocated_cases in Hval
      as (_ & [-> | (? & ? & ? & ? & ? & ? & ->)] & _).
    - by apply elem_of_nil in Hdel.
    - by apply list_elem_of_singleton in Hdel. }
  assert (Hdel2 : CallDeleteListenerAndTargetArn listenerArn targetArn derr ∈ calls2).
  { apply elem_of_app in Hdel as [Hdel|Hdel]; [|done].
    destruct Hchecks as [-> | (? & ? & ? & ? & ? & ? & ->)].
    - by apply elem_of_nil in Hdel.
    - by apply list_elem_of_singleton in Hdel. }
  destruct (allocate_run order req svc r1)
    as (s1 & nlb0 & port0 & err & _ & Hpath).
  destruct err as [e0|].
  { rewrite Halloc in Hpath. simplify_eq. by apply elem_of_nil in Hdel2. }
  destruct (Spec_Ports svc) as [|p ps].
  { rewrite Halloc in Hpath. simplify_eq. by apply elem_of_nil in Hdel2. }
  destruct Hpath as (a1 & l0 & t0 & cerr & _ & Hpath).
  destruct cerr as [e0|].
  { rewrite Halloc in Hpath. simplify_eq.
    by apply list_elem_of_singleton in Hdel2. }
  destruct Hpath as (s2 & k1 & uerr & _ & _ & Hpath).
  destruct uerr as [e0|].
  - destruct Hpath as (a2 & derr0 & _ & Hpath). rewrite Halloc in Hpath.
    simplify_eq. rewrite !elem_of_cons, elem_of_nil in Hdel2.
    destruct Hdel2 as [? | [? | [? | []]]]; try done. simplify_eq.
    eexists _, _, _, _, _. split.
    + apply elem_of_app. right. apply list_elem_of_here.
    + apply elem_of_app. right. apply list_elem_of_further, list_elem_of_here.
  - rewrite Halloc in Hpath. simplify_eq.
    rewrite !elem_of_cons, elem_of_nil in Hdel2.
    by destruct Hdel2 as [? | [? | []]].
Qed.

(** A scan over a pool whose every load balancer is full returns the
    error and the ledger as it was. *)
Lemma GetVacant_exhausted order s name :
  (∀ nlb, is_Some (NlbAllocationMap s !! nlb) → full s nlb) →
  GetVacantNLBAndPortForService order s name
  = (s, ("", 0, Some (ErrorString "no vacancy found"))).
Proof.
  intros Hfull. pose proof (GetVacant_spec order s name) as Hspec.
  destruct (GetVacantNLBAndPortForService order s name) as [s' [[nlb port] [e|]]].
  - by destruct Hspec as (-> & -> & -> & -> & _).
  - exfalso. destruct Hspec as (_ & _ & ports & _ & Hnlb & Hscan & _).
    apply firstVacantPort_portRange_Some in Hscan as (Hport & Hfree & _).
    destruct (Hfull nlb (mk_is_Some _ _ Hnlb) port Hport) as [owner Hocc].
    unfold occupant in Hocc. rewrite Hnlb in Hocc. congruence.
Qed.

(** X10. When every port 9000..9049 of every load balancer of the pool
    is occupied, the pass for a service of type NodePort without a binding
    record returns the error "no vacancy found" for a retry, having called
    nothing and changed nothing. *)
Theorem pass_on_an_exhausted_pool order req r svc :
  client.Get (Client r) req = inl svc →
  Spec_Type svc = ServiceTypeNodePort →
  annotation svc nlbAnnotationNLBName = "" →
  (∀ nlb, is_Some (NlbAllocationMap (Store r) !! nlb) → full (Store r) nlb) →
  Reconcile order req r
  = (r, [], Ok (mkResult true, Some (ErrorString "no vacancy found"))).
Proof.
  intros Hget Htype Hname Hfull.
  rewrite (Reconcile_NodePort _ _ _ _ Hget Htype).
  rewrite Hname, bool_decide_eq_false_2 by (by intros ?).
  destruct (allocate_run order req svc r) as (s1 & nlb & port & err & Hscan & Hpath).
  simpl in Hscan. rewrite (GetVacant_exhausted _ _ _ Hfull) in Hscan.
  simplify_eq. rewrite Hpath. by destruct r.
Qed.

Lemma recordBinding_host nlb host port listenerArn targetArn svc :
  annotation (recordBinding nlb host port listenerArn targetArn svc)
    nlbAnnotationNLBHost = host.
Proof.
  unfold recordBinding, annotation, setAnnotation; simpl.
  repeat (rewrite lookup_insert_ne by (by intros [=])).
  by rewrite lookup_insert_eq.
Qed.

(** What a pass that wrote a binding record did to the ledger. *)
Lemma allocating_pass_binding order req r r' calls res svc' :
  Reconcile order req r = (r', calls, res) →
  CallUpdate svc' None ∈ calls →
  ∃ a,
    GetAllocationForSVC (Store r') (types.String_ req) = Some a
    ∧ ServiceNamespacedName a = types.String_ req
    ∧ annotation svc' nlbAnnotationNLBName = NLB a
    ∧ annotation svc' nlbAnnotationNLBHost = GetNLBHost (Store r') (NLB a)
    ∧ annotation svc' nlbAnnotationPort = strconv.Itoa (Port a)
    ∧ annotation svc' nlbAnnotationListener = ListenerArn a
    ∧ annotation svc' nlbAnnotationTarget = TargetArn a
    ∧ occupant (Store r') (NLB a) (Port a) = Some (types.String_ req)
    ∧ occupant (Store r) (NLB a) (Port a) = None
    ∧ is_Some (NlbAllocationMap (Store r) !! NLB a)
    ∧ 9000 ≤ Port a < 9050
    ∧ res = Ok (mkResult false, None).
Proof.
  intros Hrun Hupdate.
  destruct (Reconcile_allocating _ _ _ _ _ _ _ Hrun Hupdate)
    as (svc & r0 & checks & calls2 & _ & _ & _ & Hstore & Hchecks & -> & Halloc);
    [by right|].
  apply elem_of_app in Hupdate as [Hin|Hupdate].
  { rewrite Forall_forall in Hchecks. by destruct (Hchecks _ Hin). }
  destruct (allocate_run order req svc r0)
    as (s1 & nlb & port & err & Hscan & Hpath).
  destruct err as [e0|].
  { rewrite Halloc in Hpath. simplify_eq. by apply elem_of_nil in Hupdate. }
  destruct (Spec_Ports svc) as [|p ps].
  { rewrite Halloc in Hpath. simplify_eq. by apply elem_of_nil in Hupdate. }
  destruct Hpath as (a1 & l & t & cerr & _ & Hpath).
  destruct cerr as [e0|].
  { rewrite Halloc in Hpath. simplify_eq.
    by apply list_elem_of_singleton in Hupdate. }
  destruct Hpath as (s2 & k1 & uerr & Hassign & _ & Hpath).
  destruct uerr as [e0|].
  { destruct Hpath as (a2 & derr & _ & Hpath). rewrite Halloc in Hpath.
    simplify_eq. rewrite !elem_of_cons, elem_of_nil in Hupdate.
    by destruct Hupdate as [? | [? | [? | []]]]. }
  rewrite Halloc in Hpath. simplify_eq.
  rewrite !elem_of_cons, elem_of_nil in Hupdate.
  destruct Hupdate as [? | [Hupdate | []]]; [done|]. simplify_eq. simpl.
  pose proof (GetVacant_spec order (Store r0) (types.String_ req)) as Hspec.
  simpl in Hscan. rewrite Hscan in Hspec.
  destruct Hspec as (_ & _ & ports & _ & Hnlb & Hfirst & -> & _).
  apply firstVacantPort_portRange_Some in Hfirst as (Hport & Hfree & _).
  rewrite (Assign_ok _ _ _ _ _ _ (<[port := types.String_ req]> ports)) in Hassign.
  2: { simpl. apply lookup_insert_eq. }
  2: { right. rewrite occupant_insert_same. apply lookup_insert_eq. }
  injection Hassign as <-.
  pose proof (recordBinding_annotations nlb
                (GetNLBHost
                   (mkStore
                      (<[types.String_ req := mkAllocation l t nlb port (types.String_ req)]>
                         (ServiceAllocationMap (Store r0)))
                      (<[nlb := <[port := types.String_ req]>
                                  (<[port := types.String_ req]> ports)]>
                         (<[nlb := <[port := types.String_ req]> ports]>
                            (NlbAllocationMap (Store r0))))
                      (NlbHosts (Store r0))) nlb) port l t svc)
    as (Ha_name & Ha_port & Ha_listener & Ha_target & _ & _).
  exists (mkAllocation l t nlb port (types.String_ req)). simpl.
  split_and!; try done.
  - unfold GetAllocationForSVC. simpl. apply lookup_insert_eq.
  - apply recordBinding_host.
  - rewrite occupant_insert_same. apply lookup_insert_eq.
  - rewrite <- Hstore. unfold occupant. by rewrite Hnlb.
  - rewrite <- Hstore. eauto.
  - lia.
  - lia.
Qed.

(** X11. A pass that writes a binding record leaves the ledger with the
    same binding: the service's allocation record names the load balancer,
    the port and the two handles that the annotations carry, the host
    annotation is the host the ledger has for that load balancer, and the
    pair, a pair of the pool with a port in 9000..9049 that was free when
    the pass began, is occupied by the service. *)
Theorem written_record_agrees_with_the_ledger order req r r' calls res svc' :
  Reconcile order req r = (r', calls, res) →
  CallUpdate svc' None ∈ calls →
  ∃ a,
    GetAllocationForSVC (Store r') (types.String_ req) = Some a
    ∧ ServiceNamespacedName a = types.String_ req
    ∧ annotation svc' nlbAnnotationNLBName = NLB a
    ∧ annotation svc' nlbAnnotationNLBHost = GetNLBHost (Store r') (NLB a)
    ∧ annotation svc' nlbAnnotationPort = strconv.Itoa (Port a)
    ∧ annotation svc' nlbAnnotationListener = ListenerArn a
    ∧ annotation svc' nlbAnnotationTarget = TargetArn a
    ∧ occupant (Store r') (NLB a) (Port a) = Some (types.String_ req)
    ∧ occupant (Store r) (NLB a) (Port a) = None
    ∧ is_Some (NlbAllocationMap (Store r) !! NLB a)
    ∧ 9000 ≤ Port a < 9050
    ∧ res = Ok (mkResult false, None).
Proof. apply allocating_pass_binding. Qed.

(** X12. A pass whose write of the record fails, for a service that had
    no allocation record when the pass began, leaves the ledger exactly as
    it found it. *)
Theorem failed_write_restores_the_ledger order req r r' calls res svc' e :
  GetAllocationForSVC (Store r) (types.String_ req) = None →
  Reconcile order req r = (r', calls, res) →
  CallUpdate svc' (Some e) ∈ calls →
  Store r' = Store r.
Proof.
  intros Hnone Hrun Hupdate.
  destruct (Reconcile_allocating _ _ _ _ _ _ _ Hrun Hupdate)
    as (svc & r0 & checks & calls2 & _ & _ & _ & Hstore & Hchecks & -> & Halloc);
    [by right|].
  apply elem_of_app in Hupdate as [Hin|Hupdate].
  { rewrite Forall_forall in Hchecks. by destruct (Hchecks _ Hin). }
  destruct (allocate_run order req svc r0)
    as (s1 & nlb & port & err & Hscan & Hpath).
  destruct err as [e0|].
  { rewrite Halloc in Hpath. simplify_eq. by apply elem_of_nil in Hupdate. }
  destruct (Spec_Ports svc) as [|p ps].
  { rewrite Halloc in Hpath. simplify_eq. by apply elem_of_nil in Hupdate. }
  destruct Hpath as (a1 & l & t & cerr & _ & Hpath).
  destruct cerr as [e0|].
  { rewrite Halloc in Hpath. simplify_eq.
    by apply list_elem_of_singleton in Hupdate. }
  destruct Hpath as (s2 & k1 & uerr & Hassign & _ & Hpath).
  destruct uerr as [e0|].
  - destruct Hpath as (a2 & derr & _ & Hpath). rewrite Halloc in Hpath.
    simplify_eq. simpl. simpl in Hscan. rewrite <- Hstore in Hnone.
    destruct (scan_assign_release order (Store r0) (types.String_ req) s1 nlb port
                l t "" 0 Hnone Hscan) as (s2' & Hassign' & Hrelease).
    rewrite Hassign in Hassign'. simplify_eq. by rewrite Hrelease.
  - rewrite Halloc in Hpath. simplify_eq.
    rewrite !elem_of_cons, elem_of_nil in Hupdate.
    by destruct Hupdate as [? | [? | []]].
Qed.

(** X13. A pass whose creation fails, for a service without an
    allocation record, leaves the pair it had reserved, free until then,
    occupied by the service, and the service without a record: no later
    release of the service frees the pair. *)
Theorem failed_creation_leaks_the_reserved_pair
    order req r r' calls res nlb port nodePort svcName listenerArn targetArn e :
  GetAllocationForSVC (Store r) (types.String_ req) = None →
  Reconcile order req r = (r', calls, res) →
  CallCreateNLBListenerForPort nlb port nodePort svcName
    (listenerArn, targetArn, Some e) ∈ calls →
  occupant (Store r) nlb port = None
  ∧ occupant (Store r') nlb port = Some (types.String_ req)
  ∧ GetAllocationForSVC (Store r') (types.String_ req) = None
  ∧ (∀ nlb' port',
       ReleaseNLBAndPortForService (Store r') (types.String_ req) nlb' port'
       = Store r')
  ∧ res = Ok (mkResult true, Some e).
Proof.
  intros Hnone Hrun Hcreate.
  destruct (Reconcile_allocating _ _ _ _ _ _ _ Hrun Hcreate)
    as (svc & r0 & checks & calls2 & _ & _ & _ & Hstore & Hchecks & -> & Halloc);
    [by left|].
  apply elem_of_app in Hcreate as [Hin|Hcreate].
  { rewrite Forall_forall in Hchecks. by destruct (Hchecks _ Hin). }
  destruct (allocate_run order req svc r0)
    as (s1 & nlb0 & port0 & err & Hscan & Hpath).
  destruct err as [e0|].
  { rewrite Halloc in Hpath. simplify_eq. by apply elem_of_nil in Hcreate. }
  destruct (Spec_Ports svc) as [|p ps].
  { rewrite Halloc in Hpath. simplify_eq. by apply elem_of_nil in Hcreate. }
  destruct Hpath as (a1 & l0 & t0 & cerr & _ & Hpath).
  destruct cerr as [e0|].
  - rewrite Halloc in Hpath. simplify_eq.
    apply list_elem_of_singleton in Hcreate. simplify_eq; simpl.
    pose proof (GetVacant_spec order (Store r0) (types.String_ req)) as Hspec.
    simpl in Hscan. rewrite Hscan in Hspec.
    destruct Hspec as (_ & _ & ports & _ & Hnlb & Hfirst & -> & _).
    apply firstVacantPort_portRange_Some in Hfirst as (_ & Hfree & _).
    unfold GetAllocationForSVC in *. rewrite <- Hstore in Hnone.
    rewrite Release_absent by done. simpl.
    split_and!; try done.
    + rewrite <- Hstore. unfold occupant. by rewrite Hnlb.
    + rewrite occupant_insert_same. apply lookup_insert_eq.
    + intros nlb' port'. by apply Release_absent.
  - destruct Hpath as (s2 & k1 & uerr & _ & _ & Hpath).
    destruct uerr as [e0|].
    + destruct Hpath as (a2 & derr & _ & Hpath). rewrite Halloc in Hpath.
      simplify_eq. rewrite !elem_of_cons, elem_of_nil in Hcreate.
      by destruct Hcreate as [? | [? | [? | []]]].
    + rewrite Halloc in Hpath. simplify_eq.
      rewrite !elem_of_cons, elem_of_nil in Hcreate.
      by destruct Hcreate as [? | [? | []]].
Qed.

(** ** Binding records read back from the cluster *)

(** X14. A binding record that the provider validates and whose pair, on
    a load balancer of the pool, is free or already the service's in the
    ledger, is adopted: the pass makes the one call [CheckListener],
    returns the empty result, and leaves the ledger with the recorded
    binding as the service's allocation on that pair, every other pair
    being left alone. This is how the ledger of a restarted controller is
    filled again; the recorded port need not be in 9000..9049. *)
Theorem valid_record_is_adopted_by_the_ledger order req r svc nlb port p ps a1 :
  client.Get (Client r) req = inl svc →
  Spec_Type svc = ServiceTypeNodePort →
  annotation svc nlbAnnotationNLBName = nlb → nlb ≠ "" →
  strconv.Atoi (annotation svc nlbAnnotationPort) = Some port →
  Spec_Ports svc = p :: ps →
  aws.CheckListener (AwsClient r) (annotation svc nlbAnnotationListener)
    (annotation svc nlbAnnotationTarget) nlb port (NodePort p) = (a1, None) →
  is_Some (NlbAllocationMap (Store r) !! nlb) →
  occupant (Store r) nlb port = None
  ∨ occupant (Store r) nlb port = Some (types.String_ req) →
  ∃ s',
    Reconcile order req r
    = (mkServiceReconciler (Client r) s' a1,
       [CallCheckListener (annotation svc nlbAnnotationListener)
          (annotation svc nlbAnnotationTarget) nlb port (NodePort p) None],
       Ok (mkResult false, None))
    ∧ GetAllocationForSVC s' (types.String_ req)
      = Some (mkAllocation (annotation svc nlbAnnotationListener)
                (annotation svc nlbAnnotationTarget) nlb port (types.String_ req))
    ∧ occupant s' nlb port = Some (types.String_ req)
    ∧ ∀ nlb' port', (nlb', port') ≠ (nlb, port) →
        occupant s' nlb' port' = occupant (Store r) nlb' port'.
Proof.
  intros Hget Htype Hname Hne Hatoi Hports Hcheck [ports Hnlb] Hocc.
  rewrite (Reconcile_NodePort _ _ _ _ Hget Htype).
  rewrite Hname, bool_decide_eq_true_2 by done.
  unfold validateAllocated, checkAllocationValidity. run_M.
  rewrite Hports, Hatoi, Hname, Hcheck. simpl.
  rewrite (Assign_ok _ _ _ _ _ _ _ Hnlb Hocc). simpl.
  eexists. split; [done|]. split_and!.
  - unfold GetAllocationForSVC. simpl. apply lookup_insert_eq.
  - rewrite occupant_insert_same. apply lookup_insert_eq.
  - intros nlb' port' Hother. rewrite occupant_insert.
    case_decide as Hn; [|done]. subst nlb'.
    unfold occupant. rewrite Hnlb. apply lookup_insert_ne. congruence.
Qed.

(** X15. A binding record that the provider validates but whose pair is
    occupied by another service in the ledger is not adopted: after the one
    call [CheckListener] the pass goes on to allocate a pair for the
    service, from the ledger as it was. *)
Theorem record_of_a_pair_held_by_another_is_reallocated
    order req r svc nlb port p ps a1 owner :
  client.Get (Client r) req = inl svc →
  Spec_Type svc = ServiceTypeNodePort →
  annotation svc nlbAnnotationNLBName = nlb → nlb ≠ "" →
  strconv.Atoi (annotation svc nlbAnnotationPort) = Some port →
  Spec_Ports svc = p :: ps →
  aws.CheckListener (AwsClient r) (annotation svc nlbAnnotationListener)
    (annotation svc nlbAnnotationTarget) nlb port (NodePort p) = (a1, None) →
  occupant (Store r) nlb port = Some owner → owner ≠ types.String_ req →
  Reconcile order req r
  = match allocate order req svc (mkServiceReconciler (Client r) (Store r) a1) with
    | (r2, calls2, res) =>
        (r2,
         CallCheckListener (annotation svc nlbAnnotationListener)
           (annotation svc nlbAnnotationTarget) nlb port (NodePort p) None :: calls2,
         res)
    end.
Proof.
  intros Hget Htype Hname Hne Hatoi Hports Hcheck Hocc Hother.
  rewrite (Reconcile_NodePort _ _ _ _ Hget Htype).
  rewrite Hname, bool_decide_eq_true_2 by done.
  unfold validateAllocated, checkAllocationValidity. run_M.
  rewrite Hports, Hatoi, Hname, Hcheck. simpl.
  rewrite (Assign_conflict _ _ _ _ _ _ _ Hocc Hother). simpl.
  by destruct (allocate order req svc _) as [[r2 calls2] res].
Qed.

(** ** Soundness of the ledger across passes *)

Local Notation "s ⟿ s'" :=
  ((consistent s → consistent s')
   ∧ dom (NlbAllocationMap s') = dom (NlbAllocationMap s)
   ∧ NlbHosts s' = NlbHosts s) (at level 70).

Lemma evolves_refl s : s ⟿ s.
Proof. done. Qed.

Lemma evolves_trans s1 s2 s3 : s1 ⟿ s2 → s2 ⟿ s3 → s1 ⟿ s3.
Proof.
  intros (Hc1 & Hd1 & Hh1) (Hc2 & Hd2 & Hh2).
  split_and!; [by auto | by rewrite Hd2 | by rewrite Hh2].
Qed.

Lemma Assign_evolves s nlb port name listenerArn targetArn s' err :
  AssignNLBAndPortToServiceInNamespace s nlb port name listenerArn targetArn
  = (s', Ok err) →
  s ⟿ s'.
Proof.
  intros Hassign.
  pose proof (Assign_pool s nlb port name listenerArn targetArn) as [Hd Hh].
  rewrite Hassign in Hd, Hh. split_and!; [|done..].
  intros ?. by eapply Assign_consistent.
Qed.

Lemma GetVacant_evolves order s name s' ret :
  GetVacantNLBAndPortForService order s name = (s', ret) → s ⟿ s'.
Proof.
  intros Hscan.
  pose proof (GetVacant_pool order s name) as [Hd Hh].
  pose proof (GetVacant_consistent order s name) as Hc.
  rewrite Hscan in Hd, Hh, Hc. by split_and!.
Qed.

Lemma Release_evolves s name nlb port :
  s ⟿ ReleaseNLBAndPortForService s name nlb port.
Proof.
  pose proof (Release_pool s name nlb port) as [Hd Hh].
  split_and!; [|done..]. apply Release_consistent.
Qed.

(** X16. A pass that returns keeps the ledger sound: if every allocation
    record was backed by the pair index before, it is so after, hence no
    pair is held by two services; and the names of the pool and their
    hosts are the same. *)
Theorem pass_keeps_the_ledger_sound order req r r' calls x :
  consistent (Store r) →
  Reconcile order req r = (r', calls, Ok x) →
  consistent (Store r')
  ∧ dom (NlbAllocationMap (Store r')) = dom (NlbAllocationMap (Store r))
  ∧ NlbHosts (Store r') = NlbHosts (Store r)
  ∧ ∀ name1 name2 nlb port,
      holds (Store r') name1 nlb port = true →
      holds (Store r') name2 nlb port = true →
      name1 = name2.
Proof.
  intros Hcons Hrun.
  assert (Hstep : Store r ⟿ Store r').
  { destruct (client.Get (Client r) req) as [svc|err] eqn:Hget.
    - destruct (Reconcile_found _ _ _ _ _ _ _ Hget Hrun)
        as [(_ & -> & _) | [(out & Hval & Hout)
            | (r1 & checks & calls2 & _ & Hstore & _ & _ & Halloc)]].
      + apply evolves_refl.
      + destruct Hout as [[-> _] | [_ ?]]; [|done].
        apply validateAllocated_cases in Hval
          as (_ & _ & _ & _ & nlb & port & l & t & Hassign).
        by eapply Assign_evolves.
      + rewrite <- Hstore.
        destruct (allocate_run order req svc r1)
          as (s1 & nlb & port & err & Hscan & Hpath).
        apply GetVacant_evolves in Hscan.
        destruct err as [e0|].
        { rewrite Halloc in Hpath. by simplify_eq. }
        destruct (Spec_Ports svc) as [|p ps].
        { rewrite Halloc in Hpath. by simplify_eq. }
        destruct Hpath as (a1 & l & t & cerr & _ & Hpath).
        destruct cerr as [e0|].
        { rewrite Halloc in Hpath. simplify_eq. simpl.
          eapply evolves_trans; [done | apply Release_evolves]. }
        destruct Hpath as (s2 & k1 & uerr & Hassign & _ & Hpath).
        apply Assign_evolves in Hassign.
        destruct uerr as [e0|].
        * destruct Hpath as (a2 & derr & _ & Hpath). rewrite Halloc in Hpath.
          simplify_eq. simpl.
          eapply evolves_trans; [done|].
          eapply evolves_trans; [done | apply Release_evolves].
        * rewrite Halloc in Hpath. simplify_eq. simpl.
          by eapply evolves_trans.
    - revert Hrun. unfold Reconcile. run_M. rewrite Hget.
      destruct (IsNotFound err); [|intros [= <- _ _]; apply evolves_refl].
      destruct (GetAllocationForSVC _ _) as [a|];
        [|intros [= <- _ _]; apply evolves_refl].
      destruct (aws.DeleteListenerAndTargetArn _ _ _) as [a1 [e|]]; simpl;
        intros [= <- _ _]; simpl; [apply evolves_refl | apply Release_evolves]. }
  destruct Hstep as (Hc & Hd & Hh). split_and!; [by auto | done | done |].
  intros name1 name2 nlb port H1 H2.
  apply (holds_occupant _ _ _ _ (Hc Hcons)) in H1, H2. congruence.
Qed.

(** X21. Two passes that each write a binding record, the second
    starting from the ledger the first one left, write different (load
    balancer, port) pairs, whichever services they are for. *)
Theorem two_allocating_passes_bind_different_pairs
    order1 req1 r r1 calls1 res1 svc1' order2 req2 r1' r2 calls2 res2 svc2' :
  Reconcile order1 req1 r = (r1, calls1, res1) →
  CallUpdate svc1' None ∈ calls1 →
  Store r1' = Store r1 →
  Reconcile order2 req2 r1' = (r2, calls2, res2) →
  CallUpdate svc2' None ∈ calls2 →
  (annotation svc1' nlbAnnotationNLBName, annotation svc1' nlbAnnotationPort)
  ≠ (annotation svc2' nlbAnnotationNLBName, annotation svc2' nlbAnnotationPort).
Proof.
  intros Hrun1 Hupdate1 Hstore Hrun2 Hupdate2.
  destruct (allocating_pass_binding _ _ _ _ _ _ _ Hrun1 Hupdate1)
    as (a1 & _ & _ & Hname1 & _ & Hport1 & _ & _ & Hocc1 & _ & _ & Hrange1 & _).
  destruct (allocating_pass_binding _ _ _ _ _ _ _ Hrun2 Hupdate2)
    as (a2 & _ & _ & Hname2 & _ & Hport2 & _ & _ & _ & Hfree2 & _ & Hrange2 & _).
  rewrite Hname1, Hname2, Hport1, Hport2. intros [= Hnlb Hitoa].
  assert (Hport : Port a1 = Port a2).
  { apply (f_equal strconv.Atoi) in Hitoa.
    rewrite !Atoi_Itoa_port in Hitoa by done. by injection Hitoa. }
  rewrite Hstore, <- Hnlb, <- Hport in Hfree2. congruence.
Qed.

End reconciler_more.

(** * Properties of the provider client *)

Section client_facts.

Context {E : Type} `{!aws.API E}.

Implicit Types (c : E) (cfg : aws.config) (e : error).

(** X17. [CheckListener] returns nil only when the provider, asked for
    the recorded listener, answers with a first listener whose port is the
    recorded external port and whose first default action forwards to the
    recorded target group first, and, asked for that target group, answers
    with a first group whose port is the node port. Each disagreement has
    its own error, a disagreement on the listener being reported without
    the target group being asked for; and the load balancer name passed to
    the call makes no difference. *)
Theorem validation_accepts_only_a_matching_listener
    c svcListenerArn svcTargetGroupArn nlb svcNLBPort svcNodePort :
  let result :=
    aws.client.CheckListener c svcListenerArn svcTargetGroupArn nlb
      svcNLBPort svcNodePort in
  (∀ c', result = (c', Ok None) →
     ∃ c1 listener listeners action actions tuple tuples group groups,
       aws.DescribeListeners c [svcListenerArn] 50
       = (c1, (listener :: listeners, None))
       ∧ aws.listener_Port listener = Some svcNLBPort
       ∧ aws.DefaultActions listener = action :: actions
       ∧ aws.ForwardConfig action = Some (tuple :: tuples)
       ∧ aws.tuple_TargetGroupArn tuple = Some svcTargetGroupArn
       ∧ aws.DescribeTargetGroups c1
           (aws.mkDescribeTargetGroupsInput [] [svcTargetGroupArn] None)
         = (c', (group :: groups, None))
       ∧ aws.targetGroup_Port group = Some svcNodePort)
  ∧ (∀ c1 listener listeners livePort,
       aws.DescribeListeners c [svcListenerArn] 50
       = (c1, (listener :: listeners, None)) →
       aws.listener_Port listener = Some livePort → livePort ≠ svcNLBPort →
       result
       = (c1, Ok (Some (ErrorString "aws: listener port and svcNLBPort dont match"))))
  ∧ (∀ c1 listener listeners action actions tuple tuples liveArn,
       aws.DescribeListeners c [svcListenerArn] 50
       = (c1, (listener :: listeners, None)) →
       aws.listener_Port listener = Some svcNLBPort →
       aws.DefaultActions listener = action :: actions →
       aws.ForwardConfig action = Some (tuple :: tuples) →
       aws.tuple_TargetGroupArn tuple = Some liveArn →
       liveArn ≠ svcTargetGroupArn →
       result = (c1, Ok (Some (ErrorString "aws: target group arn dont match"))))
  ∧ (∀ c1 listener listeners action actions tuple tuples c2 group groups livePort,
       aws.DescribeListeners c [svcListenerArn] 50
       = (c1, (listener :: listeners, None)) →
       aws.listener_Port listener = Some svcNLBPort →
       aws.DefaultActions listener = action :: actions →
       aws.ForwardConfig action = Some (tuple :: tuples) →
       aws.tuple_TargetGroupArn tuple = Some svcTargetGroupArn →
       aws.DescribeTargetGroups c1
         (aws.mkDescribeTargetGroupsInput [] [svcTargetGroupArn] None)
       = (c2, (group :: groups, None)) →
       aws.targetGroup_Port group = Some livePort → livePort ≠ svcNodePort →
       result
       = (c2, Ok (Some (ErrorString "aws: target port and node port dont match"))))
  ∧ (∀ nlb', aws.client.CheckListener c svcListenerArn svcTargetGroupArn nlb'
               svcNLBPort svcNodePort = result).
Proof.
  intros result. unfold result, aws.client.CheckListener. split_and!.
  - intros c'.
    destruct (aws.DescribeListeners c [svcListenerArn] 50)
      as [c1 [[|listener listeners] [e|]]]; try done.
    destruct (aws.listener_Port listener) as [livePort|] eqn:Hlport; [|done].
    case_bool_decide as Hport; [done|]. subst livePort.
    destruct (aws.DefaultActions listener) as [|action actions] eqn:Hactions;
      [done|].
    destruct (aws.ForwardConfig action) as [[|tuple tuples]|] eqn:Hforward;
      try done.
    destruct (aws.tuple_TargetGroupArn tuple) as [liveArn|] eqn:Htuple; [|done].
    case_bool_decide as Harn; [done|]. subst liveArn.
    destruct (aws.DescribeTargetGroups c1 _)
      as [c2 [[|group groups] [e|]]] eqn:Hgroups; try done.
    destruct (aws.targetGroup_Port group) as [groupPort|] eqn:Hgport; [|done].
    case_bool_decide as Hnode; [done|]. subst groupPort.
    intros [= <-].
    exists c1, listener, listeners, action, actions, tuple, tuples, group, groups.
    by split_and!.
  - intros c1 listener listeners livePort -> -> Hne.
    by rewrite bool_decide_eq_true_2.
  - intros c1 listener listeners action actions tuple tuples liveArn
      -> -> -> -> -> Hne.
    rewrite bool_decide_eq_false_2 by (by intros ?).
    by rewrite bool_decide_eq_true_2.
  - intros c1 listener listeners action actions tuple tuples c2 group groups
      livePort -> -> -> -> -> -> -> Hne.
    rewrite !bool_decide_eq_false_2 by (by intros ?).
    by rewrite bool_decide_eq_true_2.
  - done.
Qed.

(** X18. [GetTargetGroupArn] asks the provider for the target group named
    by the decimal node port before anything else. An error of that call
    that does not mention TargetGroupNotFound is returned. Otherwise: one
    group in the answer is returned as it is, without any further call;
    more than one is the error "aws: TargetGroup not found"; none leads to
    the creation of the group. *)
Theorem target_group_is_looked_up_before_it_is_created
    cfg c vpcId nodePort c1 groups err :
  aws.DescribeTargetGroups c
    (aws.mkDescribeTargetGroupsInput [strconv.Itoa nodePort] [] (Some 50))
  = (c1, (groups, err)) →
  let result := aws.client.GetTargetGroupArn cfg c vpcId nodePort in
  (∀ e, err = Some e → aws.Contains (aws.Error_ e) "TargetGroupNotFound" = false →
     result = (c1, Ok ("", Some e)))
  ∧ (err = None
     ∨ (∃ e, err = Some e ∧ aws.Contains (aws.Error_ e) "TargetGroupNotFound" = true) →
     (∀ group arn, groups = [group] → aws.TargetGroupArn group = Some arn →
        result = (c1, Ok (arn, None)))
     ∧ ((2 ≤ length groups)%nat →
        result = (c1, Ok ("", Some (ErrorString "aws: TargetGroup not found"))))
     ∧ (groups = [] →
        result
        = aws.client.createTargetGroup cfg c1 vpcId (strconv.Itoa nodePort) nodePort)).
Proof.
  intros Hdescribe result. unfold result, aws.client.GetTargetGroupArn.
  rewrite Hdescribe. split.
  - intros e -> ->. done.
  - intros Herr.
    assert (Hfatal :
      match err with
      | Some e =>
          if negb (aws.Contains (aws.Error_ e) "TargetGroupNotFound")
          then Some e else None
      | None => None
      end = None).
    { destruct Herr as [-> | (e & -> & ->)]; done. }
    rewrite Hfatal. split_and!.
    + by intros group arn -> ->.
    + intros Hlen. destruct groups as [|g1 [|g2 groups]]; simpl in Hlen; [lia..|done].
    + by intros ->.
Qed.

(** X19. The creation of a target group: the group is created under the
    given name with the node port, protocol TCP and target type instance,
    in the given VPC. If the provider then reports no reservation for the
    VPC of the client, the call panics, the group having been created.
    Otherwise the instances registered as targets are those of the first
    reservation, each on the node port, and no other; and when the
    registration succeeds the ARN of the created group is returned. *)
Theorem created_group_registers_the_first_reservation
    cfg c vpcId targetGroupName nodePort c1 group created c2 reservations :
  aws.CreateTargetGroup c
    (aws.mkCreateTargetGroupInput targetGroupName nodePort "TCP" "instance" vpcId)
  = (c1, (group :: created, None)) →
  aws.DescribeInstances c1 [("vpc-id", [aws.VPC cfg])] = (c2, (reservations, None)) →
  let result :=
    aws.client.createTargetGroup cfg c vpcId targetGroupName nodePort in
  match reservations with
  | [] => result = (c2, Panic)
  | reservation :: _ =>
      ∀ c3 rerr arn,
        aws.RegisterTargets c2
          (aws.mkRegisterTargetsInput (aws.TargetGroupArn group)
             ((λ i, aws.mkTargetDescription (aws.InstanceId i) (Some nodePort))
                <$> aws.Instances reservation))
        = (c3, rerr) →
        aws.TargetGroupArn group = Some arn →
        result
        = (c3, Ok (match rerr with
                   | Some e => ("", Some e)
                   | None => (arn, None)
                   end))
  end.
Proof.
  intros Hcreate Hinstances result. unfold result, aws.client.createTargetGroup.
  unfold aws.client.ProtocolEnumTcp, aws.client.TargetTypeEnumInstance.
  rewrite Hcreate, Hinstances.
  destruct reservations as [|reservation reservations]; [done|].
  intros c3 rerr arn -> ->. by destruct rerr.
Qed.

(** X20. When [CreateNLBListenerForPort] returns handles, the provider
    knew exactly one load balancer of the given name, the second handle is
    the target group [GetTargetGroupArn] returned for the node port in the
    VPC of the client, and the first is the ARN of the first listener the
    provider returned for a creation on that load balancer, on the given
    port, with the protocol of the client and one action of the client's
    type to that target group. When the provider fails to describe the
    load balancer, or knows none or several of the name, the call returns
    an error and nothing more is asked of the provider. *)
Theorem created_listener_is_on_the_unique_load_balancer
    cfg c nlbName port nodePort svcName :
  let result :=
    aws.client.CreateNLBListenerForPort cfg c nlbName port nodePort svcName in
  (∀ c' listenerArn targetArn,
     result = (c', Ok (listenerArn, targetArn, None)) →
     ∃ c1 nlb c2 listener listeners,
       aws.DescribeLoadBalancers c [nlbName] = (c1, ([nlb], None))
       ∧ aws.client.GetTargetGroupArn cfg c1 (aws.VPC cfg) nodePort
         = (c2, Ok (targetArn, None))
       ∧ aws.CreateListener c2
           (aws.mkCreateListenerInput
              [aws.mkAction None (Some targetArn) (Some (aws.actionType cfg))]
              (aws.LoadBalancerArn nlb) port (aws.protocol cfg))
         = (c', (listener :: listeners, None))
       ∧ aws.ListenerArn listener = Some listenerArn)
  ∧ (∀ c1 loadBalancers err,
       aws.DescribeLoadBalancers c [nlbName] = (c1, (loadBalancers, err)) →
       (∀ e, err = Some e → result = (c1, Ok ("", "", Some e)))
       ∧ (err = None → length loadBalancers ≠ 1%nat →
          result
          = (c1, Ok ("", "",
                     Some (ErrorString ("aws: " +:+ nlbName +:+ " nlb not found")))))).
Proof.
  intros result. unfold result, aws.client.CreateNLBListenerForPort. split.
  - intros c' listenerArn targetArn.
    destruct (aws.DescribeLoadBalancers c [nlbName])
      as [c1 [[|nlb [|nlb2 lbs]] [e|]]] eqn:Hdescribe; try done.
    destruct (aws.client.GetTargetGroupArn cfg c1 (aws.VPC cfg) nodePort)
      as [c2 [[tg [e|]]|]] eqn:Hgroup; try done.
    destruct (aws.CreateListener c2 _)
      as [c3 [[|listener listeners] [e|]]] eqn:Hcreate; try done.
    destruct (aws.ListenerArn listener) as [arn|] eqn:Harn; [|done].
    intros [= <- <- <-]. exists c1, nlb, c2, listener, listeners. by split_and!.
  - intros c1 loadBalancers err ->. split.
    + by intros e ->.
    + intros -> Hlen. by destruct loadBalancers as [|nlb [|nlb2 lbs]].
Qed.

End client_facts.

(** * The further properties at concrete inputs *)

Section more_examples.

Import store corev1 controllers ledger.

Lemma vacancy_scan_occupies_exactly_the_returned_pair_witness :
  GetVacantNLBAndPortForService ["lb1"] example.ledger1_a "ns/b"
  = (mkStore (ServiceAllocationMap example.ledger1_a)
       {["lb1" := {[9000 := "ns/a"; 9001 := "ns/b"]}]} {["lb1" := "host1"]},
     ("lb1", 9001, None))
  ∧ occupant example.ledger1_a "lb1" 9001 = None
  ∧ occupant (GetVacantNLBAndPortForService ["lb1"] example.ledger1_a "ns/b").1
      "lb1" 9000
    = occupant example.ledger1_a "lb1" 9000.
Proof.
  assert (Hscan : GetVacantNLBAndPortForService ["lb1"] example.ledger1_a "ns/b"
            = (mkStore (ServiceAllocationMap example.ledger1_a)
                 {["lb1" := {[9000 := "ns/a"; 9001 := "ns/b"]}]} {["lb1" := "host1"]},
               ("lb1", 9001, None))) by (vm_compute; reflexivity).
  split; [exact Hscan|].
  pose proof (vacancy_scan_occupies_exactly_the_returned_pair
                ["lb1"] example.ledger1_a "ns/b") as Hframe.
  rewrite Hscan in Hframe. destruct Hframe as (Hfree & _ & Hother & _).
  split; [exact Hfree|].
  rewrite Hscan. apply Hother. discriminate.
Defined.

Lemma release_frees_the_recorded_pair_only_witness :
  GetAllocationForSVC example.ledger1_a "ns/a"
  = Some (mkAllocation "L" "T" "lb1" 9000 "ns/a")
  ∧ occupant (ReleaseNLBAndPortForService example.ledger1_a "ns/a" "" 0) "lb1" 9000
    = None
  ∧ GetAllocationForSVC (ReleaseNLBAndPortForService example.ledger1_a "ns/a" "" 0)
      "ns/a" = None.
Proof.
  assert (Ha : GetAllocationForSVC example.ledger1_a "ns/a"
               = Some (mkAllocation "L" "T" "lb1" 9000 "ns/a"))
    by (vm_compute; reflexivity).
  split; [exact Ha|].
  destruct (release_frees_the_recorded_pair_only example.ledger1_a "ns/a" "" 0)
    as (Hgone & Hfreed & _).
  split; [exact (Hfreed _ Ha) | exact Hgone].
Defined.

Lemma release_undoes_assignment_witness :
  occupant example.ledger1 "lb1" 9000 = None
  ∧ GetAllocationForSVC example.ledger1 "ns/a" = None
  ∧ AssignNLBAndPortToServiceInNamespace example.ledger1 "lb1" 9000 "ns/a" "L" "T"
    = (example.ledger1_a, Ok None)
  ∧ ReleaseNLBAndPortForService example.ledger1_a "ns/a" "lb1" 9000 = example.ledger1.
Proof.
  assert (Hfree : occupant example.ledger1 "lb1" 9000 = None)
    by (vm_compute; reflexivity).
  assert (Hnone : GetAllocationForSVC example.ledger1 "ns/a" = None)
    by (vm_compute; reflexivity).
  assert (Hassign :
    AssignNLBAndPortToServiceInNamespace example.ledger1 "lb1" 9000 "ns/a" "L" "T"
    = (example.ledger1_a, Ok None)) by (vm_compute; reflexivity).
  split_and!; [exact Hfree | exact Hnone | exact Hassign |].
  exact (release_undoes_assignment _ _ _ _ _ _ _ "lb1" 9000 Hfree Hnone Hassign).
Defined.

Lemma reassignment_leaks_the_previous_pair_witness :
  let s2 := mkStore {["ns/a" := mkAllocation "L2" "T2" "lb1" 9005 "ns/a"]}
              {["lb1" := {[9000 := "ns/a"; 9005 := "ns/a"]}]} {["lb1" := "host1"]} in
  AssignNLBAndPortToServiceInNamespace example.ledger1 "lb1" 9000 "ns/a" "L" "T"
  = (example.ledger1_a, Ok None)
  ∧ AssignNLBAndPortToServiceInNamespace example.ledger1_a "lb1" 9005 "ns/a" "L2" "T2"
    = (s2, Ok None)
  ∧ occupant (ReleaseNLBAndPortForService s2 "ns/a" "lb1" 9005) "lb1" 9000
    = Some "ns/a"
  ∧ GetAllocationForSVC (ReleaseNLBAndPortForService s2 "ns/a" "lb1" 9005) "ns/a"
    = None.
Proof.
  intros s2.
  assert (H1 :
    AssignNLBAndPortToServiceInNamespace example.ledger1 "lb1" 9000 "ns/a" "L" "T"
    = (example.ledger1_a, Ok None)) by (vm_compute; reflexivity).
  assert (H2 :
    AssignNLBAndPortToServiceInNamespace example.ledger1_a "lb1" 9005 "ns/a" "L2" "T2"
    = (s2, Ok None)) by (vm_compute; reflexivity).
  assert (Hne : ("lb1", 9000) ≠ ("lb1", 9005)) by discriminate.
  split_and!; [exact H1 | exact H2 | |].
  - exact (proj1 (proj2 (reassignment_leaks_the_previous_pair
                           _ _ _ _ _ _ _ _ _ _ _ _ H1 H2 Hne))).
  - exact (proj1 (proj2 (proj2 (reassignment_leaks_the_previous_pair
                                  _ _ _ _ _ _ _ _ _ _ _ _ H1 H2 Hne)))).
Defined.

Lemma ledger_calls_keep_the_pool_witness :
  runOps example.ledger1
    [GetVacant ["lb1"] "ns/a"; Assign "lb1" 9000 "ns/a" "L" "T"]
  = Ok example.ledger1_a
  ∧ dom (NlbAllocationMap example.ledger1_a) = dom (NlbAllocationMap example.ledger1)
  ∧ NlbHosts example.ledger1_a = NlbHosts example.ledger1.
Proof.
  assert (Hrun : runOps example.ledger1
            [GetVacant ["lb1"] "ns/a"; Assign "lb1" 9000 "ns/a" "L" "T"]
          = Ok example.ledger1_a) by (vm_compute; reflexivity).
  split; [exact Hrun|].
  destruct (ledger_calls_keep_the_pool _ _ _ Hrun) as (Hdom & Hhosts & _).
  split; [exact Hdom | exact Hhosts].
Defined.

Lemma New_returns_iff_every_entry_has_a_colon_witness :
  Split "lb1:host1,lb2" "," = ["lb1:host1"; "lb2"]
  ∧ ¬ (∃ s, New "lb1:host1,lb2" = Ok s)
  ∧ ¬ (∃ s, New "" = Ok s)
  ∧ ∃ s, New "lb1:host1" = Ok s.
Proof.
  split; [vm_compute; reflexivity|]. split_and!.
  - intros Hok.
    apply (proj1 (proj2 (New_returns_iff_every_entry_has_a_colon "lb1:host1,lb2")))
      in Hok.
    change (Split "lb1:host1,lb2" ",") with ["lb1:host1"; "lb2"] in Hok.
    apply Forall_cons in Hok as [_ Hok]. apply Forall_cons in Hok as [Hok _].
    simpl in Hok. decompose [or] Hok; discriminate || contradiction.
  - intros Hok.
    apply (proj1 (proj2 (New_returns_iff_every_entry_has_a_colon ""))) in Hok.
    change (Split "" ",") with [""] in Hok.
    apply Forall_cons in Hok as [Hok _]. exact Hok.
  - apply (proj2 (proj2 (New_returns_iff_every_entry_has_a_colon "lb1:host1"))).
    change (Split "lb1:host1" ",") with ["lb1:host1"].
    constructor; [|constructor]. simpl. tauto.
Defined.

Lemma New_builds_the_pool_from_the_entries_witness :
  New "lb1:host1:443,:nohost" = Ok example.ledger1
  ∧ empty example.ledger1
  ∧ dom (NlbHosts example.ledger1) = dom (NlbAllocationMap example.ledger1).
Proof.
  assert (Hnew : New "lb1:host1:443,:nohost" = Ok example.ledger1)
    by (vm_compute; reflexivity).
  split; [exact Hnew|].
  destruct (New_builds_the_pool_from_the_entries _ _ Hnew) as (Hempty & _ & _ & Hdom).
  split; [exact Hempty | exact Hdom].
Defined.

Lemma pass_for_a_service_that_is_gone_witness :
  let r := example.reconcilerOn ∅ example.ledger1_a None None in
  client.Get (Client r) example.reqA = inr (StatusError "NotFound" "services not found")
  ∧ ∃ s',
      Reconcile ["lb1"] example.reqA r
      = (mkServiceReconciler (Client r) s' (AwsClient r),
         [CallDeleteListenerAndTargetArn "L" "T" None],
         Ok (mkResult false, None))
      ∧ GetAllocationForSVC s' "ns/a" = None
      ∧ occupant s' "lb1" 9000 = None.
Proof.
  intros r.
  assert (Hget : client.Get (Client r) example.reqA
                 = inr (StatusError "NotFound" "services not found"))
    by (vm_compute; reflexivity).
  split; [exact Hget|].
  pose proof (pass_for_a_service_that_is_gone ["lb1"] example.reqA r _ Hget
                eq_refl) as Hpass.
  change (GetAllocationForSVC (Store r) (types.String_ example.reqA))
    with (Some (mkAllocation "L" "T" "lb1" 9000 "ns/a")) in Hpass.
  destruct Hpass as (a1 & derr & Hdelete & Hpass).
  injection Hdelete as <- <-.
  destruct Hpass as (s' & Hrun & Hgone & Hfree & _).
  exists s'. split_and!; [exact Hrun | exact Hgone | exact Hfree].
Defined.

Lemma pass_deletes_only_what_it_created_witness :
  let r := example.reconciler example.svcA (Some (ErrorString "conflict"))
             ("L", "T", None) (Some (ErrorString "down")) in
  let svc' := recordBinding "lb1" "host1" 9000 "L" "T" example.svcA in
  let calls :=
    [CallCreateNLBListenerForPort "lb1" 9000 30080 "ns/a" ("L", "T", None);
     CallUpdate svc' (Some (ErrorString "conflict"));
     CallDeleteListenerAndTargetArn "L" "T" (Some (ErrorString "down"))] in
  client.Get (Client r) example.reqA = inl example.svcA
  ∧ Reconcile ["lb1"] example.reqA r
    = (r, calls, Ok (mkResult false, Some (ErrorString "down")))
  ∧ ∃ nlb port nodePort svc'' e,
      CallCreateNLBListenerForPort nlb port nodePort "ns/a" ("L", "T", None) ∈ calls
      ∧ CallUpdate svc'' (Some e) ∈ calls.
Proof.
  intros r svc' calls.
  assert (Hget : client.Get (Client r) example.reqA = inl example.svcA)
    by (vm_compute; reflexivity).
  assert (Hrun : Reconcile ["lb1"] example.reqA r
            = (r, calls, Ok (mkResult false, Some (ErrorString "down"))))
    by (vm_compute; reflexivity).
  assert (Hdelete :
    CallDeleteListenerAndTargetArn "L" "T" (Some (ErrorString "down")) ∈ calls)
    by apply list_elem_of_further, list_elem_of_further, list_elem_of_here.
  split_and!; [exact Hget | exact Hrun |].
  exact (pass_deletes_only_what_it_created _ _ _ _ _ _ _ _ _ _ Hget Hrun Hdelete).
Defined.

Lemma ledger1_full_is_full nlb :
  is_Some (NlbAllocationMap example.ledger1_full !! nlb) →
  full example.ledger1_full nlb.
Proof.
  intros [ports Hnlb] q Hq%elem_of_portRange.
  unfold example.ledger1_full in Hnlb. cbn [NlbAllocationMap] in Hnlb.
  apply lookup_singleton_Some in Hnlb as [<- <-].
  unfold occupant, example.ledger1_full. cbn [NlbAllocationMap].
  rewrite lookup_singleton_eq.
  assert (Hall :
    forallb (λ p, bool_decide
                    (is_Some ((list_to_map ((λ port, (port, "ns/x")) <$> portRange)
                               : gmap Z string) !! p)))
      portRange = true) by (vm_compute; reflexivity).
  rewrite forallb_forall in Hall. apply list_elem_of_In, Hall in Hq.
  by apply bool_decide_eq_true in Hq.
Qed.

Lemma pass_on_an_exhausted_pool_witness :
  let r := example.reconcilerOn {["ns/a" := example.svcA]} example.ledger1_full
             None None in
  client.Get (Client r) example.reqA = inl example.svcA
  ∧ annotation example.svcA nlbAnnotationNLBName = ""
  ∧ Reconcile ["lb1"] example.reqA r
    = (r, [], Ok (mkResult true, Some (ErrorString "no vacancy found"))).
Proof.
  intros r.
  assert (Hget : client.Get (Client r) example.reqA = inl example.svcA)
    by (vm_compute; reflexivity).
  assert (Hname : annotation example.svcA nlbAnnotationNLBName = "")
    by (vm_compute; reflexivity).
  split_and!; [exact Hget | exact Hname |].
  exact (pass_on_an_exhausted_pool ["lb1"] example.reqA r example.svcA
           Hget eq_refl Hname ledger1_full_is_full).
Defined.

Lemma written_record_agrees_with_the_ledger_witness :
  let r := example.reconciler example.svcA None ("L", "T", None) None in
  let svc' := example.svcA_bound in
  let r1 := mkServiceReconciler (fake.mkCluster {["ns/a" := svc']} None)
              example.ledger1_a (fake.mkProvider ("L", "T", None) None None) in
  Reconcile ["lb1"] example.reqA r
  = (r1,
     [CallCreateNLBListenerForPort "lb1" 9000 30080 "ns/a" ("L", "T", None);
      CallUpdate svc' None],
     Ok (mkResult false, None))
  ∧ ∃ a,
      GetAllocationForSVC (Store r1) "ns/a" = Some a
      ∧ annotation svc' nlbAnnotationNLBName = NLB a
      ∧ annotation svc' nlbAnnotationNLBHost = GetNLBHost (Store r1) (NLB a)
      ∧ annotation svc' nlbAnnotationPort = strconv.Itoa (Port a).
Proof.
  intros r svc' r1.
  assert (Hrun : Reconcile ["lb1"] example.reqA r
            = (r1,
               [CallCreateNLBListenerForPort "lb1" 9000 30080 "ns/a" ("L", "T", None);
                CallUpdate svc' None],
               Ok (mkResult false, None)))
    by (vm_compute; reflexivity).
  split; [exact Hrun|].
  destruct (written_record_agrees_with_the_ledger _ _ _ _ _ _ svc' Hrun
              (list_elem_of_further _ _ _ (list_elem_of_here _ _)))
    as (a & Ha & _ & Hname & Hhost & Hport & _).
  exists a. split_and!; [exact Ha | exact Hname | exact Hhost | exact Hport].
Defined.

Lemma failed_write_restores_the_ledger_witness :
  let r := example.reconciler example.svcA (Some (ErrorString "conflict"))
             ("L", "T", None) None in
  let svc' := example.svcA_bound in
  let calls :=
    [CallCreateNLBListenerForPort "lb1" 9000 30080 "ns/a" ("L", "T", None);
     CallUpdate svc' (Some (ErrorString "conflict"));
     CallDeleteListenerAndTargetArn "L" "T" None] in
  GetAllocationForSVC (Store r) "ns/a" = None
  ∧ Reconcile ["lb1"] example.reqA r = (r, calls, Ok (mkResult true, None))
  ∧ Store r = example.ledger1.
Proof.
  intros r svc' calls.
  assert (Hnone : GetAllocationForSVC (Store r) (types.String_ example.reqA) = None)
    by (vm_compute; reflexivity).
  assert (Hrun : Reconcile ["lb1"] example.reqA r
                 = (r, calls, Ok (mkResult true, None)))
    by (vm_compute; reflexivity).
  split_and!; [exact Hnone | exact Hrun |].
  exact (failed_write_restores_the_ledger _ _ _ _ _ _ svc' _ Hnone Hrun
           (list_elem_of_further _ _ _ (list_elem_of_here _ _))).
Defined.

Lemma failed_creation_leaks_the_reserved_pair_witness :
  let r := example.reconciler example.svcA None
             ("", "", Some (ErrorString "boom")) None in
  let r' := mkServiceReconciler (Client r)
              (mkStore ∅ {["lb1" := {[9000 := "ns/a"]}]} {["lb1" := "host1"]})
              (AwsClient r) in
  GetAllocationForSVC (Store r) "ns/a" = None
  ∧ Reconcile ["lb1"] example.reqA r
    = (r',
       [CallCreateNLBListenerForPort "lb1" 9000 30080 "ns/a"
          ("", "", Some (ErrorString "boom"))],
       Ok (mkResult true, Some (ErrorString "boom")))
  ∧ occupant (Store r') "lb1" 9000 = Some "ns/a"
  ∧ ReleaseNLBAndPortForService (Store r') "ns/a" "lb1" 9000 = Store r'.
Proof.
  intros r r'.
  assert (Hnone : GetAllocationForSVC (Store r) (types.String_ example.reqA) = None)
    by (vm_compute; reflexivity).
  assert (Hrun : Reconcile ["lb1"] example.reqA r
            = (r',
               [CallCreateNLBListenerForPort "lb1" 9000 30080 "ns/a"
                  ("", "", Some (ErrorString "boom"))],
               Ok (mkResult true, Some (ErrorString "boom"))))
    by (vm_compute; reflexivity).
  split_and!; [exact Hnone | exact Hrun | |];
    destruct (failed_creation_leaks_the_reserved_pair _ _ _ _ _ _ _ _ _ _ _ _ _
                Hnone Hrun (list_elem_of_here _ _))
      as (_ & Hocc & _ & Hrelease & _).
  - exact Hocc.
  - exact (Hrelease "lb1" 9000).
Defined.

Lemma valid_record_is_adopted_by_the_ledger_witness :
  let r := example.reconcilerOn {["ns/a" := example.svcA_bound]} example.ledger1
             None None in
  client.Get (Client r) example.reqA = inl example.svcA_bound
  ∧ occupant (Store r) "lb1" 9000 = None
  ∧ ∃ s',
      Reconcile ["lb1"] example.reqA r
      = (mkServiceReconciler (Client r) s' (AwsClient r),
         [CallCheckListener "L" "T" "lb1" 9000 30080 None],
         Ok (mkResult false, None))
      ∧ GetAllocationForSVC s' "ns/a" = Some (mkAllocation "L" "T" "lb1" 9000 "ns/a").
Proof.
  intros r.
  assert (Hget : client.Get (Client r) example.reqA = inl example.svcA_bound)
    by (vm_compute; reflexivity).
  assert (Hfree : occupant (Store r) "lb1" 9000 = None)
    by (vm_compute; reflexivity).
  split_and!; [exact Hget | exact Hfree |].
  assert (Hname : annotation example.svcA_bound nlbAnnotationNLBName = "lb1")
    by (vm_compute; reflexivity).
  assert (Hatoi : strconv.Atoi (annotation example.svcA_bound nlbAnnotationPort)
                  = Some 9000) by (vm_compute; reflexivity).
  assert (Hcheck :
    aws.CheckListener (AwsClient r)
      (annotation example.svcA_bound nlbAnnotationListener)
      (annotation example.svcA_bound nlbAnnotationTarget) "lb1" 9000
      (NodePort (mkServicePort 30080)) = (AwsClient r, None)) by reflexivity.
  assert (Hpool : is_Some (NlbAllocationMap (Store r) !! "lb1"))
    by (vm_compute; eauto).
  assert (Hne : "lb1" ≠ "") by discriminate.
  destruct (valid_record_is_adopted_by_the_ledger ["lb1"] example.reqA r
              example.svcA_bound "lb1" 9000 (mkServicePort 30080) [] (AwsClient r)
              Hget eq_refl Hname Hne Hatoi eq_refl Hcheck Hpool (or_introl Hfree))
    as (s' & Hrun & Hrecord & _).
  exists s'. split; [exact Hrun | exact Hrecord].
Defined.

Lemma record_of_a_pair_held_by_another_is_reallocated_witness :
  let held := mkStore {["ns/b" := mkAllocation "L" "T" "lb1" 9000 "ns/b"]}
                {["lb1" := {[9000 := "ns/b"]}]} {["lb1" := "host1"]} in
  let r := example.reconcilerOn {["ns/a" := example.svcA_bound]} held None None in
  client.Get (Client r) example.reqA = inl example.svcA_bound
  ∧ occupant (Store r) "lb1" 9000 = Some "ns/b"
  ∧ (Reconcile ["lb1"] example.reqA r).1.2
    = [CallCheckListener "L" "T" "lb1" 9000 30080 None;
       CallCreateNLBListenerForPort "lb1" 9001 30080 "ns/a" ("L", "T", None);
       CallUpdate (recordBinding "lb1" "host1" 9001 "L" "T" example.svcA_bound) None].
Proof.
  intros held r.
  assert (Hget : client.Get (Client r) example.reqA = inl example.svcA_bound)
    by (vm_compute; reflexivity).
  assert (Hocc : occupant (Store r) "lb1" 9000 = Some "ns/b")
    by (vm_compute; reflexivity).
  split_and!; [exact Hget | exact Hocc |].
  assert (Hname : annotation example.svcA_bound nlbAnnotationNLBName = "lb1")
    by (vm_compute; reflexivity).
  assert (Hatoi : strconv.Atoi (annotation example.svcA_bound nlbAnnotationPort)
                  = Some 9000) by (vm_compute; reflexivity).
  assert (Hcheck :
    aws.CheckListener (AwsClient r)
      (annotation example.svcA_bound nlbAnnotationListener)
      (annotation example.svcA_bound nlbAnnotationTarget) "lb1" 9000
      (NodePort (mkServicePort 30080)) = (AwsClient r, None)) by reflexivity.
  assert (Hne : "lb1" ≠ "") by discriminate.
  assert (Hother : "ns/b" ≠ types.String_ example.reqA) by discriminate.
  rewrite (record_of_a_pair_held_by_another_is_reallocated ["lb1"] example.reqA r
             example.svcA_bound "lb1" 9000 (mkServicePort 30080) [] (AwsClient r)
             "ns/b" Hget eq_refl Hname Hne Hatoi eq_refl Hcheck Hocc Hother).
  vm_compute. reflexivity.
Defined.

Lemma pass_keeps_the_ledger_sound_witness :
  let r := example.reconciler example.svcA None ("L", "T", None) None in
  let r1 := mkServiceReconciler
              (fake.mkCluster {["ns/a" := example.svcA_bound]} None)
              example.ledger1_a (fake.mkProvider ("L", "T", None) None None) in
  consistent (Store r)
  ∧ Reconcile ["lb1"] example.reqA r
    = (r1,
       [CallCreateNLBListenerForPort "lb1" 9000 30080 "ns/a" ("L", "T", None);
        CallUpdate example.svcA_bound None],
       Ok (mkResult false, None))
  ∧ consistent (Store r1)
  ∧ dom (NlbAllocationMap (Store r1)) = dom (NlbAllocationMap (Store r)).
Proof.
  intros r r1.
  assert (Hcons : consistent (Store r))
    by exact (empty_consistent _ (proj1 (New_empty _ _ New_ledger1))).
  assert (Hrun : Reconcile ["lb1"] example.reqA r
            = (r1,
               [CallCreateNLBListenerForPort "lb1" 9000 30080 "ns/a" ("L", "T", None);
                CallUpdate example.svcA_bound None],
               Ok (mkResult false, None)))
    by (vm_compute; reflexivity).
  split_and!; [exact Hcons | exact Hrun | |];
    destruct (pass_keeps_the_ledger_sound _ _ _ _ _ _ Hcons Hrun)
      as (Hcons1 & Hdom & _).
  - exact Hcons1.
  - exact Hdom.
Defined.

Lemma validation_accepts_only_a_matching_listener_witness :
  let provider := example.sdk ([aws.mkTargetGroup (Some "T") (Some 30080)], None) in
  aws.client.CheckListener provider "L" "T" "lb1" 9000 30080
  = (fake.called "DescribeTargetGroups" (fake.called "DescribeListeners" provider),
     Ok None)
  ∧ aws.client.CheckListener provider "L" "T" "lb1" 9005 30080
    = (fake.called "DescribeListeners" provider,
       Ok (Some (ErrorString "aws: listener port and svcNLBPort dont match"))).
Proof.
  intros provider. split; [vm_compute; reflexivity|].
  destruct (validation_accepts_only_a_matching_listener provider "L" "T" "lb1"
              9005 30080) as (_ & Hport & _).
  apply (Hport (fake.called "DescribeListeners" provider)
           (aws.mkListener (Some "L") (Some 9000)
              [aws.mkAction (Some [aws.mkTargetGroupTuple (Some "T")]) None None])
           [] 9000).
  - reflexivity.
  - reflexivity.
  - discriminate.
Defined.

Lemma target_group_is_looked_up_before_it_is_created_witness :
  let provider := example.sdk ([aws.mkTargetGroup (Some "T") (Some 30080)], None) in
  aws.DescribeTargetGroups provider
    (aws.mkDescribeTargetGroupsInput [strconv.Itoa 30080] [] (Some 50))
  = (fake.called "DescribeTargetGroups" provider,
     ([aws.mkTargetGroup (Some "T") (Some 30080)], None))
  ∧ aws.client.GetTargetGroupArn (aws.client.New "vpc-1") provider "vpc-1" 30080
    = (fake.called "DescribeTargetGroups" provider, Ok ("T", None)).
Proof.
  intros provider.
  assert (Hdescribe :
    aws.DescribeTargetGroups provider
      (aws.mkDescribeTargetGroupsInput [strconv.Itoa 30080] [] (Some 50))
    = (fake.called "DescribeTargetGroups" provider,
       ([aws.mkTargetGroup (Some "T") (Some 30080)], None))) by reflexivity.
  split; [exact Hdescribe|].
  destruct (target_group_is_looked_up_before_it_is_created
              (aws.client.New "vpc-1") provider "vpc-1" 30080 _ _ _ Hdescribe)
    as (_ & Hfound).
  destruct (Hfound (or_introl eq_refl)) as (Hone & _).
  exact (Hone _ "T" eq_refl eq_refl).
Defined.

Lemma created_group_registers_the_first_reservation_witness :
  let provider :=
    example.sdk ([], Some (AwsError "TargetGroupNotFound" "no such group")) in
  let cfg := aws.client.New "vpc-1" in
  aws.RegisterTargets
    (fake.called "DescribeInstances" (fake.called "CreateTargetGroup" provider))
    (aws.mkRegisterTargetsInput (Some "T")
       [aws.mkTargetDescription (Some "i-1") (Some 30080);
        aws.mkTargetDescription (Some "i-2") (Some 30080)])
  = (fake.called "RegisterTargets"
       (fake.called "DescribeInstances" (fake.called "CreateTargetGroup" provider)),
     None)
  ∧ aws.client.createTargetGroup cfg provider "vpc-1" "30080" 30080
    = (fake.called "RegisterTargets"
         (fake.called "DescribeInstances" (fake.called "CreateTargetGroup" provider)),
       Ok ("T", None)).
Proof.
  intros provider cfg. split; [reflexivity|].
  pose proof (created_group_registers_the_first_reservation cfg provider
                "vpc-1" "30080" 30080
                (fake.called "CreateTargetGroup" provider)
                (aws.mkTargetGroup (Some "T") (Some 30080)) []
                (fake.called "DescribeInstances"
                   (fake.called "CreateTargetGroup" provider))
                [aws.mkReservation
                   [aws.mkInstance (Some "i-1"); aws.mkInstance (Some "i-2")];
                 aws.mkReservation [aws.mkInstance (Some "i-3")]]
                eq_refl eq_refl) as Hcreated.
  exact (Hcreated _ None "T" eq_refl eq_refl).
Defined.

Lemma created_listener_is_on_the_unique_load_balancer_witness :
  let provider := example.sdk ([aws.mkTargetGroup (Some "T") (Some 30080)], None) in
  let cfg := aws.client.New "vpc-1" in
  let c' := fake.called "CreateListener"
              (fake.called "DescribeTargetGroups"
                 (fake.called "DescribeLoadBalancers" provider)) in
  aws.client.CreateNLBListenerForPort cfg provider "lb1" 9000 30080 "ns/a"
  = (c', Ok ("L", "T", None))
  ∧ ∃ c1 nlb c2,
      aws.DescribeLoadBalancers provider ["lb1"] = (c1, ([nlb], None))
      ∧ aws.client.GetTargetGroupArn cfg c1 (aws.VPC cfg) 30080 = (c2, Ok ("T", None)).
Proof.
  intros provider cfg c'.
  assert (Hresult :
    aws.client.CreateNLBListenerForPort cfg provider "lb1" 9000 30080 "ns/a"
    = (c', Ok ("L", "T", None))) by (vm_compute; reflexivity).
  split; [exact Hresult|].
  destruct (proj1 (created_listener_is_on_the_unique_load_balancer cfg provider
                     "lb1" 9000 30080 "ns/a") _ _ _ Hresult)
    as (c1 & nlb & c2 & listener & listeners & Hlb & Hgroup & _).
  exists c1, nlb, c2. split; [exact Hlb | exact Hgroup].
Defined.

Lemma two_allocating_passes_bind_different_pairs_witness :
  let r := example.reconciler example.svcA None ("L", "T", None) None in
  let r1 := mkServiceReconciler
              (fake.mkCluster {["ns/a" := example.svcA_bound]} None)
              example.ledger1_a (fake.mkProvider ("L", "T", None) None None) in
  let r1' := example.reconcilerOn {["ns/a" := example.svcA]} example.ledger1_a
               None None in
  let svc2' := recordBinding "lb1" "host1" 9001 "L" "T" example.svcA in
  Reconcile ["lb1"] example.reqA r
  = (r1,
     [CallCreateNLBListenerForPort "lb1" 9000 30080 "ns/a" ("L", "T", None);
      CallUpdate example.svcA_bound None],
     Ok (mkResult false, None))
  ∧ (Reconcile ["lb1"] example.reqA r1').1.2
    = [CallCreateNLBListenerForPort "lb1" 9001 30080 "ns/a" ("L", "T", None);
       CallUpdate svc2' None]
  ∧ (annotation example.svcA_bound nlbAnnotationNLBName,
     annotation example.svcA_bound nlbAnnotationPort)
    ≠ (annotation svc2' nlbAnnotationNLBName, annotation svc2' nlbAnnotationPort).
Proof.
  intros r r1 r1' svc2'.
  assert (Hrun1 : Reconcile ["lb1"] example.reqA r
            = (r1,
               [CallCreateNLBListenerForPort "lb1" 9000 30080 "ns/a" ("L", "T", None);
                CallUpdate example.svcA_bound None],
               Ok (mkResult false, None)))
    by (vm_compute; reflexivity).
  assert (Hcalls2 : (Reconcile ["lb1"] example.reqA r1').1.2
            = [CallCreateNLBListenerForPort "lb1" 9001 30080 "ns/a" ("L", "T", None);
               CallUpdate svc2' None])
    by (vm_compute; reflexivity).
  split_and!; [exact Hrun1 | exact Hcalls2 |].
  destruct (Reconcile ["lb1"] example.reqA r1') as [[r2 calls2] res2] eqn:Hrun2.
  simpl in Hcalls2. subst calls2.
  exact (two_allocating_passes_bind_different_pairs _ _ _ _ _ _ _ _ _ r1' _ _ _ _
           Hrun1 (list_elem_of_further _ _ _ (list_elem_of_here _ _)) eq_refl
           Hrun2 (list_elem_of_further _ _ _ (list_elem_of_here _ _))).
Defined.

End more_examples.
